(** * health-cli: mock health series, trend analytics and the Apple Health
      export scanner

    A shallow embedding of the TypeScript sources
    - [data/mockData.ts]    (generateMockHRV, generateMockSleep,
                             generateMockStatus, generateMockAlerts),
    - [commands/hrv.ts]     (hrvCommand, analyzeHRVTrend,
                             calculateStandardDeviation, generateHRVInsights),
    - [commands/sleep.ts]   (sleepCommand, analyzeSleepPattern, calculateTrend,
                             calculateSleepDebt, calculateSleepConsistency,
                             timeToMinutes, calculateAverageTime,
                             generateSleepInsights),
    - [commands/status.ts]  (statusCommand, generateHealthSummary,
                             generateRecommendations),
    - [commands/alert.ts]   (alertCommand, generateAlertRecommendations,
                             getNextCheckTime),
    - [commands/import.ts]  (importCommand, parseAppleHealthXML),
    - [utils/responses.ts]  (success, error, output, COMMON_ACTIONS),
    followed by the properties of the specification that concern them and by
    further properties of the code.

    Modelling conventions.
    - A JavaScript string that the program inspects is the list of its UTF-16
      code units ([jsstring]); fixed labels that are only passed along are
      Rocq strings.
    - A JavaScript [number] is an exact rational ([Q]); results of
      [Math.round] and [Math.floor] are integers injected back into [Q], and
      a field of tenths [k / 10] stands for the double nearest to it. The sum
      of the sleep debt, whose rounding error decides the reported status, is
      computed in IEEE 754 doubles ([Double], on the primitive floats). The
      properties stated over the rationals are either restricted to values
      on which the doubles of the program are exact (whole numbers) or have
      bounds that the rounding of doubles does not cross.
    - [Math.random] reads an explicit stream of draws that is threaded
      through the generators ([Rand]).
    - [new Date()] reads an explicit [Clock] that stands still during one
      call; the clock carries the time zone of the host as the two offset
      functions of ECMAScript, so that daylight-saving changes are part of
      the model. Properties that hold only where the offset never changes
      say so ([constantOffset]).
    - [Math.sqrt], which the rationals do not have, is a parameter of the
      functions that call it.
    - A thrown exception is a value ([outcome]); [NaN] is [None] in the
      fields that can hold it.
    - The file system of the import command is a record of functions
      ([Host]). *)

From Stdlib Require Import ZArith NArith QArith Qround Qminmax Qabs.
From Stdlib Require Import String Ascii Bool Lia Lqa DecimalString List Sorted Permutation.
From Stdlib Require PrimFloat FloatOps SpecFloat Uint63.
Import ListNotations.

Set Implicit Arguments.

(* ================================================================== *)
(** ** JavaScript strings as lists of UTF-16 code units *)
(* ================================================================== *)

Module Js.

Definition jsstring := list N.

(** The code units of an ASCII literal. *)
Definition utf16 (s : string) : jsstring :=
  map N_of_ascii (list_ascii_of_string s).

(** The double quote, U+0022. *)
Definition dq : jsstring := [34%N].

Fixpoint str_eqb (a b : jsstring) : bool :=
  match a, b with
  | [], [] => true
  | x :: a', y :: b' => N.eqb x y && str_eqb a' b'
  | _, _ => false
  end.

(** [s.startsWith(pat)] *)
Fixpoint startsWith (pat s : jsstring) : bool :=
  match pat, s with
  | [], _ => true
  | p :: pat', c :: s' => N.eqb p c && startsWith pat' s'
  | _ :: _, [] => false
  end.

(** [s.includes(pat)] *)
Fixpoint includes (s pat : jsstring) : bool :=
  startsWith pat s ||
  match s with
  | [] => false
  | _ :: s' => includes s' pat
  end.

(** WhiteSpace and LineTerminator code units, as stripped by [trim]. *)
Definition isWhite (c : N) : bool :=
  (N.leb 9 c && N.leb c 13) || N.eqb c 32 || N.eqb c 160 || N.eqb c 5760
  || (N.leb 8192 c && N.leb c 8202) || N.eqb c 8232 || N.eqb c 8233
  || N.eqb c 8239 || N.eqb c 8287 || N.eqb c 12288 || N.eqb c 65279.

Fixpoint trimStart (s : jsstring) : jsstring :=
  match s with
  | [] => []
  | c :: s' => if isWhite c then trimStart s' else s
  end.

Definition trimEnd (s : jsstring) : jsstring := rev (trimStart (rev s)).

(** [s.trim()] *)
Definition trim (s : jsstring) : jsstring := trimEnd (trimStart s).

(** [s.split(sep)[0]] for a one-unit separator: the text before its first
    occurrence, the whole string when it does not occur. *)
Fixpoint splitHead (sep : N) (s : jsstring) : jsstring :=
  match s with
  | [] => []
  | c :: s' => if N.eqb c sep then [] else c :: splitHead sep s'
  end.

(** Comparison of strings by code units, the order of the default
    [Array.prototype.sort]. *)
Fixpoint str_leb (a b : jsstring) : bool :=
  match a, b with
  | [], _ => true
  | _ :: _, [] => false
  | x :: a', y :: b' => N.ltb x y || (N.eqb x y && str_leb a' b')
  end.

Fixpoint insertSorted (x : jsstring) (l : list jsstring) : list jsstring :=
  match l with
  | [] => [x]
  | y :: l' => if str_leb x y then x :: l else y :: insertSorted x l'
  end.

(** [arr.sort()] on an array of strings. *)
Definition sort (l : list jsstring) : list jsstring :=
  fold_right insertSorted [] l.

(** A [Set<string>] in insertion order. *)
Definition set_has (s : list jsstring) (x : jsstring) : bool :=
  existsb (str_eqb x) s.

Definition set_add (s : list jsstring) (x : jsstring) : list jsstring :=
  if set_has s x then s else s ++ [x].

(** *** Regular expressions

    A pattern anchored at the head of the subject is a function returning the
    matched text and the text of its capture group (empty when the pattern
    has none). *)

Definition pattern := jsstring -> option (jsstring * jsstring).

(** [subject.match(re)] without the [g] flag: the leftmost match. *)
Fixpoint matchFirst (re : pattern) (s : jsstring) : option (jsstring * jsstring) :=
  match re s with
  | Some m => Some m
  | None =>
      match s with
      | [] => None
      | _ :: s' => matchFirst re s'
      end
  end.

(** [subject.match(re) || []] with the [g] flag: the matched texts from left
    to right, each search resuming where the previous match ended. [skip]
    counts the code units still covered by the previous match. *)
Fixpoint matchAllFrom (re : pattern) (skip : nat) (s : jsstring) : list jsstring :=
  match s with
  | [] => []
  | _ :: s' =>
      match skip with
      | S k => matchAllFrom re k s'
      | O =>
          match re s with
          | Some (m, _) => m :: matchAllFrom re (pred (length m)) s'
          | None => matchAllFrom re 0 s'
          end
      end
  end.

Definition matchAll (re : pattern) (s : jsstring) : list jsstring :=
  matchAllFrom re 0 s.

(** [[^c]*c] at the head of [s]: the run before the first [c], when there is
    one. *)
Fixpoint runUntil (c : N) (s : jsstring) : option jsstring :=
  match s with
  | [] => None
  | x :: s' =>
      if N.eqb x c then Some []
      else option_map (cons x) (runUntil c s')
  end.

(** [/<Name[^>]*>/] *)
Definition tagOpener (name : string) : pattern := fun s =>
  let lit := utf16 "<" ++ utf16 name in
  if startsWith lit s then
    match runUntil 62 (skipn (length lit) s) with
    | Some body => Some (lit ++ body ++ [62%N], [])
    | None => None
    end
  else None.

(** [/name=Q([^Q]+)Q/], where Q stands for the double quote. *)
Definition attribute (name : string) : pattern := fun s =>
  let lit := utf16 name ++ utf16 "=" ++ dq in
  if startsWith lit s then
    match runUntil 34 (skipn (length lit) s) with
    | Some (c :: v) => Some (lit ++ (c :: v) ++ dq, c :: v)
    | _ => None
    end
  else None.

Definition isUpper (c : N) : bool := N.leb 65 c && N.leb c 90.
Definition isLetter (c : N) : bool := isUpper c || (N.leb 97 c && N.leb c 122).

(** [/[A-Za-z]*lit/] at the head of [s]: the length of the match. The star is
    greedy: the longest run of letters that [lit] still follows wins. *)
Fixpoint lettersThen (lit s : jsstring) : option nat :=
  match s with
  | [] => if startsWith lit [] then Some (length lit) else None
  | c :: s' =>
      match (if isLetter c then lettersThen lit s' else None) with
      | Some n => Some (S n)
      | None => if startsWith lit s then Some (length lit) else None
      end
  end.

(** [/HK[A-Za-z]*TypeIdentifier/] at the head of [s]: the length of the
    match. *)
Definition hkPrefix (s : jsstring) : option nat :=
  if startsWith (utf16 "HK") s then
    option_map (fun n => 2 + n)%nat
               (lettersThen (utf16 "TypeIdentifier") (skipn 2 s))
  else None.

(** [s.replace(/HK[A-Za-z]*TypeIdentifier/, '')]: the leftmost match is
    removed. *)
Fixpoint stripHKPrefix (s : jsstring) : jsstring :=
  match hkPrefix s with
  | Some n => skipn n s
  | None =>
      match s with
      | [] => []
      | c :: s' => c :: stripHKPrefix s'
      end
  end.

(** [s.replace(/([A-Z])/g, ' $1')] *)
Definition spaceCapitals (s : jsstring) : jsstring :=
  flat_map (fun c => if isUpper c then [32%N; c] else [c]) s.

(** The decimal digits of a non-negative integer, as in a template
    literal. *)
Definition decimal (n : N) : jsstring :=
  utf16 (NilZero.string_of_uint (N.to_uint n)).

(** What a call does: it returns a value or throws. *)
Inductive exn := Error (message : jsstring) | TypeError.

Inductive outcome (A : Type) :=
| Returns (a : A)
| Throws (e : exn).
Arguments Throws {A} e.

End Js.

(* ================================================================== *)
(** ** commands/import.ts *)
(* ================================================================== *)

Module ImportCmd.
Import Js.

Record DateRange := { start : jsstring; end_ : jsstring }.

Record ParseResult := {
  recordCount : N;
  dataTypes : list jsstring;
  dateRange : DateRange;
  warnings : list jsstring
}.

Definition MalformedImport : exn :=
  Error (utf16 "Not a valid Apple Health export - missing HealthData root element").

Definition noRecordsWarning := utf16 "No health records found in export".
Definition largeDatasetWarning (recordCount : N) :=
  utf16 "Large dataset (" ++ decimal recordCount
        ++ utf16 " records) - processing limited for demo".
Definition hrvMissingWarning := utf16 "HRV data not found in export".
Definition sleepMissingWarning := utf16 "Sleep data not found in export".
Definition privacyNotice :=
  utf16 "NOTE: This is a parser demo - no personal health data is stored or transmitted".

(** The body of the [forEach] over the sampled record openers. *)
Definition collectType (dataTypes : list jsstring) (record : jsstring) : list jsstring :=
  match matchFirst (attribute "type") record with
  | Some (_, fullType) =>
      let simplifiedType := trim (spaceCapitals (stripHKPrefix fullType)) in
      set_add dataTypes simplifiedType
  | None => dataTypes
  end.

(** [.map(match => match.match(re)?.[1]).filter(Boolean)], where [re] is the
    [startDate] attribute pattern without the [g] flag. *)
Definition capturedDates (dateMatches : list jsstring) : list jsstring :=
  flat_map (fun m =>
              match matchFirst (attribute "startDate") m with
              | Some (_, c :: v) => [c :: v]
              | _ => []
              end) dateMatches.

Definition parseAppleHealthXML (xmlContent : jsstring) : outcome ParseResult :=
  if negb (includes xmlContent (utf16 "<HealthData")) then Throws MalformedImport
  else
    let recordMatches := matchAll (tagOpener "Record") xmlContent in
    let workoutMatches := matchAll (tagOpener "Workout") xmlContent in
    let recordCount := N.of_nat (length recordMatches + length workoutMatches) in
    let dataTypes := fold_left collectType (firstn 1000 recordMatches) [] in
    let dateMatches := matchAll (attribute "startDate") xmlContent in
    let dates := sort (capturedDates dateMatches) in
    let startDate :=
      match dates with
      | [] => []
      | d :: _ => splitHead 32 d
      end in
    let endDate :=
      match rev dates with
      | [] => []
      | d :: _ => splitHead 32 d
      end in
    let w1 := if N.eqb recordCount 0 then [noRecordsWarning] else [] in
    let w2 := if N.ltb 50000 recordCount then [largeDatasetWarning recordCount] else [] in
    let w3 := if negb (set_has dataTypes (utf16 "Heart Rate Variability SDNN"))
              then [hrvMissingWarning] else [] in
    let w4 := if negb (set_has dataTypes (utf16 "Sleep Analysis"))
              then [sleepMissingWarning] else [] in
    Returns {| recordCount := recordCount;
               dataTypes := sort dataTypes;
               dateRange := {| start := startDate; end_ := endDate |};
               warnings := w1 ++ w2 ++ w3 ++ w4 ++ [privacyNotice] |}.

(** The export of the specification's scanner example. *)
Definition sampleExport : jsstring :=
  utf16 "<HealthData><Record type=" ++ dq
  ++ utf16 "HKQuantityTypeIdentifierHeartRateVariabilitySDNN" ++ dq
  ++ utf16 " startDate=" ++ dq ++ utf16 "2024-01-01 08:00:00 +0000" ++ dq
  ++ utf16 "/><Record type=" ++ dq
  ++ utf16 "HKCategoryTypeIdentifierSleepAnalysis" ++ dq
  ++ utf16 " startDate=" ++ dq ++ utf16 "2024-01-03 08:00:00 +0000" ++ dq
  ++ utf16 "/></HealthData>".

End ImportCmd.


(* ================================================================== *)
(** ** Numbers, [Math], [Math.random] and [Date] *)
(* ================================================================== *)

Module JsNum.
Import Js.

(** [a < b]; [a > b] is [ltb b a]. *)
Definition ltb (a b : Q) : bool := negb (Qle_bool b a).

(** [Math.round]: the nearest integer, halves upwards. *)
Definition round (x : Q) : Z := Qfloor (x + (1 # 2)).

(** [Math.floor] *)
Definition floor (x : Q) : Z := Qfloor x.

(** Truncation towards zero, the integer part kept by [Date.prototype.setTime]. *)
Definition truncate (x : Q) : Z :=
  if Qle_bool 0 x then Qfloor x else Qceiling x.

(** [arr.reduce((sum, v) => sum + v, 0)] *)
Definition sum (l : list Q) : Q := fold_left Qplus l 0.

(** [arr.slice(-n)] *)
Definition sliceLast {A : Type} (n : nat) (l : list A) : list A :=
  skipn (List.length l - n) l.

(** The successive results of [Math.random()]. *)
Definition Rng := nat -> Q.

(** Every draw lies in the half-open unit interval. *)
Definition unitDraws (g : Rng) : Prop := forall n, 0 <= g n /\ g n < 1.

Definition advance (k : nat) (g : Rng) : Rng := fun n => g (k + n)%nat.

(** A computation that consumes draws. *)
Definition Rand (A : Type) := Rng -> A * Rng.

Definition ret {A : Type} (a : A) : Rand A := fun g => (a, g).

Definition bind {A B : Type} (c : Rand A) (k : A -> Rand B) : Rand B :=
  fun g => let (a, g') := c g in k a g'.

Definition Math_random : Rand Q := fun g => (g 0%nat, advance 1 g).

(** The reading of [new Date()]: milliseconds since the epoch, together with
    the time zone of the host: [offsetAt t] is the offset of local time from
    UTC, in milliseconds, that is in force at the instant [t] (ECMAScript's
    LocalTZA(t, true)), and [offsetOfLocal l] is the offset by which the
    local time value [l] is read back (LocalTZA(l, false)). Where the zone
    changes its offset the two differ: a local time that the change skips or
    repeats is read with the offset before the change. *)
Record Clock := { now : Z; offsetAt : Z -> Z; offsetOfLocal : Z -> Z }.

Definition msPerMinute : Z := 60000.
Definition msPerHour : Z := 3600000.
Definition msPerDay : Z := 86400000.

(** ECMAScript's LocalTime(t) and UTC(l). *)
Definition localTime (clk : Clock) (t : Z) : Z := t + offsetAt clk t.
Definition utcOfLocal (clk : Clock) (l : Z) : Z := l - offsetOfLocal clk l.

(** [const date = new Date(); date.setDate(date.getDate() - i)]: the local
    calendar day moves back by [i], the local time of day stays, and the
    result is read back as an instant. *)
Definition daysAgo (clk : Clock) (i : Z) : Z :=
  utcOfLocal clk (localTime clk (now clk) - i * msPerDay).

(** [d.toISOString().split('T')[0]]: the UTC calendar day of the instant,
    given by its number of days since 1970-01-01. *)
Definition isoDate (t : Z) : Z := t / msPerDay.

(** [d.setHours(h, m)]: the hour and minute of the local day of [t] are
    replaced, its seconds and milliseconds are kept, and the result is read
    back as an instant. *)
Definition setHours (clk : Clock) (t h m : Z) : Z :=
  let l := localTime clk t in
  utcOfLocal clk
    ((l - l mod msPerDay) + h * msPerHour + m * msPerMinute + l mod msPerMinute).

(** [d.setTime(x)]: the time value is cut to whole milliseconds. (Instants
    more than 8.64e15 ms from the epoch, which make an invalid date, are not
    modelled.) *)
Definition setTime (x : Q) : Z := truncate x.

Definition digit (d : Z) : N := (48 + Z.to_N d)%N.

(** Two decimal digits, zero padded. *)
Definition pad2 (n : Z) : jsstring := [digit (n / 10); digit (n mod 10)].

(** Hour and minute of the local time of day. *)
Definition getHours (clk : Clock) (t : Z) : Z := (localTime clk t mod msPerDay) / msPerHour.
Definition getMinutes (clk : Clock) (t : Z) : Z := (localTime clk t mod msPerHour) / msPerMinute.

(** [d.toTimeString().substring(0, 5)]: local [HH:MM]. *)
Definition timeHHMM (clk : Clock) (t : Z) : jsstring :=
  pad2 (getHours clk t) ++ utf16 ":" ++ pad2 (getMinutes clk t).

End JsNum.

(* ================================================================== *)
(** ** IEEE 754 doubles, for the sums that the program compares *)
(* ================================================================== *)

Module Double.
Import PrimFloat.

Definition t : Set := float.

(** The double of a whole number (exact below 2^53). *)
Definition ofZ (z : Z) : float :=
  match z with
  | Z0 => zero
  | Zpos _ => of_uint63 (Uint63.of_Z z)
  | Zneg p => opp (of_uint63 (Uint63.of_Z (Zpos p)))
  end.

(** The double that a field of the rational model stands for: the quotient
    of numerator and denominator, rounded once. For the tenths [k / 10] with
    a whole [k], which is how the generators store their hours, this is the
    double that [Math.round(x * 10) / 10] leaves in the field. *)
Definition toDouble (q : Q) : float := div (ofZ (Qnum q)) (ofZ (Zpos (Qden q))).

(** [Math.round(x)]: the whole number nearest to [x], halves upwards; a
    result of zero keeps the sign of a negative [x]. Whole numbers, zeros,
    infinities and [NaN] are returned as they are. *)
Definition Math_round (x : float) : float :=
  match FloatOps.Prim2SF x with
  | SpecFloat.S754_finite s m (Zneg p) =>
      let q := Z.shiftr (Zpos m) (Zpos p) in
      let whole := Z.eqb (Z.shiftl q (Zpos p)) (Zpos m) in
      let f := if s then (if whole then ofZ (- q) else ofZ (- q - 1)) else ofZ q in
      let r := if ltb (sub x f) (div one two) then f else add f one in
      if andb (eqb r zero) (ltb x zero) then neg_zero else r
  | _ => x
  end.

End Double.

Declare Scope rand_scope.
Delimit Scope rand_scope with rand.
Notation "x <- c ;; k" := (JsNum.bind c (fun x => k))
  (at level 61, c at next level, right associativity) : rand_scope.

(* ================================================================== *)
(** ** types/responses.ts *)
(* ================================================================== *)

Inductive Category := low | normal | high.

Module HRVData.
Record t := mk { date : Z; value : Q; category : Category }.
End HRVData.

Module SleepData.
Record t := mk {
  date : Z;
  duration_hours : Q;
  deep_sleep_hours : Q;
  rem_sleep_hours : Q;
  sleep_score : Q;
  bedtime : Js.jsstring;
  wake_time : Js.jsstring
}.
End SleepData.

Module HealthStatus.
Inductive Trend := up | down | stable.
Record Hrv := { current : Q; trend : Trend; category : Category }.
Record Sleep := { last_night_hours : Q; avg_7_day : Q; score : Q }.
Record Activity := { steps : Q; active_calories : Q; exercise_minutes : Q }.
Record t := mk {
  date : Z;
  hrv : Hrv;
  sleep : Sleep;
  activity : Activity;
  alerts : list string
}.
End HealthStatus.

Module AlertThreshold.
Inductive Status := ok | warning | critical.
Record t := mk {
  metric : string;
  threshold : Q;
  current : Q;
  status : Status;
  message : string
}.
End AlertThreshold.

(* ================================================================== *)
(** ** data/mockData.ts *)
(* ================================================================== *)

Module MockData.
Import Js JsNum.
Local Open Scope Q_scope.
Local Open Scope rand_scope.

(** [for (let i = k - 1; i >= 0; i--) data.push(body(i))] *)
Fixpoint countDown {A : Type} (body : Z -> Rand A) (k : nat) : Rand (list A) :=
  match k with
  | O => ret []
  | S k' =>
      x <- body (Z.of_nat k') ;;
      rest <- countDown body k' ;;
      ret (x :: rest)
  end.

Definition baseHRV : Q := 45.

(** The category of an HRV value, before the value is rounded. *)
Definition categorize (value : Q) : Category :=
  if ltb value 30 then low
  else if ltb 60 value then high
  else normal.

(** The value drawn in one iteration, not yet rounded. *)
Definition hrvValue (r : Q) : Q :=
  let variation := (r - 0.5) * 20 in
  Qmax 20 (Qmin 80 (baseHRV + variation)).

(** One iteration of the loop of [generateMockHRV]. *)
Definition hrvDay (clk : Clock) (i : Z) : Rand HRVData.t :=
  let date := daysAgo clk i in
  r <- Math_random ;;
  let value := hrvValue r in
  let category := categorize value in
  ret {| HRVData.date := isoDate date;
         HRVData.value := inject_Z (round value);
         HRVData.category := category |}.

Definition generateMockHRV (clk : Clock) (days : Z) : Rand (list HRVData.t) :=
  countDown (hrvDay clk) (Z.to_nat days).

(** The duration drawn in one iteration, in hours, not yet rounded. *)
Definition sleepDuration (r : Q) : Q := 6.5 + r * 2.5.

(** One iteration of the loop of [generateMockSleep]. *)
Definition sleepDay (clk : Clock) (i : Z) : Rand SleepData.t :=
  let date := daysAgo clk i in
  r1 <- Math_random ;;
  let duration := sleepDuration r1 in
  r2 <- Math_random ;;
  let deepSleep := duration * (0.15 + r2 * 0.10) in
  r3 <- Math_random ;;
  let remSleep := duration * (0.20 + r3 * 0.10) in
  r4 <- Math_random ;;
  r5 <- Math_random ;;
  let bedtime := setHours clk date (22 + floor (r4 * 3)) (floor (r5 * 60)) in
  let wakeTime := setTime (inject_Z bedtime + duration * 60 * 60 * 1000) in
  r6 <- Math_random ;;
  let sleepScore := round (60 + r6 * 35) in
  ret {| SleepData.date := isoDate date;
         SleepData.duration_hours := inject_Z (round (duration * 10)) / 10;
         SleepData.deep_sleep_hours := inject_Z (round (deepSleep * 10)) / 10;
         SleepData.rem_sleep_hours := inject_Z (round (remSleep * 10)) / 10;
         SleepData.sleep_score := inject_Z sleepScore;
         SleepData.bedtime := timeHHMM clk bedtime;
         SleepData.wake_time := timeHHMM clk wakeTime |}.

Definition generateMockSleep (clk : Clock) (days : Z) : Rand (list SleepData.t) :=
  countDown (sleepDay clk) (Z.to_nat days).

Definition hrvLowAlert : string := "🔴 HRV is low - consider rest day".
Definition sleepAlert : string := "😴 Insufficient sleep last night".

(** [arr[arr.length - k]], [undefined] when there is no such element. *)
Definition fromEnd {A : Type} (k : nat) (l : list A) : option A :=
  if (List.length l <? k)%nat then None
  else nth_error l (List.length l - k).

(** Reading [currentHRV.value] or [lastNightSleep.duration_hours] throws a
    [TypeError] when the element is [undefined]. *)
Definition generateMockStatus (clk : Clock) : Rand (outcome HealthStatus.t) :=
  let today := isoDate (now clk) in
  recentHRV <- generateMockHRV clk 7 ;;
  recentSleep <- generateMockSleep clk 7 ;;
  match fromEnd 1 recentHRV, fromEnd 1 recentSleep with
  | Some currentHRV, Some lastNightSleep =>
      let avgSleep := sum (map SleepData.duration_hours recentSleep) / 7 in
      let hrvTrend :=
        match (1 <? List.length recentHRV)%nat, fromEnd 2 recentHRV with
        | true, Some previous =>
            if ltb (HRVData.value previous) (HRVData.value currentHRV)
            then HealthStatus.up
            else if ltb (HRVData.value currentHRV) (HRVData.value previous)
            then HealthStatus.down
            else HealthStatus.stable
        | _, _ => HealthStatus.stable
        end in
      let alerts :=
        (if ltb (HRVData.value currentHRV) 30 then [hrvLowAlert] else [])
        ++ (if ltb (SleepData.duration_hours lastNightSleep) 6 then [sleepAlert] else []) in
      r1 <- Math_random ;;
      r2 <- Math_random ;;
      r3 <- Math_random ;;
      ret (Returns
        {| HealthStatus.date := today;
           HealthStatus.hrv :=
             {| HealthStatus.current := HRVData.value currentHRV;
                HealthStatus.trend := hrvTrend;
                HealthStatus.category := HRVData.category currentHRV |};
           HealthStatus.sleep :=
             {| HealthStatus.last_night_hours := SleepData.duration_hours lastNightSleep;
                HealthStatus.avg_7_day := inject_Z (round (avgSleep * 10)) / 10;
                HealthStatus.score := SleepData.sleep_score lastNightSleep |};
           HealthStatus.activity :=
             {| HealthStatus.steps := 8500 + inject_Z (floor (r1 * 3000));
                HealthStatus.active_calories := 450 + inject_Z (floor (r2 * 200));
                HealthStatus.exercise_minutes := 25 + inject_Z (floor (r3 * 40)) |};
           HealthStatus.alerts := alerts |})
  | _, _ => ret (Throws TypeError)
  end.

(** One entry of the array returned by [generateMockAlerts]: the status is
    [warning] when the current value is below the threshold, [ok]
    otherwise. *)
Definition thresholdEntry (metric : string) (limit current : Q)
    (below within : string) : AlertThreshold.t :=
  {| AlertThreshold.metric := metric;
     AlertThreshold.threshold := limit;
     AlertThreshold.current := current;
     AlertThreshold.status :=
       if ltb current limit then AlertThreshold.warning else AlertThreshold.ok;
     AlertThreshold.message := if ltb current limit then below else within |}.

(** The array literal returned by [generateMockAlerts], as a function of the
    status it is built from. *)
Definition alertThresholds (status : HealthStatus.t) : list AlertThreshold.t :=
  [ thresholdEntry "HRV" 30 (HealthStatus.current (HealthStatus.hrv status))
      "HRV below recovery threshold" "HRV within normal range";
    thresholdEntry "Sleep Duration" 6
      (HealthStatus.last_night_hours (HealthStatus.sleep status))
      "Insufficient sleep duration" "Sleep duration adequate";
    thresholdEntry "Daily Steps" 5000 (HealthStatus.steps (HealthStatus.activity status))
      "Below recommended daily steps" "Meeting step goals" ].

Definition generateMockAlerts (clk : Clock) : Rand (outcome (list AlertThreshold.t)) :=
  st <- generateMockStatus clk ;;
  match st with
  | Returns status => ret (Returns (alertThresholds status))
  | Throws e => ret (Throws e)
  end.

End MockData.

(* ================================================================== *)
(** ** commands/hrv.ts *)
(* ================================================================== *)

(** The directions reported by both trend functions. *)
Inductive Direction := stable | improving | declining | insufficient_data.

Module HrvCmd.
Import Js JsNum.
Local Open Scope Q_scope.

Inductive Significance := none | moderate | significant.

(** The [change_percent] property: missing from the object, not a finite
    number (the quotient by a zero baseline), or an integer. *)
Inductive ChangePercent := absent | notFinite | percent (p : Z).

Record TrendResult := {
  direction : Direction;
  change : Z;
  change_percent : ChangePercent;
  significance : Significance
}.

Definition analyzeHRVTrend (data : list HRVData.t) : TrendResult :=
  if (List.length data <? 2)%nat then
    {| direction := insufficient_data; change := 0;
       change_percent := absent; significance := none |}
  else
    let recent := sum (map HRVData.value (sliceLast 3 data)) / 3 in
    let earlier := sum (map HRVData.value (firstn 3 data)) / 3 in
    let change := recent - earlier in
    let changePercent :=
      if Qeq_bool earlier 0 then notFinite
      else percent (round ((change / earlier) * 100)) in
    let '(direction, significance) :=
      if ltb (Qabs change) 2 then (stable, none)
      else if ltb 0 change then
        (improving, if ltb 5 change then significant else moderate)
      else
        (declining, if ltb change (-5) then significant else moderate) in
    {| direction := direction; change := round change;
       change_percent := changePercent; significance := significance |}.

End HrvCmd.

(* ================================================================== *)
(** ** commands/sleep.ts *)
(* ================================================================== *)

Module SleepCmd.
Import Js JsNum.
Local Open Scope Q_scope.

(** [recent - earlier] in [calculateTrend]. *)
Definition trendChange (values : list Q) : Q :=
  let recent := sum (sliceLast 3 values) / 3 in
  let earlier := sum (firstn 3 values) / 3 in
  recent - earlier.

Definition calculateTrend (values : list Q) : Direction :=
  if (List.length values <? 3)%nat then insufficient_data
  else
    let change := trendChange values in
    if ltb (Qabs change) 0.2 then stable
    else if ltb 0 change then improving else declining.

Inductive DebtStatus := significant | moderate | minimal.

Record SleepDebt := {
  total_hours : Double.t;
  avg_per_night : Double.t;
  status : DebtStatus
}.

Definition targetHours : Double.t := Double.ofZ 8.

(** The body of the [forEach] of [calculateSleepDebt], on doubles as the
    program adds them; [night.duration_hours] is the double of the field. *)
Definition addDebt (totalDebt : Double.t) (night : SleepData.t) : Double.t :=
  let duration_hours := Double.toDouble (SleepData.duration_hours night) in
  if PrimFloat.ltb duration_hours targetHours
  then PrimFloat.add totalDebt (PrimFloat.sub targetHours duration_hours)
  else totalDebt.

(** The value of [totalDebt] after the loop. *)
Definition totalDebt (data : list SleepData.t) : Double.t :=
  fold_left addDebt data PrimFloat.zero.

(** [Math.round(x * 10) / 10] *)
Definition roundTenth (x : Double.t) : Double.t :=
  PrimFloat.div (Double.Math_round (PrimFloat.mul x (Double.ofZ 10))) (Double.ofZ 10).

(** [avg_per_night] is [NaN], the quotient 0/0, for an empty series. *)
Definition calculateSleepDebt (data : list SleepData.t) : SleepDebt :=
  let totalDebt := totalDebt data in
  {| total_hours := roundTenth totalDebt;
     avg_per_night :=
       roundTenth (PrimFloat.div totalDebt (Double.ofZ (Z.of_nat (List.length data))));
     status := if PrimFloat.ltb (Double.ofZ 5) totalDebt then significant
               else if PrimFloat.ltb (Double.ofZ 2) totalDebt then moderate
               else minimal |}.

(** [s.split(sep)] for a one-unit separator. *)
Fixpoint splitOn (sep : N) (s : jsstring) : list jsstring :=
  match s with
  | [] => [[]]
  | c :: s' =>
      if N.eqb c sep then [] :: splitOn sep s'
      else
        match splitOn sep s' with
        | part :: parts => (c :: part) :: parts
        | [] => [[c]]
        end
  end.

(** [Number(s)] on strings of decimal digits; the empty string is 0. Other
    strings (signs, fractions, exponents, blanks), which [toTimeString] does
    not produce, are mapped to [None], as [NaN] is. *)
Definition Number (s : jsstring) : option Z :=
  fold_left (fun acc c =>
               match acc with
               | Some n =>
                   if (N.leb 48 c && N.leb c 57)%bool
                   then Some (n * 10 + (Z.of_N c - 48))%Z
                   else None
               | None => None
               end) s (Some 0%Z).

(** [None] stands for [NaN]. *)
Definition timeToMinutes (time : jsstring) : option Z :=
  match map Number (splitOn 58 time) with
  | Some hours :: Some minutes :: _ => Some (hours * 60 + minutes)%Z
  | _ => None
  end.

End SleepCmd.

(* ================================================================== *)
(** ** utils/responses.ts *)
(* ================================================================== *)

Module Responses.
Import Js.

Record NextAction := { command : jsstring; description : jsstring }.

Record ErrorInfo := { message : jsstring; code : jsstring }.

(** [SuccessResponse<T> | ErrorResponse]; the field [ok] is the tag. *)
Inductive CLIResponse (T : Type) :=
| SuccessResponse (command : jsstring) (result : T) (next_actions : list NextAction)
| ErrorResponse (command : jsstring) (error : ErrorInfo) (fix_ : jsstring)
                (next_actions : list NextAction).
Arguments ErrorResponse {T} command error fix_ next_actions.

Definition success {T : Type} (command : jsstring) (result : T)
    (nextActions : list NextAction) : CLIResponse T :=
  SuccessResponse (utf16 "health " ++ command) result nextActions.

Definition error {T : Type} (command message code fix_ : jsstring)
    (nextActions : list NextAction) : CLIResponse T :=
  ErrorResponse (utf16 "health " ++ command)
                {| message := message; code := code |} fix_ nextActions.

Definition ok {T : Type} (r : CLIResponse T) : bool :=
  match r with
  | SuccessResponse _ _ _ => true
  | ErrorResponse _ _ _ _ => false
  end.

(** [r.error.code], when [r] is an error. *)
Definition errorCode {T : Type} (r : CLIResponse T) : option jsstring :=
  match r with
  | SuccessResponse _ _ _ => None
  | ErrorResponse _ e _ _ => Some (code e)
  end.

Definition errorMessage {T : Type} (r : CLIResponse T) : option jsstring :=
  match r with
  | SuccessResponse _ _ _ => None
  | ErrorResponse _ e _ _ => Some (message e)
  end.

(** [r.result], when [r] is a success. *)
Definition resultOf {T : Type} (r : CLIResponse T) : option T :=
  match r with
  | SuccessResponse _ x _ => Some x
  | ErrorResponse _ _ _ _ => None
  end.

Definition next_actions {T : Type} (r : CLIResponse T) : list NextAction :=
  match r with
  | SuccessResponse _ _ a => a
  | ErrorResponse _ _ _ a => a
  end.

Definition action (command description : string) : NextAction :=
  {| command := utf16 command; description := utf16 description |}.

Module COMMON_ACTIONS.
Definition ROOT := action "health" "Show available commands".
Definition STATUS := action "health status" "View today's health overview".
Definition HRV := action "health hrv" "View HRV trends".
Definition SLEEP := action "health sleep" "View sleep analysis".
Definition ALERTS := action "health alert" "Check health alerts".
Definition IMPORT := action "health import <file>" "Import Apple Health data".
End COMMON_ACTIONS.

(** A whole number in a template literal. *)
Definition showInt (z : Z) : jsstring :=
  utf16 (NilZero.string_of_int (Z.to_int z)).

(** [output]: the exit status of the process, [process.exit(response.ok ? 0 : 1)];
    the printed text is not modelled. *)
Definition output {T : Type} (response : CLIResponse T) : Z :=
  if ok response then 0 else 1.

End Responses.

(* ================================================================== *)
(** ** commands/import.ts: the command *)
(* ================================================================== *)

Module ImportFile.
Import Js JsNum Responses ImportCmd.
Local Open Scope Q_scope.

(** What the command asks of [fs] and [path]: whether a file exists, its
    size in bytes (of a path that exists), its text or the error thrown on
    reading it, and the last segment of a path. *)
Record Host := {
  existsSync : jsstring -> bool;
  statSize : jsstring -> N;
  readFileSync : jsstring -> outcome jsstring;
  basename : jsstring -> jsstring
}.

Record ImportResult := {
  file : jsstring;
  records_processed : N;
  data_types : list jsstring;
  date_range : DateRange;
  warnings : list jsstring
}.

(** [x.toFixed(1)] for [x] that is not negative: the nearest number of
    tenths, halves upwards. *)
Definition toFixed1 (x : Q) : jsstring :=
  let n := round (x * 10) in
  showInt (n / 10) ++ utf16 "." ++ showInt (n mod 10).

(** [parseError.message]. (The text of a [TypeError] is the engine's; the
    parser throws none.) *)
Definition exnMessage (e : exn) : jsstring :=
  match e with
  | Error m => m
  | TypeError => utf16 "TypeError"
  end.

Definition importCommand (host : Host) (filePath : jsstring) : CLIResponse ImportResult :=
  if negb (existsSync host filePath) then
    error (utf16 "import " ++ filePath)
          (utf16 "File not found: " ++ filePath)
          (utf16 "FILE_NOT_FOUND")
          (utf16 "Check the file path and ensure the file exists")
          [ action "ls -la" "List files in current directory";
            action "health" "Return to main menu" ]
  else
    let fileSizeMB := inject_Z (Z.of_N (statSize host filePath)) / (1024 * 1024) in
    if ltb 100 fileSizeMB then
      error (utf16 "import " ++ filePath)
            (utf16 "File too large: " ++ toFixed1 fileSizeMB
                   ++ utf16 "MB (max 100MB for demo)")
            (utf16 "FILE_TOO_LARGE")
            (utf16 "Use a smaller Apple Health export or process in chunks")
            [ action "health" "Return to main menu";
              action "health status" "View current mock data instead" ]
    else
      match (match readFileSync host filePath with
             | Returns xmlContent => parseAppleHealthXML xmlContent
             | Throws e => Throws e
             end) with
      | Returns parseResult =>
          let result :=
            {| file := basename host filePath;
               records_processed := recordCount parseResult;
               data_types := dataTypes parseResult;
               date_range := dateRange parseResult;
               warnings := ImportCmd.warnings parseResult |} in
          let nextActions :=
            [ COMMON_ACTIONS.STATUS;
              action "health hrv --days 30" "View HRV trends (using mock data for demo)";
              action "health sleep --days 30"
                     "View sleep patterns (using mock data for demo)" ] in
          let nextActions :=
            if (0 <? List.length (ImportCmd.warnings parseResult))%nat
            then action "health alert" "Check for any data quality alerts" :: nextActions
            else nextActions in
          success (utf16 "import " ++ filePath) result nextActions
      | Throws parseError =>
          error (utf16 "import " ++ filePath)
                (utf16 "Failed to parse Apple Health XML: " ++ exnMessage parseError)
                (utf16 "PARSE_ERROR")
                (utf16 "Ensure the file is a valid Apple Health export XML")
                [ action "health" "Return to main menu";
                  action "health status" "Use mock data instead" ]
      end.

End ImportFile.

(* ================================================================== *)
(** ** commands/sleep.ts: the report *)
(* ================================================================== *)

Module SleepReport.
Import Js JsNum Responses SleepCmd.
Local Open Scope Q_scope.
Local Open Scope rand_scope.

(** [s.padStart(2, '0')] *)
Definition padStart2 (s : jsstring) : jsstring :=
  repeat 48%N (2 - List.length s) ++ s.

(** The numbers of an array, [None] when one of them is [NaN]. *)
Fixpoint allNumbers {A : Type} (l : list (option A)) : option (list A) :=
  match l with
  | [] => Some []
  | Some x :: l' => option_map (cons x) (allNumbers l')
  | None :: _ => None
  end.

(** With an empty array, or a time that is not a number, every number of the
    computation is [NaN], printed [NaN:NaN]. *)
Definition calculateAverageTime (times : list jsstring) : jsstring :=
  match allNumbers (map timeToMinutes times) with
  | Some (m :: ms) =>
      let minutes := m :: ms in
      let avgMinutes :=
        round (sum (map inject_Z minutes)
               / inject_Z (Z.of_nat (List.length minutes))) in
      let hours := (avgMinutes / 60)%Z in
      let mins := Z.rem avgMinutes 60 in
      padStart2 (showInt hours) ++ utf16 ":" ++ padStart2 (showInt mins)
  | _ => utf16 "NaN:NaN"
  end.

(** [Math.max(...l)] and [Math.min(...l)]; [None] stands for the infinity
    that an empty array gives. *)
Definition maximum (l : list Q) : option Q :=
  match l with
  | [] => None
  | x :: l' => Some (fold_left Qmax l' x)
  end.

Definition minimum (l : list Q) : option Q :=
  match l with
  | [] => None
  | x :: l' => Some (fold_left Qmin l' x)
  end.

(** [l.indexOf(x)]; [None] stands for -1. *)
Fixpoint indexOf (x : Q) (l : list Q) : option nat :=
  match l with
  | [] => None
  | y :: l' => if Qeq_bool y x then Some O else option_map S (indexOf x l')
  end.

Record Night := { date : Z; score : Q; duration : Q }.

Record SleepPattern := {
  duration_trend : Direction;
  quality_trend : Direction;
  sufficient_sleep_days : nat;
  total_days : nat;
  best_night : Night;
  worst_night : Night
}.

(** [{ date: data[scores.indexOf(x)].date, score: x,
       duration: data[scores.indexOf(x)].duration_hours }]; reading a field
    of [undefined] throws. *)
Definition nightOf (data : list SleepData.t) (scores : list Q) (extreme : option Q)
    : outcome Night :=
  match extreme with
  | Some x =>
      match indexOf x scores with
      | Some i =>
          match nth_error data i with
          | Some n => Returns {| date := SleepData.date n; score := x;
                                 duration := SleepData.duration_hours n |}
          | None => Throws TypeError
          end
      | None => Throws TypeError
      end
  | None => Throws TypeError
  end.

Definition analyzeSleepPattern (data : list SleepData.t) : outcome SleepPattern :=
  let durations := map SleepData.duration_hours data in
  let scores := map SleepData.sleep_score data in
  match nightOf data scores (maximum scores), nightOf data scores (minimum scores) with
  | Returns best, Returns worst =>
      Returns {| duration_trend := calculateTrend durations;
                 quality_trend := calculateTrend scores;
                 sufficient_sleep_days :=
                   List.length (filter (fun d => Qle_bool 7 d) durations);
                 total_days := List.length data;
                 best_night := best;
                 worst_night := worst |}
  | Throws e, _ => Throws e
  | _, Throws e => Throws e
  end.

(** The fields are [None] where the computation gives [NaN]: for an empty
    series or a time that is not a number. *)
Record SleepConsistency := {
  bedtime_variance : option Z;
  wake_time_variance : option Z;
  consistency_score : option Q
}.

Section WithSqrt.

(** [Math.sqrt], which the rational numbers do not have, is a parameter. *)
Variable Math_sqrt : Q -> Q.

(** [Math.round(Math.sqrt(times.reduce((sum, t) => sum + Math.pow(t - avg, 2), 0)
    / times.length))], with [avg] the mean of [times]. *)
Definition timeSpread (times : list (option Z)) : option Z :=
  match allNumbers times with
  | Some (t :: ts) =>
      let l := t :: ts in
      let n := inject_Z (Z.of_nat (List.length l)) in
      let avg := sum (map inject_Z l) / n in
      Some (round (Math_sqrt
              (fold_left (fun sum t => sum + (inject_Z t - avg) ^ 2) l 0 / n)))
  | _ => None
  end.

Definition calculateSleepConsistency (data : list SleepData.t) : SleepConsistency :=
  let bedtimes := map (fun s => timeToMinutes (SleepData.bedtime s)) data in
  let wakeTimes := map (fun s => timeToMinutes (SleepData.wake_time s)) data in
  let bedtimeVariance := timeSpread bedtimes in
  let wakeTimeVariance := timeSpread wakeTimes in
  {| bedtime_variance := bedtimeVariance;
     wake_time_variance := wakeTimeVariance;
     consistency_score :=
       match bedtimeVariance, wakeTimeVariance with
       | Some b, Some w => Some (Qmax 0 (100 - (inject_Z b + inject_Z w) / 2))
       | _, _ => None
       end |}.

End WithSqrt.

Definition durationImproving : string := "💚 Sleep duration improving - good progress".
Definition durationDeclining : string :=
  "🔴 Sleep duration declining - focus on earlier bedtime".
Definition qualityImproving : string := "✨ Sleep quality trending up".
Definition qualityDeclining : string := "😴 Sleep quality declining - review sleep hygiene".
Definition seldomSufficient : string :=
  "⚠️ Getting sufficient sleep (7+ hours) less than half the time".
Definition mostlySufficient : string := "🎯 Consistently meeting sleep duration goals".
Definition severelyDeprived : string :=
  "🚨 Last night was severely sleep deprived - prioritize recovery".
Definition shortNight : string :=
  "😴 Last night was short - aim for earlier bedtime tonight".

(** With no days the percentage is [NaN], and both of its tests fail, when
    there are no sufficient days either; it is [Infinity] otherwise. *)
Definition generateSleepInsights (data : list SleepData.t) (analysis : SleepPattern)
    : outcome (list string) :=
  let i1 :=
    match duration_trend analysis with
    | improving => [durationImproving]
    | declining => [durationDeclining]
    | _ => []
    end in
  let i2 :=
    match quality_trend analysis with
    | improving => [qualityImproving]
    | declining => [qualityDeclining]
    | _ => []
    end in
  let i3 :=
    if (total_days analysis =? 0)%nat then
      if (sufficient_sleep_days analysis =? 0)%nat then [] else [mostlySufficient]
    else
      let sufficientPercent :=
        (inject_Z (Z.of_nat (sufficient_sleep_days analysis))
         / inject_Z (Z.of_nat (total_days analysis))) * 100 in
      if ltb sufficientPercent 50 then [seldomSufficient]
      else if ltb 80 sufficientPercent then [mostlySufficient]
      else [] in
  match MockData.fromEnd 1 data with
  | Some lastNight =>
      let i4 :=
        if ltb (SleepData.duration_hours lastNight) 6 then [severelyDeprived]
        else if ltb (SleepData.duration_hours lastNight) 7 then [shortNight]
        else [] in
      Returns (i1 ++ i2 ++ i3 ++ i4)
  | None => Throws TypeError
  end.

End SleepReport.

(** The [period] of a report: the number of days asked for and the dates of
    the first and the last sample. *)
Module Period.
Record t := mk { days : Z; start_date : Z; end_date : Z }.
End Period.

(** The answer to a number of days outside 1..90. *)
Definition invalidDays {T : Type} (name : string) (days : Z)
    (nextActions : list Responses.NextAction) : Responses.CLIResponse T :=
  Responses.error (Js.utf16 name ++ Js.utf16 " --days " ++ Responses.showInt days)
    (Js.utf16 "Days parameter must be between 1 and 90")
    (Js.utf16 "INVALID_DAYS_RANGE")
    (Js.utf16 "Use a value between 1 and 90 days")
    nextActions.

Module SleepCommand.
Import Js JsNum Responses SleepCmd SleepReport.
Local Open Scope Q_scope.
Local Open Scope rand_scope.

Module LastNight.
Record t := mk {
  duration : Q; score : Q; bedtime : jsstring; wake_time : jsstring;
  deep_sleep : Q; rem_sleep : Q
}.
End LastNight.

Module Averages.
Record t := mk {
  duration : Q; score : Q; deep_sleep : Q; rem_sleep : Q;
  bedtime : jsstring; wake_time : jsstring
}.
End Averages.

Record SleepResult := {
  period : Period.t;
  last_night : LastNight.t;
  averages : Averages.t;
  patterns : SleepPattern;
  sleep_debt : SleepDebt;
  consistency : SleepConsistency;
  data : list SleepData.t;
  insights : list string
}.

Section WithSqrt.
Variable Math_sqrt : Q -> Q.

(** [Math.round(sleepData.reduce((sum, s) => sum + field(s), 0) / days * 10) / 10] *)
Definition averageTenths (field : SleepData.t -> Q) (sleepData : list SleepData.t)
    (days : Z) : Q :=
  inject_Z (round (sum (map field sleepData) / inject_Z days * 10)) / 10.

Definition sleepCommand (clk : Clock) (days : Z)
    : Rand (outcome (CLIResponse SleepResult)) :=
  if ((days <? 1) || (90 <? days))%Z then
    ret (Returns (invalidDays "sleep" days
           [ action "health sleep" "Use default 7 days";
             action "health sleep --days 14" "Try 2 weeks";
             action "health sleep --days 30" "Try 1 month" ]))
  else
    sleepData <- MockData.generateMockSleep clk days ;;
    ret (match analyzeSleepPattern sleepData with
         | Throws e => Throws e
         | Returns analysis =>
             match sleepData, MockData.fromEnd 1 sleepData,
                   generateSleepInsights sleepData analysis with
             | first :: _, Some last, Returns insights =>
                 let consistency := calculateSleepConsistency Math_sqrt sleepData in
                 let result :=
                   {| period :=
                        {| Period.days := days;
                           Period.start_date := SleepData.date first;
                           Period.end_date := SleepData.date last |};
                      last_night :=
                        {| LastNight.duration := SleepData.duration_hours last;
                           LastNight.score := SleepData.sleep_score last;
                           LastNight.bedtime := SleepData.bedtime last;
                           LastNight.wake_time := SleepData.wake_time last;
                           LastNight.deep_sleep := SleepData.deep_sleep_hours last;
                           LastNight.rem_sleep := SleepData.rem_sleep_hours last |};
                      averages :=
                        {| Averages.duration :=
                             averageTenths SleepData.duration_hours sleepData days;
                           Averages.score :=
                             inject_Z (round (sum (map SleepData.sleep_score sleepData)
                                              / inject_Z days));
                           Averages.deep_sleep :=
                             averageTenths SleepData.deep_sleep_hours sleepData days;
                           Averages.rem_sleep :=
                             averageTenths SleepData.rem_sleep_hours sleepData days;
                           Averages.bedtime :=
                             calculateAverageTime (map SleepData.bedtime sleepData);
                           Averages.wake_time :=
                             calculateAverageTime (map SleepData.wake_time sleepData) |};
                      patterns := analysis;
                      sleep_debt := calculateSleepDebt sleepData;
                      consistency := consistency;
                      data := sliceLast 10 sleepData;
                      insights := insights |} in
                 let nextActions :=
                   [COMMON_ACTIONS.STATUS; COMMON_ACTIONS.HRV]
                   ++ (if (days =? 7)%Z
                       then [action "health sleep --days 30" "View monthly sleep patterns"]
                       else []) in
                 let nextActions :=
                   if ltb (SleepData.duration_hours last) 7
                   then COMMON_ACTIONS.ALERTS :: nextActions else nextActions in
                 let nextActions :=
                   nextActions
                   ++ (match bedtime_variance consistency with
                       | Some v =>
                           if (60 <? v)%Z
                           then [action "health sleep --days 14"
                                        "Analyze bedtime consistency over 2 weeks"]
                           else []
                       | None => []
                       end) in
                 Returns (success (utf16 "sleep --days " ++ showInt days)
                                  result nextActions)
             | _, _, _ => Throws TypeError
             end
         end).

End WithSqrt.

End SleepCommand.

(* ================================================================== *)
(** ** commands/hrv.ts: the report *)
(* ================================================================== *)

Module HrvReport.
Import Js JsNum Responses HrvCmd.
Local Open Scope Q_scope.
Local Open Scope rand_scope.

Definition trendingUp : string :=
  "💚 HRV trending upward - recovery practices are working".
Definition trendingDown : string :=
  "🔴 HRV declining - consider stress management and recovery focus".
Definition trendStable : string :=
  "🟡 HRV stable - maintain current recovery practices".
Definition currentLow : string :=
  "⚠️ Current HRV is low - prioritize rest and recovery today".
Definition frequentLow : string :=
  "📊 Frequent low HRV days - consider lifestyle factors (sleep, stress, training)".
Definition significantTrend : string :=
  "📈 Significant trend detected - correlate with recent changes in routine".

Definition isLow (d : HRVData.t) : bool :=
  match HRVData.category d with low => true | _ => false end.
Definition isNormal (d : HRVData.t) : bool :=
  match HRVData.category d with normal => true | _ => false end.
Definition isHigh (d : HRVData.t) : bool :=
  match HRVData.category d with high => true | _ => false end.

(** Reading [current.category] throws when [data] is empty. *)
Definition generateHRVInsights (data : list HRVData.t) (analysis : TrendResult)
    : outcome (list string) :=
  let i1 :=
    match direction analysis with
    | improving => [trendingUp]
    | declining => [trendingDown]
    | _ => [trendStable]
    end in
  match MockData.fromEnd 1 data with
  | Some current =>
      let i2 := if isLow current then [currentLow] else [] in
      let lowDays := List.length (filter isLow data) in
      let i3 :=
        if ltb (inject_Z (Z.of_nat (List.length data)) * 0.3)
               (inject_Z (Z.of_nat lowDays))
        then [frequentLow] else [] in
      let i4 :=
        match significance analysis with
        | significant => [significantTrend]
        | _ => []
        end in
      Returns (i1 ++ i2 ++ i3 ++ i4)
  | None => Throws TypeError
  end.

Module Current.
Record t := mk { value : Q; category : Category; date : Z }.
End Current.

Module Statistics.
Record t := mk { average : Q; min : Q; max : Q; std_dev : option Q }.
End Statistics.

Module Distribution.
Record t := mk { low : nat; normal : nat; high : nat }.
End Distribution.

Record HrvResult := {
  period : Period.t;
  current : Current.t;
  statistics : Statistics.t;
  trend : TrendResult;
  distribution : Distribution.t;
  data : list HRVData.t;
  insights : list string
}.

Section WithSqrt.
Variable Math_sqrt : Q -> Q.

(** [None] stands for the [NaN] of an empty array. *)
Definition calculateStandardDeviation (values : list Q) : option Q :=
  match values with
  | [] => None
  | _ :: _ =>
      let n := inject_Z (Z.of_nat (List.length values)) in
      let mean := sum values / n in
      let squaredDiffs := map (fun val => (val - mean) ^ 2) values in
      let avgSquaredDiff := sum squaredDiffs / n in
      Some (Math_sqrt avgSquaredDiff)
  end.

Definition hrvCommand (clk : Clock) (days : Z)
    : Rand (outcome (CLIResponse HrvResult)) :=
  if ((days <? 1) || (90 <? days))%Z then
    ret (Returns (invalidDays "hrv" days
           [ action "health hrv" "Use default 7 days";
             action "health hrv --days 14" "Try 2 weeks";
             action "health hrv --days 30" "Try 1 month" ]))
  else
    hrvData <- MockData.generateMockHRV clk days ;;
    let analysis := analyzeHRVTrend hrvData in
    let values := map HRVData.value hrvData in
    ret (match hrvData, MockData.fromEnd 1 hrvData,
               SleepReport.minimum values, SleepReport.maximum values,
               generateHRVInsights hrvData analysis with
         | first :: _, Some last, Some least, Some most, Returns insights =>
             let result :=
               {| period :=
                    {| Period.days := days;
                       Period.start_date := HRVData.date first;
                       Period.end_date := HRVData.date last |};
                  current :=
                    {| Current.value := HRVData.value last;
                       Current.category := HRVData.category last;
                       Current.date := HRVData.date last |};
                  statistics :=
                    {| Statistics.average :=
                         inject_Z (round (sum values
                                          / inject_Z (Z.of_nat (List.length hrvData))));
                       Statistics.min := least;
                       Statistics.max := most;
                       Statistics.std_dev :=
                         option_map (fun sd => inject_Z (round (sd * 10)) / 10)
                                    (calculateStandardDeviation values) |};
                  trend := analysis;
                  distribution :=
                    {| Distribution.low := List.length (filter isLow hrvData);
                       Distribution.normal := List.length (filter isNormal hrvData);
                       Distribution.high := List.length (filter isHigh hrvData) |};
                  data := sliceLast 10 hrvData;
                  insights := insights |} in
             let nextActions :=
               [COMMON_ACTIONS.STATUS; COMMON_ACTIONS.SLEEP]
               ++ (if (days =? 7)%Z
                   then [action "health hrv --days 14" "Extend analysis to 2 weeks"]
                   else if (days =? 14)%Z
                   then [action "health hrv --days 30" "View monthly HRV pattern"]
                   else []) in
             let nextActions :=
               if isLow last then COMMON_ACTIONS.ALERTS :: nextActions
               else nextActions in
             Returns (success (utf16 "hrv --days " ++ showInt days) result nextActions)
         | _, _, _, _, _ => Throws TypeError
         end).

End WithSqrt.

End HrvReport.

(* ================================================================== *)
(** ** commands/status.ts *)
(* ================================================================== *)

Module StatusCmd.
Import Js JsNum Responses.
Local Open Scope string_scope.
Local Open Scope list_scope.
Local Open Scope Q_scope.
Local Open Scope rand_scope.

Definition generateHealthSummary (status : HealthStatus.t) : string :=
  let p1 :=
    match HealthStatus.category (HealthStatus.hrv status) with
    | high => "💚 Excellent recovery state"
    | normal => "🟡 Normal recovery state"
    | low => "🔴 Low recovery - consider rest"
    end in
  let hours := HealthStatus.last_night_hours (HealthStatus.sleep status) in
  let p2 :=
    if Qle_bool 8 hours then "😴 Well rested"
    else if Qle_bool 7 hours then "😐 Adequate sleep"
    else "😵 Sleep deprived" in
  let steps := HealthStatus.steps (HealthStatus.activity status) in
  let p3 :=
    if Qle_bool 10000 steps then "🚶 Very active"
    else if Qle_bool 7500 steps then "🚶 Moderately active"
    else "🚶 Low activity" in
  String.concat " • " [p1; p2; p3].

Definition keepUp : string := "Keep up the good work! Maintain current habits".

Definition generateRecommendations (status : HealthStatus.t) : list string :=
  let recommendations :=
    (match HealthStatus.category (HealthStatus.hrv status) with
     | low => ["Consider a rest day or light activity";
               "Focus on stress management and recovery"]
     | _ => []
     end)
    ++ (if ltb (HealthStatus.last_night_hours (HealthStatus.sleep status)) 7
        then ["Prioritize earlier bedtime tonight";
              "Consider sleep hygiene improvements"]
        else [])
    ++ (if ltb (HealthStatus.steps (HealthStatus.activity status)) 7500
        then ["Add more walking or light movement today"]
        else [])
    ++ (match HealthStatus.trend (HealthStatus.hrv status) with
        | HealthStatus.down => ["Monitor stress levels and recovery practices"]
        | _ => []
        end) in
  match recommendations with
  | [] => [keepUp]
  | _ :: _ => recommendations
  end.

(** [{...status, summary, recommendations}] *)
Record StatusResult := {
  status : HealthStatus.t;
  summary : string;
  recommendations : list string
}.

Definition statusCommand (clk : Clock) : Rand (outcome (CLIResponse StatusResult)) :=
  st <- MockData.generateMockStatus clk ;;
  ret (match st with
       | Throws e => Throws e
       | Returns status =>
           let result :=
             {| status := status;
                summary := generateHealthSummary status;
                recommendations := generateRecommendations status |} in
           let nextActions :=
             [COMMON_ACTIONS.HRV; COMMON_ACTIONS.SLEEP; COMMON_ACTIONS.ALERTS] in
           let nextActions :=
             if (0 <? List.length (HealthStatus.alerts status))%nat
             then COMMON_ACTIONS.ALERTS :: nextActions else nextActions in
           let nextActions :=
             nextActions
             ++ (match HealthStatus.category (HealthStatus.hrv status) with
                 | low => [action "health hrv --days 14"
                                  "Analyze HRV trend over 2 weeks"]
                 | _ => []
                 end) in
           let nextActions :=
             nextActions
             ++ (if ltb (HealthStatus.last_night_hours (HealthStatus.sleep status)) 7
                 then [action "health sleep --days 7"
                              "Review sleep patterns this week"]
                 else []) in
           Returns (success (utf16 "status") result nextActions)
       end).

End StatusCmd.

(* ================================================================== *)
(** ** commands/alert.ts *)
(* ================================================================== *)

Module AlertCmd.
Import Js JsNum Responses.
Local Open Scope string_scope.
Local Open Scope list_scope.
Local Open Scope Q_scope.
Local Open Scope rand_scope.

Record Recommendations := {
  immediate : list string;
  short_term : list string;
  long_term : list string
}.

(** [[...new Set(l)]]: the first occurrence of every element, in order;
    [seen] holds the elements that the set has already. *)
Fixpoint dedupeFrom {A : Type} (eqb : A -> A -> bool) (seen l : list A) : list A :=
  match l with
  | [] => []
  | x :: l' =>
      if existsb (eqb x) seen then dedupeFrom eqb seen l'
      else x :: dedupeFrom eqb (x :: seen) l'
  end.

Definition dedupe (l : list string) : list string := dedupeFrom String.eqb [] l.

Definition isActive (a : AlertThreshold.t) : bool :=
  match AlertThreshold.status a with
  | AlertThreshold.ok => false
  | _ => true
  end.

(** The body of the [forEach]: what one alert adds to the three lists. *)
Definition addRecommendations (r : Recommendations) (alert : AlertThreshold.t)
    : Recommendations :=
  if isActive alert then
    if String.eqb (AlertThreshold.metric alert) "HRV" then
      {| immediate := immediate r ++ ["Take a rest day or reduce training intensity"];
         short_term := short_term r
                       ++ ["Focus on stress management and recovery practices"];
         long_term := long_term r ++ ["Evaluate training load and recovery balance"] |}
    else if String.eqb (AlertThreshold.metric alert) "Sleep Duration" then
      {| immediate := immediate r ++ ["Prioritize earlier bedtime tonight"];
         short_term := short_term r ++ ["Establish consistent sleep schedule"];
         long_term := long_term r ++ ["Optimize sleep environment and hygiene"] |}
    else if String.eqb (AlertThreshold.metric alert) "Daily Steps" then
      {| immediate := immediate r
                      ++ ["Take breaks for short walks throughout the day"];
         short_term := short_term r
                       ++ ["Incorporate more movement into daily routine"];
         long_term := long_term r ++ ["Set progressive activity goals"] |}
    else r
  else r.

Definition wellness : Recommendations :=
  {| immediate := ["All metrics within normal ranges - maintain current habits"];
     short_term := ["Continue monitoring trends for early detection"];
     long_term := ["Consider expanding health tracking metrics"] |}.

Definition generateAlertRecommendations (alerts : list AlertThreshold.t)
    : Recommendations :=
  let r := fold_left addRecommendations alerts
             {| immediate := []; short_term := []; long_term := [] |} in
  let r := {| immediate := dedupe (immediate r);
              short_term := dedupe (short_term r);
              long_term := dedupe (long_term r) |} in
  match immediate r with
  | [] => {| immediate := immediate r ++ immediate wellness;
             short_term := short_term r ++ short_term wellness;
             long_term := long_term r ++ long_term wellness |}
  | _ :: _ => r
  end.

(** [tomorrow.setDate(tomorrow.getDate() + 1); tomorrow.setHours(8, 0, 0, 0)]:
    the local day moves on by one, then the local time of day is set to
    08:00:00.000. *)
Definition getNextCheckTime (clk : Clock) : Z :=
  let tomorrow := utcOfLocal clk (localTime clk (now clk) + msPerDay) in
  let l := localTime clk tomorrow in
  utcOfLocal clk ((l - l mod msPerDay) + 8 * msPerHour)%Z.

Module AlertSummary.
Record t := mk {
  total_checks : nat;
  active_alerts : nat;
  warnings : nat;
  critical : nat;
  ok : nat
}.
End AlertSummary.

Module ActiveAlert.
Record t := mk {
  metric : string;
  status : AlertThreshold.Status;
  current_value : Q;
  threshold : Q;
  message : string;
  priority : string
}.
End ActiveAlert.

Record AlertResult := {
  timestamp : Z;
  alert_summary : AlertSummary.t;
  active_alerts : list ActiveAlert.t;
  all_thresholds : list AlertThreshold.t;
  recommendations : Recommendations;
  next_check : Z
}.

Definition hasStatus (s : AlertThreshold.Status) (a : AlertThreshold.t) : bool :=
  match s, AlertThreshold.status a with
  | AlertThreshold.ok, AlertThreshold.ok => true
  | AlertThreshold.warning, AlertThreshold.warning => true
  | AlertThreshold.critical, AlertThreshold.critical => true
  | _, _ => false
  end.

Definition toActiveAlert (alert : AlertThreshold.t) : ActiveAlert.t :=
  {| ActiveAlert.metric := AlertThreshold.metric alert;
     ActiveAlert.status := AlertThreshold.status alert;
     ActiveAlert.current_value := AlertThreshold.current alert;
     ActiveAlert.threshold := AlertThreshold.threshold alert;
     ActiveAlert.message := AlertThreshold.message alert;
     ActiveAlert.priority :=
       match AlertThreshold.status alert with
       | AlertThreshold.critical => "high"
       | _ => "medium"
       end |}.

(** The response for the thresholds that [generateMockAlerts] returned. *)
Definition alertResponse (clk : Clock) (alerts : list AlertThreshold.t)
    : CLIResponse AlertResult :=
  let activeAlerts := filter isActive alerts in
  let result :=
    {| timestamp := now clk;
       alert_summary :=
         {| AlertSummary.total_checks := List.length alerts;
            AlertSummary.active_alerts := List.length activeAlerts;
            AlertSummary.warnings :=
              List.length (filter (hasStatus AlertThreshold.warning) alerts);
            AlertSummary.critical :=
              List.length (filter (hasStatus AlertThreshold.critical) alerts);
            AlertSummary.ok :=
              List.length (filter (hasStatus AlertThreshold.ok) alerts) |};
       active_alerts := map toActiveAlert activeAlerts;
       all_thresholds := alerts;
       recommendations := generateAlertRecommendations alerts;
       next_check := getNextCheckTime clk |} in
  let some (metric : string) :=
    existsb (fun a => String.eqb (AlertThreshold.metric a) metric) activeAlerts in
  let nextActions :=
    [COMMON_ACTIONS.STATUS]
    ++ (if some "HRV"
        then [action "health hrv --days 14" "Analyze HRV trend to understand alert"]
        else [])
    ++ (if some "Sleep Duration"
        then [action "health sleep --days 7" "Review recent sleep patterns"]
        else [])
    ++ (if some "Daily Steps"
        then [action "health status" "Check current activity levels"]
        else [])
    ++ (if (List.length activeAlerts =? 0)%nat
        then [COMMON_ACTIONS.HRV; COMMON_ACTIONS.SLEEP]
        else []) in
  success (utf16 "alert") result nextActions.

Definition alertCommand (clk : Clock) : Rand (outcome (CLIResponse AlertResult)) :=
  alerts <- MockData.generateMockAlerts clk ;;
  ret (match alerts with
       | Throws e => Throws e
       | Returns alerts => Returns (alertResponse clk alerts)
       end).

End AlertCmd.

(* ================================================================== *)
(** ** Vocabulary of the properties *)
(* ================================================================== *)

Module Props.
Import Js JsNum.
Local Open Scope Q_scope.

(** [pat] occurs in [s]. *)
Definition Substring (pat s : jsstring) : Prop :=
  exists pre post, s = pre ++ pat ++ post.

(** Every capital letter after the first code unit follows a space. *)
Fixpoint capsSpaced (s : jsstring) : bool :=
  match s with
  | c :: (d :: _) as s' => (negb (isUpper d) || N.eqb c 32) && capsSpaced s'
  | _ => true
  end.

(** The loop indices in the order of the iterations: [k - 1] down to 0. *)
Fixpoint downFrom (k : nat) : list Z :=
  match k with
  | O => []
  | S k' => Z.of_nat k' :: downFrom k'
  end.

(** The draws that are all one half, and a reading of the clock in a zone
    that is always one hour ahead of UTC. *)
Definition halves : Rng := fun _ => 1 # 2.
Definition someClock : Clock :=
  {| now := 1700000000123;
     offsetAt := fun _ => 3600000%Z;
     offsetOfLocal := fun _ => 3600000%Z |}.

(** A time zone whose offset from UTC never changes. *)
Definition constantOffset (clk : Clock) : Prop :=
  exists z : Z, (forall t, offsetAt clk t = z) /\ (forall l, offsetOfLocal clk l = z).

(** Central European time around the start of summer time on 2024-03-31 at
    01:00 UTC: one hour ahead of UTC before, two hours after; the local times
    from 02:00 to 03:00 of that day are skipped. *)
Definition summerTimeAt (t : Z) : Z :=
  if (t <? 1711846800000)%Z then 3600000%Z else 7200000%Z.
Definition summerTimeOfLocal (l : Z) : Z :=
  if (l <? 1711854000000)%Z then 3600000%Z else 7200000%Z.

(** That zone read on 2024-04-01 at 01:30 local time, which is
    2024-03-31T23:30Z, and on 2024-03-30 at 23:00 local time, which is
    2024-03-30T22:00Z. *)
Definition springClock : Clock :=
  {| now := 1711927800000;
     offsetAt := summerTimeAt;
     offsetOfLocal := summerTimeOfLocal |}.
Definition springEveClock : Clock :=
  {| now := 1711836000000;
     offsetAt := summerTimeAt;
     offsetOfLocal := summerTimeOfLocal |}.

(** The time values of valid dates: at most 8.64e15 ms from the epoch. *)
Definition maxTime : Z := 8640000000000000.
Definition validTime (t : Z) : Prop := (- maxTime <= t <= maxTime)%Z.

(** The draws that are all 1/64. *)
Definition sixtyFourths : Rng := fun _ => 1 # 64.

(** The seconds and milliseconds of the current local time, which [setHours]
    keeps. *)
Definition secondsPart (clk : Clock) : Z := localTime clk (now clk) mod msPerMinute.

(** The wake-time identity as the specification words it, on the fields of a
    sample: the wake time is the bedtime plus [duration_hours], up to whole
    days. The times are read as [timeToMinutes] reads them. *)
Definition wakeIsBedtimePlusHours (s : SleepData.t) : Prop :=
  exists b w k : Z,
    SleepCmd.timeToMinutes (SleepData.bedtime s) = Some b
    /\ SleepCmd.timeToMinutes (SleepData.wake_time s) = Some w
    /\ inject_Z w == inject_Z b + SleepData.duration_hours s * 60 - inject_Z (1440 * k).

(** The wake time as the generator computes it from a duration in hours:
    [duration_hours] is the duration rounded to one decimal, and the wake
    time is the minute reached from the bedtime instant (bedtime, to the
    minute, plus the seconds of the clock) after the duration, in whole
    milliseconds. *)
Definition wakeFollowsBedtime (clk : Clock) (duration : Q) (s : SleepData.t) : Prop :=
  exists b w : Z,
    SleepData.duration_hours s == inject_Z (round (duration * 10)) / 10
    /\ SleepCmd.timeToMinutes (SleepData.bedtime s) = Some b
    /\ SleepCmd.timeToMinutes (SleepData.wake_time s) = Some w
    /\ w = ((b + (secondsPart clk + floor (duration * 3600000)) / msPerMinute)
            mod 1440)%Z.

(** The wake time is the bedtime plus the given duration in hours, which
    need not be a number of tenths, to within two minutes and up to whole
    days. *)
Definition wakeNearBedtimePlus (duration : Q) (s : SleepData.t) : Prop :=
  exists (b w k : Z) (e : Q),
    SleepCmd.timeToMinutes (SleepData.bedtime s) = Some b
    /\ SleepCmd.timeToMinutes (SleepData.wake_time s) = Some w
    /\ -2 < e /\ e < 2
    /\ inject_Z w == inject_Z b + duration * 60 + e - inject_Z (1440 * k).

(** The wake time is the bedtime plus [duration_hours] to within four
    minutes, up to whole days. *)
Definition wakeNearBedtimePlusHours (s : SleepData.t) : Prop :=
  exists b w k e : Z,
    SleepCmd.timeToMinutes (SleepData.bedtime s) = Some b
    /\ SleepCmd.timeToMinutes (SleepData.wake_time s) = Some w
    /\ (-4 <= e <= 4)%Z
    /\ inject_Z w == inject_Z b + SleepData.duration_hours s * 60
                     + inject_Z e - inject_Z (1440 * k).

(** An HRV sample with the given value; the trend reads nothing else. *)
Definition hrvSample (v : Q) : HRVData.t := HRVData.mk 0 v (MockData.categorize v).

(** A night with the given duration; the sleep debt reads nothing else. *)
Definition night (d : Q) : SleepData.t := SleepData.mk 0 d 0 0 0 [] [].

(** The status [st] with its HRV reading replaced by [v]. *)
Definition withHRV (v : Q) (st : HealthStatus.t) : HealthStatus.t :=
  {| HealthStatus.date := HealthStatus.date st;
     HealthStatus.hrv :=
       {| HealthStatus.current := v;
          HealthStatus.trend := HealthStatus.trend (HealthStatus.hrv st);
          HealthStatus.category := HealthStatus.category (HealthStatus.hrv st) |};
     HealthStatus.sleep := HealthStatus.sleep st;
     HealthStatus.activity := HealthStatus.activity st;
     HealthStatus.alerts := HealthStatus.alerts st |}.

(** The sleep debt in the words of the specification: the sum over all
    nights of max(0, 8 - duration_hours). *)
Definition debtSum (data : list SleepData.t) : Q :=
  fold_right (fun night acc => Qmax 0 (8 - SleepData.duration_hours night) + acc) 0 data.

(** Draws that make the three nights of 6.6, 7.6 and 7.8 hours: the first
    draw of each night is 3/64, 29/64 and 33/64, every other draw one half. *)
Definition debtDraws : Rng :=
  fun n => match n with
           | 0%nat => 3 # 64
           | 6%nat => 29 # 64
           | 12%nat => 33 # 64
           | _ => 1 # 2
           end.

(** Whole numbers of magnitude at most [bound]; on such values, for bounds
    far below 2^53, the sums of the program are exact in doubles. *)
Definition wholeNumbers (bound : Z) (values : list Q) : Prop :=
  Forall (fun v => exists z : Z, v = inject_Z z /\ (- bound <= z <= bound)%Z) values.

End Props.


(* ================================================================== *)
(** ** Vocabulary of the further properties *)
(* ================================================================== *)

Module MoreProps.
Import Js JsNum.
Local Open Scope Q_scope.

(** The order of [sort], as a relation, and its strict part. *)
Definition str_le (a b : jsstring) : Prop := str_leb a b = true.
Definition str_lt (a b : jsstring) : Prop := str_leb a b = true /\ a <> b.

(** The first code unit, when there is one, is not white space. *)
Definition headNotWhite (s : jsstring) : Prop :=
  match s with
  | c :: _ => isWhite c = false
  | [] => True
  end.

(** No white space at either end. *)
Definition trimmed (s : jsstring) : Prop := headNotWhite s /\ headNotWhite (rev s).

(** The text [HH:MM] of an hour and a minute, as [toTimeString] prints it. *)
Definition clockText (hm : Z * Z) : jsstring :=
  pad2 (fst hm) ++ utf16 ":" ++ pad2 (snd hm).

Definition validClock (hm : Z * Z) : Prop :=
  (0 <= fst hm < 24)%Z /\ (0 <= snd hm < 60)%Z.

Definition minutesOf (hm : Z * Z) : Z := (fst hm * 60 + snd hm)%Z.

(** A night of which only the score and the date matter. *)
Definition scored (date : Z) (score : Q) : SleepData.t :=
  SleepData.mk date 7 1 2 score [] [].

(** The integer square root, a function that is never negative. *)
Definition wholeSqrt (x : Q) : Q := inject_Z (Z.sqrt (Qfloor x)).

(** A night with the given bedtime and wake time. *)
Definition timed (bed wake : Z * Z) : SleepData.t :=
  SleepData.mk 0 7 1 2 80 (clockText bed) (clockText wake).

(** [b] describes the first night of [data] whose score is the score of
    [b]. *)
Definition firstNightWithScore (data : list SleepData.t) (b : SleepReport.Night) : Prop :=
  exists i n,
    nth_error data i = Some n
    /\ SleepReport.date b = SleepData.date n
    /\ SleepReport.duration b = SleepData.duration_hours n
    /\ SleepData.sleep_score n == SleepReport.score b
    /\ forall j n', (j < i)%nat -> nth_error data j = Some n' ->
                    ~ SleepData.sleep_score n' == SleepReport.score b.

(** Both times of the night are numbers for [timeToMinutes]. *)
Definition timesReadable (s : SleepData.t) : Prop :=
  SleepCmd.timeToMinutes (SleepData.bedtime s) <> None
  /\ SleepCmd.timeToMinutes (SleepData.wake_time s) <> None.

(** The direction of the opposite change. *)
Definition opposite (d : Direction) : Direction :=
  match d with
  | improving => declining
  | declining => improving
  | d => d
  end.

(** All the numbers of the list are the same number. *)
Definition allEqual (values : list Q) : Prop :=
  forall x y, In x values -> In y values -> x == y.

(** The ranges of a generated status: a [normal] HRV from 35 to 55, a last
    night and a weekly average from 6.5 to 9 hours, a score from 60 to 95,
    8500 to 11499 steps, 450 to 649 active calories, 25 to 64 minutes of
    exercise, and no alert. *)
Definition generatedStatus (st : HealthStatus.t) : Prop :=
  HealthStatus.category (HealthStatus.hrv st) = normal
  /\ (35 <= HealthStatus.current (HealthStatus.hrv st)
      /\ HealthStatus.current (HealthStatus.hrv st) <= 55)
  /\ (6.5 <= HealthStatus.last_night_hours (HealthStatus.sleep st)
      /\ HealthStatus.last_night_hours (HealthStatus.sleep st) <= 9)
  /\ (6.5 <= HealthStatus.avg_7_day (HealthStatus.sleep st)
      /\ HealthStatus.avg_7_day (HealthStatus.sleep st) <= 9)
  /\ (60 <= HealthStatus.score (HealthStatus.sleep st)
      /\ HealthStatus.score (HealthStatus.sleep st) <= 95)
  /\ (8500 <= HealthStatus.steps (HealthStatus.activity st)
      /\ HealthStatus.steps (HealthStatus.activity st) <= 11499)
  /\ (450 <= HealthStatus.active_calories (HealthStatus.activity st)
      /\ HealthStatus.active_calories (HealthStatus.activity st) <= 649)
  /\ (25 <= HealthStatus.exercise_minutes (HealthStatus.activity st)
      /\ HealthStatus.exercise_minutes (HealthStatus.activity st) <= 64)
  /\ HealthStatus.alerts st = [].

(** The local calendar day of an instant, as a number of days. *)
Definition localDay (clk : Clock) (t : Z) : Z := (localTime clk t / msPerDay)%Z.

(** The three metrics for which [generateAlertRecommendations] has texts. *)
Inductive Metric := hrvMetric | sleepMetric | stepsMetric.

Definition metric_eqb (a b : Metric) : bool :=
  match a, b with
  | hrvMetric, hrvMetric | sleepMetric, sleepMetric | stepsMetric, stepsMetric => true
  | _, _ => false
  end.

(** The metric of a threshold that is not [ok], when it is one of the
    three. *)
Definition flaggedMetric (a : AlertThreshold.t) : option Metric :=
  if AlertCmd.isActive a then
    if String.eqb (AlertThreshold.metric a) "HRV" then Some hrvMetric
    else if String.eqb (AlertThreshold.metric a) "Sleep Duration" then Some sleepMetric
    else if String.eqb (AlertThreshold.metric a) "Daily Steps" then Some stepsMetric
    else None
  else None.

Definition flaggedMetrics (alerts : list AlertThreshold.t) : list Metric :=
  flat_map (fun a => match flaggedMetric a with
                     | Some k => [k]
                     | None => []
                     end) alerts.

Definition immediateText (k : Metric) : string :=
  match k with
  | hrvMetric => "Take a rest day or reduce training intensity"
  | sleepMetric => "Prioritize earlier bedtime tonight"
  | stepsMetric => "Take breaks for short walks throughout the day"
  end.

Definition shortTermText (k : Metric) : string :=
  match k with
  | hrvMetric => "Focus on stress management and recovery practices"
  | sleepMetric => "Establish consistent sleep schedule"
  | stepsMetric => "Incorporate more movement into daily routine"
  end.

Definition longTermText (k : Metric) : string :=
  match k with
  | hrvMetric => "Evaluate training load and recovery balance"
  | sleepMetric => "Optimize sleep environment and hygiene"
  | stepsMetric => "Set progressive activity goals"
  end.

(** The ranges of a generated night: 6.5 to 9 hours, of which 1 to 2.3 are
    deep sleep and 1.3 to 2.7 REM sleep, the two together no more than the
    night; a whole score from 60 to 95; and bedtime and wake time texts that
    [timeToMinutes] reads. *)
Definition generatedNight (s : SleepData.t) : Prop :=
  (6.5 <= SleepData.duration_hours s /\ SleepData.duration_hours s <= 9)
  /\ (1 <= SleepData.deep_sleep_hours s /\ SleepData.deep_sleep_hours s <= 2.3)
  /\ (1.3 <= SleepData.rem_sleep_hours s /\ SleepData.rem_sleep_hours s <= 2.7)
  /\ SleepData.deep_sleep_hours s + SleepData.rem_sleep_hours s
     <= SleepData.duration_hours s
  /\ (exists z, SleepData.sleep_score s = inject_Z z /\ (60 <= z <= 95)%Z)
  /\ SleepCmd.timeToMinutes (SleepData.bedtime s) <> None
  /\ SleepCmd.timeToMinutes (SleepData.wake_time s) <> None.

(** A bedtime from 22:00 to 00:59. *)
Definition eveningBedtime (s : SleepData.t) : Prop :=
  exists b, SleepCmd.timeToMinutes (SleepData.bedtime s) = Some b
            /\ (1320 <= b < 1440 \/ 0 <= b < 60)%Z.

End MoreProps.

Import Js JsNum Props MoreProps.
Local Open Scope Q_scope.

(* ================================================================== *)
(** ** Proof tools *)
(* ================================================================== *)

(** [lra] after the injections of integers that are not numerals have been
    made opaque to it. *)
Ltac hide_inject :=
  repeat match goal with
         | |- context [inject_Z ?z] =>
             lazymatch z with
             | Z0 => fail
             | Zpos _ => fail
             | Zneg _ => fail
             | _ => let q := fresh "q" in
                    let E := fresh "E" in
                    remember (inject_Z z) as q eqn:E in *; clear E
             end
         | H : context [inject_Z ?z] |- _ =>
             lazymatch z with
             | Z0 => fail
             | Zpos _ => fail
             | Zneg _ => fail
             | _ => let q := fresh "q" in
                    let E := fresh "E" in
                    remember (inject_Z z) as q eqn:E in *; clear E
             end
         end;
  cbv [inject_Z] in *.

(** Division by a positive numeral is multiplication by its inverse. *)
Ltac const_div :=
  unfold Qdiv in *;
  repeat match goal with
         | |- context [Qinv (Qmake (Zpos ?p) 1)] =>
             change (Qinv (Qmake (Zpos p) 1)) with (Qmake 1 p) in *
         | H : context [Qinv (Qmake (Zpos ?p) 1)] |- _ =>
             change (Qinv (Qmake (Zpos p) 1)) with (Qmake 1 p) in *
         end.

Ltac qlra := hide_inject; const_div; lra.

(* ================================================================== *)
(** ** Strings *)
(* ================================================================== *)


Lemma str_eqb_eq (a b : jsstring) : str_eqb a b = true -> a = b.
Proof.
  revert b; induction a as [|x a IH]; intros [|y b]; simpl; try discriminate; auto.
  intros H. apply andb_prop in H as [Hx Hab].
  apply N.eqb_eq in Hx. f_equal; auto.
Qed.

Lemma startsWith_spec (pat s : jsstring) :
  startsWith pat s = true <-> exists post, s = pat ++ post.
Proof.
  revert s; induction pat as [|p pat IH]; intros s; simpl.
  - split; eauto.
  - destruct s as [|c s].
    + split; [discriminate | intros [post H]; discriminate].
    + rewrite andb_true_iff, N.eqb_eq, IH. split.
      * intros [-> [post ->]]. now exists post.
      * intros [post H]. injection H as -> ->. eauto.
Qed.

Lemma includes_spec (s pat : jsstring) :
  includes s pat = true <-> Substring pat s.
Proof.
  unfold Substring. induction s as [|c s IH]; simpl.
  - rewrite orb_false_r, startsWith_spec. split.
    + intros [post H]. now exists [], post.
    + intros [[|x pre] [post H]]; [eauto | discriminate].
  - rewrite orb_true_iff, startsWith_spec, IH. split.
    + intros [[post H] | [pre [post H]]].
      * now exists [], post.
      * exists (c :: pre), post. now rewrite H.
    + intros [[|x pre] [post H]].
      * left. now exists post.
      * right. injection H as _ H. now exists pre, post.
Qed.

Lemma set_has_In (s : list jsstring) (x : jsstring) :
  set_has s x = true -> In x s.
Proof.
  unfold set_has. rewrite existsb_exists. intros [y [Hy Heq]].
  apply str_eqb_eq in Heq. now subst.
Qed.

Lemma capsSpaced_app (a b : jsstring) :
  capsSpaced (a ++ b) = true -> capsSpaced a = true /\ capsSpaced b = true.
Proof.
  induction a as [|c a IH]; [now split |].
  destruct a as [|d a].
  - simpl. destruct b as [|d b]; [now split |].
    intros H. apply andb_prop in H as [_ H]. now split.
  - change (capsSpaced ((c :: d :: a) ++ b))
      with ((negb (isUpper d) || N.eqb c 32) && capsSpaced ((d :: a) ++ b)).
    change (capsSpaced (c :: d :: a))
      with ((negb (isUpper d) || N.eqb c 32) && capsSpaced (d :: a)).
    intros H. apply andb_prop in H as [H1 H2].
    destruct (IH H2) as [Ha Hb]. rewrite H1, Ha. now split.
Qed.

Lemma trimStart_suffix (s : jsstring) : exists w, s = w ++ trimStart s.
Proof.
  induction s as [|c s [w IH]]; [now exists [] |].
  simpl. destruct (isWhite c).
  - exists (c :: w). simpl. now rewrite <- IH.
  - now exists [].
Qed.

Lemma trim_infix (s : jsstring) : exists w1 w2, s = w1 ++ trim s ++ w2.
Proof.
  unfold trim, trimEnd.
  destruct (trimStart_suffix s) as [w1 H1].
  destruct (trimStart_suffix (rev (trimStart s))) as [w2 H2].
  exists w1, (rev w2).
  rewrite <- rev_app_distr, <- H2, rev_involutive. exact H1.
Qed.

Lemma capsSpaced_trim (s : jsstring) :
  capsSpaced s = true -> capsSpaced (trim s) = true.
Proof.
  intros H. destruct (trim_infix s) as [w1 [w2 Hs]].
  rewrite Hs in H.
  apply capsSpaced_app in H as [_ H].
  now apply capsSpaced_app in H as [H _].
Qed.

Lemma spaceCapitals_head (s : jsstring) :
  match spaceCapitals s with
  | d :: _ => isUpper d = false
  | [] => True
  end.
Proof.
  destruct s as [|c s]; [exact I |].
  unfold spaceCapitals. simpl. destruct (isUpper c) eqn:E; simpl; auto.
Qed.

Lemma capsSpaced_spaceCapitals (s : jsstring) :
  capsSpaced (spaceCapitals s) = true.
Proof.
  induction s as [|c s IH]; [reflexivity |].
  change (spaceCapitals (c :: s))
    with ((if isUpper c then [32%N; c] else [c]) ++ spaceCapitals s).
  pose proof (spaceCapitals_head s) as Hh.
  destruct (spaceCapitals s) as [|d rest] eqn:E.
  - destruct (isUpper c) eqn:Ec; simpl; [now rewrite Ec | reflexivity].
  - destruct (isUpper c) eqn:Ec.
    + change (capsSpaced ([32%N; c] ++ d :: rest))
        with ((negb (isUpper c) || N.eqb 32 32)
              && ((negb (isUpper d) || N.eqb c 32) && capsSpaced (d :: rest))).
      now rewrite Hh, IH, orb_true_r.
    + change (capsSpaced ([c] ++ d :: rest))
        with ((negb (isUpper d) || N.eqb c 32) && capsSpaced (d :: rest)).
      now rewrite Hh, IH.
Qed.

(* ================================================================== *)
(** ** The scanner *)
(* ================================================================== *)

Section Scanner.
Import ImportCmd.

Lemma collectType_spaced (records acc : list jsstring) :
  Forall (fun x => capsSpaced x = true) acc ->
  Forall (fun x => capsSpaced x = true) (fold_left collectType records acc).
Proof.
  revert acc; induction records as [|r records IH]; intros acc Hacc; [exact Hacc |].
  simpl. apply IH. unfold collectType.
  destruct (matchFirst (attribute "type") r) as [[whole fullType]|]; [| exact Hacc].
  unfold set_add.
  destruct (set_has acc (trim (spaceCapitals (stripHKPrefix fullType)))); [exact Hacc |].
  apply Forall_app. split; [exact Hacc |].
  constructor; [| constructor].
  apply capsSpaced_trim, capsSpaced_spaceCapitals.
Qed.

(** The label that the scanner looks for can never be in the set of
    simplified type names: every capital letter of a simplified name follows
    a space, and the capitals of [SDNN] do not. Hence the HRV warning is part
    of every result. *)
Lemma hrv_warning_in_every_result (xml : jsstring) (r : ParseResult) :
  parseAppleHealthXML xml = Returns r -> In hrvMissingWarning (warnings r).
Proof.
  unfold parseAppleHealthXML.
  destruct (negb (includes xml (utf16 "<HealthData"))); [discriminate |].
  intros H. injection H as <-. cbn [warnings].
  set (dataTypes := fold_left collectType _ []).
  assert (Hno : set_has dataTypes (utf16 "Heart Rate Variability SDNN") = false).
  { destruct (set_has dataTypes _) eqn:E; [| reflexivity].
    apply set_has_In in E.
    assert (Hsp : Forall (fun x => capsSpaced x = true) dataTypes)
      by (apply collectType_spaced; constructor).
    rewrite Forall_forall in Hsp. apply Hsp in E. discriminate E. }
  rewrite Hno. cbn [negb].
  apply in_or_app. right. apply in_or_app. right. left. reflexivity.
Qed.

(** C9. The scanner throws its malformed-import error exactly when the text
    does not contain [<HealthData], and returns a result exactly when it
    does; the text [<NotHealthData></NotHealthData>] is rejected. *)
Theorem scan_rejects_iff_root_absent :
  (forall xml,
      (parseAppleHealthXML xml = Throws MalformedImport
       <-> ~ Substring (utf16 "<HealthData") xml)
      /\ ((exists r, parseAppleHealthXML xml = Returns r)
          <-> Substring (utf16 "<HealthData") xml))
  /\ parseAppleHealthXML (utf16 "<NotHealthData></NotHealthData>")
     = Throws MalformedImport.
Proof.
  split; [| reflexivity].
  intros xml. rewrite <- includes_spec. unfold parseAppleHealthXML.
  destruct (includes xml (utf16 "<HealthData")); simpl; split; split;
    try discriminate; try congruence; eauto.
  - intros [r H]. discriminate.
Qed.

(** C1. On the export of the specification's example the scanner counts two
    records and reports the date range 2024-01-01 to 2024-01-03 and the
    privacy notice; the HRV type is simplified to
    [Heart Rate Variability S D N N], and the [HRV data not found] warning is
    raised although the HRV record is there. *)
Theorem scan_sample_export :
  parseAppleHealthXML sampleExport =
  Returns {| recordCount := 2;
             dataTypes := [utf16 "Heart Rate Variability S D N N";
                           utf16 "Sleep Analysis"];
             dateRange := {| start := utf16 "2024-01-01";
                             end_ := utf16 "2024-01-03" |};
             warnings := [hrvMissingWarning; privacyNotice] |}.
Proof. vm_compute. reflexivity. Qed.

End Scanner.

(* ================================================================== *)
(** ** Numbers *)
(* ================================================================== *)

Lemma ltb_lt (a b : Q) : ltb a b = true <-> a < b.
Proof.
  unfold ltb. rewrite negb_true_iff. split.
  - intros H. apply Qnot_le_lt. intros Hle.
    apply Qle_bool_iff in Hle. congruence.
  - intros H. destruct (Qle_bool b a) eqn:E; [| reflexivity].
    apply Qle_bool_iff in E. lra.
Qed.

Lemma ltb_ge (a b : Q) : ltb a b = false <-> b <= a.
Proof.
  unfold ltb. rewrite negb_false_iff. apply Qle_bool_iff.
Qed.

Lemma floor_ge (k : Z) (x : Q) : inject_Z k <= x -> (k <= floor x)%Z.
Proof.
  intros H. unfold floor. rewrite <- (Qfloor_Z k). now apply Qfloor_resp_le.
Qed.

Lemma floor_lt (k : Z) (x : Q) : x < inject_Z k -> (floor x < k)%Z.
Proof.
  intros H. unfold floor. rewrite Zlt_Qlt.
  apply Qle_lt_trans with x; [apply Qfloor_le | exact H].
Qed.

Lemma round_ge (k : Z) (x : Q) : inject_Z k <= x + (1 # 2) -> (k <= round x)%Z.
Proof. apply floor_ge. Qed.

Lemma round_lt (k : Z) (x : Q) : x + (1 # 2) < inject_Z k -> (round x < k)%Z.
Proof. apply floor_lt. Qed.

Lemma round_eq (x y : Q) : x == y -> round x = round y.
Proof. intros H. unfold round. apply Qfloor_comp. now rewrite H. Qed.

Lemma round_inject (z : Z) : round (inject_Z z) = z.
Proof.
  apply Z.le_antisymm.
  - apply Z.lt_succ_r. apply round_lt.
    rewrite <- Z.add_1_r, inject_Z_plus. qlra.
  - apply round_ge. qlra.
Qed.

(* ================================================================== *)
(** ** Trend classification *)
(* ================================================================== *)

Section Trend.
Import HrvCmd SleepCmd.

(** The generic variant reports [insufficient_data] for fewer than three
    values. *)
Lemma calculateTrend_short (values : list Q) :
  (List.length values < 3)%nat -> calculateTrend values = insufficient_data.
Proof.
  intros H. unfold calculateTrend.
  apply Nat.ltb_lt in H. now rewrite H.
Qed.

(** The HRV variant reports [insufficient_data] with change 0 for fewer than
    two samples only. *)
Lemma analyzeHRVTrend_short (data : list HRVData.t) :
  (List.length data < 2)%nat ->
  analyzeHRVTrend data =
  {| direction := insufficient_data; change := 0;
     change_percent := absent; significance := none |}.
Proof.
  intros H. unfold analyzeHRVTrend.
  apply Nat.ltb_lt in H. now rewrite H.
Qed.

(** Two samples: both windows hold the same two samples, so the change is 0
    and the direction [stable]. *)
Lemma analyzeHRVTrend_pair (a b : HRVData.t) :
  direction (analyzeHRVTrend [a; b]) = stable
  /\ change (analyzeHRVTrend [a; b]) = 0%Z
  /\ significance (analyzeHRVTrend [a; b]) = none.
Proof.
  unfold analyzeHRVTrend, sliceLast.
  cbn [List.length Nat.ltb Nat.leb Nat.sub skipn firstn map].
  set (x := sum [HRVData.value a; HRVData.value b] / 3).
  assert (Hz : x - x == 0) by ring.
  assert (Habs : ltb (Qabs (x - x)) 2 = true).
  { apply ltb_lt. rewrite Hz. reflexivity. }
  rewrite Habs. cbn [direction change significance].
  repeat split. rewrite (round_eq Hz). reflexivity.
Qed.

(** C2. A series of two HRV samples has fewer than three elements, yet
    [analyzeHRVTrend] does not report [insufficient_data] for it: the
    direction is [stable]. This is so for the samples 40 and 50, for every
    pair of samples, and for every series that [generateMockHRV] makes for
    two days. *)
Theorem analyzeHRVTrend_two_samples :
  analyzeHRVTrend [hrvSample 40; hrvSample 50]
  = {| direction := stable; change := 0;
       change_percent := percent 0; significance := none |}
  /\ (forall a b : HRVData.t,
         direction (analyzeHRVTrend [a; b]) = stable
         /\ change (analyzeHRVTrend [a; b]) = 0%Z)
  /\ (forall (clk : Clock) (g : Rng),
         List.length (fst (MockData.generateMockHRV clk 2 g)) = 2%nat
         /\ direction (analyzeHRVTrend (fst (MockData.generateMockHRV clk 2 g)))
            = stable).
Proof.
  split; [vm_compute; reflexivity |].
  split; [intros a b; destruct (analyzeHRVTrend_pair a b) as (H1 & H2 & _); now split |].
  intros clk g. split; [reflexivity |].
  change (fst (MockData.generateMockHRV clk 2 g))
    with [fst (MockData.hrvDay clk 1 g);
          fst (MockData.hrvDay clk 0 (advance 1 g))].
  apply analyzeHRVTrend_pair.
Qed.

(** C5. For a series with the values 10, 10, 10, 1, 1, 1 the trend is
    declining with change -9, the mean of the last three values minus the mean
    of the first three; for six values 5 it is stable with change 0. Both
    variants agree. *)
Theorem trend_window_examples (falling flat : list HRVData.t) :
  map HRVData.value falling = [10; 10; 10; 1; 1; 1] ->
  map HRVData.value flat = [5; 5; 5; 5; 5; 5] ->
  direction (analyzeHRVTrend falling) = declining
  /\ change (analyzeHRVTrend falling) = (-9)%Z
  /\ calculateTrend [10; 10; 10; 1; 1; 1] = declining
  /\ SleepCmd.trendChange [10; 10; 10; 1; 1; 1] == -9
  /\ direction (analyzeHRVTrend flat) = stable
  /\ change (analyzeHRVTrend flat) = 0%Z
  /\ calculateTrend [5; 5; 5; 5; 5; 5] = stable
  /\ SleepCmd.trendChange [5; 5; 5; 5; 5; 5] == 0.
Proof.
  intros Hfalling Hflat.
  destruct falling as [|[? v1 ?] [|[? v2 ?] [|[? v3 ?] [|[? v4 ?] [|[? v5 ?] [|[? v6 ?] [|]]]]]]];
    try discriminate Hfalling.
  destruct flat as [|[? w1 ?] [|[? w2 ?] [|[? w3 ?] [|[? w4 ?] [|[? w5 ?] [|[? w6 ?] [|]]]]]]];
    try discriminate Hflat.
  cbn [map HRVData.value] in Hfalling, Hflat.
  injection Hfalling as -> -> -> -> -> ->.
  injection Hflat as -> -> -> -> -> ->.
  repeat split; vm_compute; reflexivity.
Qed.

Lemma trend_window_examples_witness :
  map HRVData.value (map hrvSample [10; 10; 10; 1; 1; 1]) = [10; 10; 10; 1; 1; 1]
  /\ direction (analyzeHRVTrend (map hrvSample [10; 10; 10; 1; 1; 1])) = declining
  /\ change (analyzeHRVTrend (map hrvSample [10; 10; 10; 1; 1; 1])) = (-9)%Z
  /\ direction (analyzeHRVTrend (map hrvSample [5; 5; 5; 5; 5; 5])) = stable
  /\ change (analyzeHRVTrend (map hrvSample [5; 5; 5; 5; 5; 5])) = 0%Z.
Proof.
  pose proof (trend_window_examples
                (map hrvSample [10; 10; 10; 1; 1; 1])
                (map hrvSample [5; 5; 5; 5; 5; 5])
                eq_refl eq_refl) as H.
  split; [reflexivity |].
  destruct H as (H1 & H2 & _ & _ & H3 & H4 & _).
  repeat split; assumption.
Defined.

End Trend.

(* ================================================================== *)
(** ** Alert thresholds *)
(* ================================================================== *)

Section Alerts.
Import MockData.

Lemma thresholdEntry_status (metric : string) (limit current : Q) (below within : string) :
  let a := thresholdEntry metric limit current below within in
  (AlertThreshold.status a = AlertThreshold.warning <-> current < limit)
  /\ (AlertThreshold.status a = AlertThreshold.ok <-> ~ current < limit).
Proof.
  unfold thresholdEntry. cbn [AlertThreshold.status].
  destruct (ltb current limit) eqn:E.
  - apply ltb_lt in E. repeat split; auto; try discriminate. intros H. now elim H.
  - apply ltb_ge in E. repeat split; auto; try discriminate; lra.
Qed.

(** C8. The alert evaluation reads the HRV value against 30, last night's
    duration against 6 and the steps against 5000; each entry is a warning
    exactly when its current value is strictly below its threshold and ok
    otherwise. An HRV value of exactly 30 is ok, 29 is a warning. *)
Theorem alert_status_strict (clk : Clock) (g : Rng) (st : HealthStatus.t) :
  fst (generateMockAlerts clk g)
  = match fst (generateMockStatus clk g) with
    | Returns status => Returns (alertThresholds status)
    | Throws e => Throws e
    end
  /\ map (fun a => (AlertThreshold.metric a, AlertThreshold.threshold a,
                    AlertThreshold.current a)) (alertThresholds st)
     = [ ("HRV"%string, 30, HealthStatus.current (HealthStatus.hrv st));
         ("Sleep Duration"%string, 6,
          HealthStatus.last_night_hours (HealthStatus.sleep st));
         ("Daily Steps"%string, 5000,
          HealthStatus.steps (HealthStatus.activity st)) ]
  /\ Forall (fun a =>
               (AlertThreshold.status a = AlertThreshold.warning
                <-> AlertThreshold.current a < AlertThreshold.threshold a)
               /\ (AlertThreshold.status a = AlertThreshold.ok
                   <-> ~ AlertThreshold.current a < AlertThreshold.threshold a))
            (alertThresholds st)
  /\ option_map AlertThreshold.status (hd_error (alertThresholds (withHRV 30 st)))
     = Some AlertThreshold.ok
  /\ option_map AlertThreshold.status (hd_error (alertThresholds (withHRV 29 st)))
     = Some AlertThreshold.warning.
Proof.
  split; [| split; [| split; [| split]]].
  - unfold generateMockAlerts, bind.
    destruct (generateMockStatus clk g) as [[status | e] g']; reflexivity.
  - reflexivity.
  - unfold alertThresholds.
    repeat constructor; apply thresholdEntry_status.
  - reflexivity.
  - reflexivity.
Qed.

End Alerts.


(* ================================================================== *)
(** ** The generators *)
(* ================================================================== *)

Section Generators.
Import MockData.

Lemma unitDraws_advance (k : nat) (g : Rng) : unitDraws g -> unitDraws (advance k g).
Proof. intros H n. apply H. Qed.

Lemma countDown_length {A : Type} (body : Z -> Rand A) (k : nat) (g : Rng) :
  List.length (fst (countDown body k g)) = k.
Proof.
  revert g; induction k as [|k IH]; intros g; [reflexivity |].
  cbn [countDown]. unfold bind.
  destruct (body (Z.of_nat k) g) as [x g1].
  specialize (IH g1). destruct (countDown body k g1) as [rest g2].
  simpl in *. now rewrite IH.
Qed.

(** A property of every iteration, under an invariant of the draws, is a
    property of every element of the result. *)
Lemma countDown_Forall {A : Type} (P : A -> Prop) (I : Rng -> Prop)
    (body : Z -> Rand A) :
  (forall i g, I g -> P (fst (body i g)) /\ I (snd (body i g))) ->
  forall k g, I g ->
    Forall P (fst (countDown body k g)) /\ I (snd (countDown body k g)).
Proof.
  intros Hbody k; induction k as [|k IH]; intros g Hg; [now split |].
  cbn [countDown]. unfold bind.
  destruct (Hbody (Z.of_nat k) g Hg) as [Hx Hg1].
  destruct (body (Z.of_nat k) g) as [x g1].
  destruct (IH g1 Hg1) as [Hrest Hg2].
  destruct (countDown body k g1) as [rest g2].
  simpl in *. split; [now constructor | assumption].
Qed.

(** A field that depends on the loop index only. *)
Lemma countDown_map {A B : Type} (f : A -> B) (h : Z -> B) (body : Z -> Rand A) :
  (forall i g, f (fst (body i g)) = h i) ->
  forall k g, map f (fst (countDown body k g)) = map h (downFrom k).
Proof.
  intros Hbody k; induction k as [|k IH]; intros g; [reflexivity |].
  cbn [countDown downFrom map]. unfold bind.
  specialize (Hbody (Z.of_nat k) g).
  destruct (body (Z.of_nat k) g) as [x g1].
  specialize (IH g1).
  destruct (countDown body k g1) as [rest g2].
  simpl in *. now rewrite Hbody, IH.
Qed.

Lemma downFrom_bounds (k : nat) (j : Z) :
  In j (downFrom k) -> (0 <= j < Z.of_nat k)%Z.
Proof.
  induction k as [|k IH]; simpl; [tauto |].
  intros [<- | H]; [lia | apply IH in H; lia].
Qed.

Lemma downFrom_last (k : nat) :
  downFrom (S k) = map Z.succ (downFrom k) ++ [0%Z].
Proof.
  induction k as [|k IH]; [reflexivity |].
  transitivity (Z.of_nat (S k) :: (map Z.succ (downFrom k) ++ [0%Z])).
  - now rewrite <- IH.
  - cbn [downFrom map app]. now rewrite Nat2Z.inj_succ.
Qed.

(** In a zone with a constant offset local time is UTC moved by the
    offset, both ways. *)
Lemma constantOffset_shift (clk : Clock) :
  constantOffset clk ->
  exists z : Z, (forall t, localTime clk t = (t + z)%Z)
                /\ (forall l, utcOfLocal clk l = (l - z)%Z).
Proof.
  intros (z & Hat & Hof). exists z.
  split; intros x; unfold localTime, utcOfLocal; [rewrite Hat | rewrite Hof];
    reflexivity.
Qed.

Lemma constantOffset_someClock : constantOffset someClock.
Proof. exists 3600000%Z. split; intros x; reflexivity. Qed.

Lemma daysAgo_constantOffset (clk : Clock) (i : Z) :
  constantOffset clk -> daysAgo clk i = (now clk - i * msPerDay)%Z.
Proof.
  intros H. destruct (constantOffset_shift H) as (z & Hl & Hu).
  unfold daysAgo. rewrite Hl, Hu. ring.
Qed.

Lemma isoDate_daysAgo (clk : Clock) (i : Z) :
  constantOffset clk ->
  isoDate (daysAgo clk i) = (isoDate (now clk) - i)%Z.
Proof.
  intros Hz. rewrite (daysAgo_constantOffset i Hz). unfold isoDate.
  replace (now clk - i * msPerDay)%Z with (now clk + (- i) * msPerDay)%Z by ring.
  rewrite Z.div_add by discriminate. ring.
Qed.

Lemma dates_increasing (today : Z) (k : nat) :
  StronglySorted Z.lt (map (fun i => (today - i)%Z) (downFrom k)).
Proof.
  induction k as [|k IH]; [constructor |].
  cbn [downFrom map]. constructor; [exact IH |].
  apply Forall_forall. intros d Hd.
  apply in_map_iff in Hd as [j [<- Hj]].
  apply downFrom_bounds in Hj. lia.
Qed.

Lemma dates_end_today (today : Z) (k : nat) :
  exists init, map (fun i => (today - i)%Z) (downFrom (S k)) = init ++ [today].
Proof.
  rewrite downFrom_last, map_app.
  eexists. f_equal. cbn [map]. f_equal. ring.
Qed.

Lemma generateMockHRV_dates (clk : Clock) (days : Z) (g : Rng) :
  constantOffset clk ->
  map HRVData.date (fst (generateMockHRV clk days g))
  = map (fun i => (isoDate (now clk) - i)%Z) (downFrom (Z.to_nat days)).
Proof.
  intros Hz. unfold generateMockHRV. apply countDown_map.
  intros i g'. cbn. apply isoDate_daysAgo, Hz.
Qed.

Lemma generateMockSleep_dates (clk : Clock) (days : Z) (g : Rng) :
  constantOffset clk ->
  map SleepData.date (fst (generateMockSleep clk days g))
  = map (fun i => (isoDate (now clk) - i)%Z) (downFrom (Z.to_nat days)).
Proof.
  intros Hz. unfold generateMockSleep. apply countDown_map.
  intros i g'. cbn. apply isoDate_daysAgo, Hz.
Qed.




(** *** Ranges of the drawn values *)

Lemma hrvValue_range (r : Q) : 0 <= r -> r < 1 -> 35 <= hrvValue r /\ hrvValue r < 55.
Proof.
  intros H0 H1. unfold hrvValue, baseHRV.
  destruct (Q.max_spec 20 (Qmin 80 (45 + (r - 0.5) * 20))) as [[? E] | [? E]];
    destruct (Q.min_spec 80 (45 + (r - 0.5) * 20)) as [[? E'] | [? E']];
    rewrite E; rewrite ?E' in *; lra.
Qed.

Lemma round_range (lo hi : Z) (x : Q) :
  inject_Z lo <= x -> x <= inject_Z hi -> (lo <= round x <= hi)%Z.
Proof.
  intros Hlo Hhi. split.
  - apply round_ge. qlra.
  - apply Z.lt_succ_r. apply round_lt.
    rewrite <- Z.add_1_r, inject_Z_plus. qlra.
Qed.

Lemma inject_Z_range (lo hi z : Z) :
  (lo <= z <= hi)%Z -> inject_Z lo <= inject_Z z /\ inject_Z z <= inject_Z hi.
Proof. intros [H1 H2]. rewrite <- !Zle_Qle. now split. Qed.

(** Every generated HRV sample is [normal], with a value from 35 to 55. *)
Lemma hrvDay_sample (clk : Clock) (i : Z) (g : Rng) :
  unitDraws g ->
  (HRVData.category (fst (hrvDay clk i g)) = normal
   /\ 35 <= HRVData.value (fst (hrvDay clk i g))
   /\ HRVData.value (fst (hrvDay clk i g)) <= 55)
  /\ unitDraws (snd (hrvDay clk i g)).
Proof.
  intros Hg. split; [| now apply unitDraws_advance].
  cbn. destruct (Hg 0%nat) as [H0 H1].
  destruct (hrvValue_range H0 H1) as [Hlo Hhi].
  split.
  - unfold categorize.
    assert (E1 : ltb (hrvValue (g 0%nat)) 30 = false) by (apply ltb_ge; lra).
    assert (E2 : ltb 60 (hrvValue (g 0%nat)) = false) by (apply ltb_ge; lra).
    now rewrite E1, E2.
  - change 35 with (inject_Z 35). change 55 with (inject_Z 55).
    apply inject_Z_range, round_range; cbv [inject_Z]; lra.
Qed.

Lemma sleepDuration_range (r : Q) :
  0 <= r -> r < 1 -> 6.5 <= sleepDuration r /\ sleepDuration r < 9.
Proof. intros H0 H1. unfold sleepDuration. lra. Qed.

(** Every generated night lasts 6.5 hours or more. *)
Lemma sleepDay_sample (clk : Clock) (i : Z) (g : Rng) :
  unitDraws g ->
  6.5 <= SleepData.duration_hours (fst (sleepDay clk i g))
  /\ unitDraws (snd (sleepDay clk i g)).
Proof.
  intros Hg. split; [| now apply (unitDraws_advance 6)].
  cbn [sleepDay bind Math_random ret fst SleepData.duration_hours].
  destruct (Hg 0%nat) as [H0 H1].
  destruct (sleepDuration_range H0 H1) as [Hlo Hhi].
  assert (H : (65 <= round (sleepDuration (g 0%nat) * 10))%Z).
  { apply round_ge. cbv [inject_Z]. lra. }
  rewrite Zle_Qle in H. qlra.
Qed.

Lemma fromEnd_last {A : Type} (P : A -> Prop) (l : list A) :
  Forall P l -> (0 < List.length l)%nat -> exists x, fromEnd 1 l = Some x /\ P x.
Proof.
  intros HP Hlen. unfold fromEnd.
  destruct (List.length l <? 1)%nat eqn:E; [apply Nat.ltb_lt in E; lia |].
  destruct (nth_error l (List.length l - 1)) as [x|] eqn:Ex.
  - exists x. split; [reflexivity |].
    rewrite Forall_forall in HP. eapply HP, nth_error_In, Ex.
  - apply nth_error_None in Ex. lia.
Qed.

Lemma categorize_spec (v : Q) :
  (categorize v = low <-> v < 30)
  /\ (categorize v = high <-> 60 < v)
  /\ (categorize v = normal <-> 30 <= v /\ v <= 60).
Proof.
  unfold categorize.
  destruct (ltb v 30) eqn:E1; [apply ltb_lt in E1 | apply ltb_ge in E1];
    (destruct (ltb 60 v) eqn:E2; [apply ltb_lt in E2 | apply ltb_ge in E2]);
    repeat split; intros;
    repeat match goal with H : _ /\ _ |- _ => destruct H end;
    try discriminate; try reflexivity; try lra.
Qed.

(** C6. The category of every generated HRV sample is [low] exactly when its
    value is below 30, [high] exactly when it is above 60 and [normal]
    otherwise, and the value lies between 20 and 80; the category is a
    function of the value that splits every range in these three parts. *)
Theorem hrv_category_partition (clk : Clock) (g : Rng) (n : Z) :
  unitDraws g ->
  Forall (fun d =>
            (HRVData.category d = low <-> HRVData.value d < 30)
            /\ (HRVData.category d = high <-> 60 < HRVData.value d)
            /\ (HRVData.category d = normal
                <-> 30 <= HRVData.value d /\ HRVData.value d <= 60)
            /\ 20 <= HRVData.value d /\ HRVData.value d <= 80)
         (fst (generateMockHRV clk n g))
  /\ (forall v : Q,
         (categorize v = low <-> v < 30)
         /\ (categorize v = high <-> 60 < v)
         /\ (categorize v = normal <-> 30 <= v /\ v <= 60)).
Proof.
  intros Hg. split; [| exact categorize_spec].
  unfold generateMockHRV.
  destruct (@countDown_Forall _
              (fun d => HRVData.category d = normal
                        /\ 35 <= HRVData.value d /\ HRVData.value d <= 55)
              unitDraws (hrvDay clk) (hrvDay_sample clk)
              (Z.to_nat n) g Hg) as [H _].
  eapply Forall_impl; [| exact H].
  intros d (Hc & Hlo & Hhi). rewrite Hc.
  repeat split; intros;
    repeat match goal with H : _ /\ _ |- _ => destruct H end;
    try discriminate; try reflexivity; try lra.
Qed.

Lemma hrv_category_partition_witness :
  unitDraws halves
  /\ map (fun d => (Qred (HRVData.value d), HRVData.category d))
         (fst (generateMockHRV someClock 2 halves)) = [(45, normal); (45, normal)]
  /\ Forall (fun d => HRVData.category d = low <-> HRVData.value d < 30)
            (fst (generateMockHRV someClock 2 halves)).
Proof.
  assert (H : unitDraws halves) by (intros n; unfold halves; split; lra).
  pose proof (hrv_category_partition someClock 2 H) as [HF _].
  split; [exact H |]. split; [vm_compute; reflexivity |].
  eapply Forall_impl; [| exact HF]. intros d Hd. apply Hd.
Defined.

(** C4. Whatever is drawn, the generated HRV values lie between 35 and 55,
    the generated nights last 6.5 hours or more and the steps are 8500 or
    more; hence the status carries no alert and the three thresholds of the
    alert evaluation are all ok. *)
Theorem generated_values_never_alert (clk : Clock) (g : Rng) :
  unitDraws g ->
  (forall n, Forall (fun d => 35 <= HRVData.value d /\ HRVData.value d <= 55)
                    (fst (generateMockHRV clk n g)))
  /\ (forall n, Forall (fun s => 6.5 <= SleepData.duration_hours s)
                       (fst (generateMockSleep clk n g)))
  /\ exists st,
       fst (generateMockStatus clk g) = Returns st
       /\ HealthStatus.alerts st = []
       /\ 8500 <= HealthStatus.steps (HealthStatus.activity st)
       /\ fst (generateMockAlerts clk g) = Returns (alertThresholds st)
       /\ map AlertThreshold.metric (alertThresholds st)
          = ["HRV"; "Sleep Duration"; "Daily Steps"]%string
       /\ Forall (fun a => AlertThreshold.status a = AlertThreshold.ok)
                 (alertThresholds st).
Proof.
  intros Hg.
  assert (HH : forall n g', unitDraws g' ->
             Forall (fun d => 35 <= HRVData.value d /\ HRVData.value d <= 55)
                    (fst (generateMockHRV clk n g'))
             /\ unitDraws (snd (generateMockHRV clk n g'))).
  { intros n g' Hg'. unfold generateMockHRV.
    destruct (@countDown_Forall _
                (fun d => HRVData.category d = normal
                        /\ 35 <= HRVData.value d /\ HRVData.value d <= 55)
                unitDraws (hrvDay clk) (hrvDay_sample clk)
                (Z.to_nat n) g' Hg') as [H Hg1].
    split; [| exact Hg1].
    eapply Forall_impl; [| exact H]. intros d (_ & Hlo & Hhi). now split. }
  assert (HS : forall n g', unitDraws g' ->
             Forall (fun s => 6.5 <= SleepData.duration_hours s)
                    (fst (generateMockSleep clk n g'))
             /\ unitDraws (snd (generateMockSleep clk n g'))).
  { intros n g' Hg'. unfold generateMockSleep.
    apply (@countDown_Forall _ (fun s => 6.5 <= SleepData.duration_hours s)
             unitDraws (sleepDay clk) (sleepDay_sample clk)
             (Z.to_nat n) g' Hg'). }
  split; [intros n; now apply HH |].
  split; [intros n; now apply HS |].
  unfold generateMockAlerts, generateMockStatus, bind.
  destruct (HH 7%Z g Hg) as [HFh Hg1].
  pose proof (countDown_length (hrvDay clk) (Z.to_nat 7) g) as HLh.
  fold (generateMockHRV clk 7) in HLh.
  destruct (generateMockHRV clk 7 g) as [recentHRV g1]. cbn [fst snd] in *.
  destruct (HS 7%Z g1 Hg1) as [HFs Hg2].
  pose proof (countDown_length (sleepDay clk) (Z.to_nat 7) g1) as HLs.
  fold (generateMockSleep clk 7) in HLs.
  destruct (generateMockSleep clk 7 g1) as [recentSleep g2]. cbn [fst snd] in *.
  change (Z.to_nat 7) with 7%nat in HLh, HLs.
  destruct (fromEnd_last HFh) as [currentHRV [Eh [Hlo Hhi]]]; [lia |].
  destruct (fromEnd_last HFs) as [lastNightSleep [Es Hdur]]; [lia |].
  rewrite Eh, Es.
  assert (E1 : ltb (HRVData.value currentHRV) 30 = false) by (apply ltb_ge; lra).
  assert (E2 : ltb (SleepData.duration_hours lastNightSleep) 6 = false)
    by (apply ltb_ge; lra).
  rewrite E1, E2.
  cbn [Math_random ret fst snd app].
  assert (Hsteps : 8500 <= 8500 + inject_Z (floor (g2 0%nat * 3000))).
  { assert (H : (0 <= floor (g2 0%nat * 3000))%Z).
    { apply floor_ge. destruct (Hg2 0%nat). cbv [inject_Z]. lra. }
    rewrite Zle_Qle in H. qlra. }
  assert (E3 : ltb (8500 + inject_Z (floor (g2 0%nat * 3000))) 5000 = false)
    by (apply ltb_ge; lra).
  eexists. split; [reflexivity |].
  cbn [HealthStatus.alerts HealthStatus.steps HealthStatus.activity].
  split; [reflexivity |]. split; [exact Hsteps |].
  split; [reflexivity |]. split; [reflexivity |].
  unfold alertThresholds, thresholdEntry.
  cbn [HealthStatus.hrv HealthStatus.current HealthStatus.sleep
       HealthStatus.last_night_hours HealthStatus.activity HealthStatus.steps].
  rewrite E1, E2, E3. repeat constructor.
Qed.

Lemma generated_values_never_alert_witness :
  unitDraws halves
  /\ exists st,
       fst (generateMockStatus someClock halves) = Returns st
       /\ HealthStatus.alerts st = []
       /\ map AlertThreshold.status (alertThresholds st)
          = [AlertThreshold.ok; AlertThreshold.ok; AlertThreshold.ok].
Proof.
  assert (H : unitDraws halves) by (intros n; unfold halves; split; lra).
  split; [exact H |].
  destruct (generated_values_never_alert someClock H)
    as (_ & _ & st & Hst & Hal & _ & _ & Hm & Hok).
  exists st. split; [exact Hst |]. split; [exact Hal |].
  destruct (alertThresholds st) as [|a [|b [|c [|]]]]; try discriminate Hm.
  inversion Hok as [|? ? Ha Hok1]; subst.
  inversion Hok1 as [|? ? Hb Hok2]; subst.
  inversion Hok2 as [|? ? Hc _]; subst.
  cbn [map]. now rewrite Ha, Hb, Hc.
Defined.

End Generators.

(* ================================================================== *)
(** ** Bedtime and wake time *)
(* ================================================================== *)

Section WakeTime.
Import MockData SleepCmd.

Lemma digit_facts (d : Z) :
  (0 <= d <= 9)%Z ->
  N.eqb (digit d) 58 = false
  /\ (N.leb 48 (digit d) && N.leb (digit d) 57)%bool = true
  /\ (Z.of_N (digit d) - 48 = d)%Z.
Proof.
  intros H. unfold digit. repeat split.
  - apply N.eqb_neq. lia.
  - apply andb_true_iff. split; apply N.leb_le; lia.
  - lia.
Qed.

(** [timeToMinutes] reads back what [pad2] printed. *)
Lemma timeToMinutes_pad2 (h m : Z) :
  (0 <= h < 100)%Z -> (0 <= m < 100)%Z ->
  timeToMinutes (pad2 h ++ utf16 ":" ++ pad2 m) = Some (h * 60 + m)%Z.
Proof.
  intros Hh Hm. unfold pad2.
  destruct (digit_facts (d := h / 10)) as (A1 & A2 & A3);
    [Z.to_euclidean_division_equations; lia |].
  destruct (digit_facts (d := h mod 10)) as (B1 & B2 & B3);
    [Z.to_euclidean_division_equations; lia |].
  destruct (digit_facts (d := m / 10)) as (C1 & C2 & C3);
    [Z.to_euclidean_division_equations; lia |].
  destruct (digit_facts (d := m mod 10)) as (D1 & D2 & D3);
    [Z.to_euclidean_division_equations; lia |].
  unfold timeToMinutes.
  change (utf16 ":") with [58%N].
  cbn [app splitOn]. rewrite A1, B1, C1, D1.
  change (N.eqb 58 58) with true. cbn iota.
  cbn [map Number fold_left]. rewrite A2, B2, C2, D2, A3, B3, C3, D3.
  f_equal. Z.to_euclidean_division_equations; lia.
Qed.

Lemma timeToMinutes_timeHHMM (clk : Clock) (t : Z) :
  timeToMinutes (timeHHMM clk t) = Some (getHours clk t * 60 + getMinutes clk t)%Z.
Proof.
  unfold timeHHMM. apply timeToMinutes_pad2; unfold getHours, getMinutes;
    unfold msPerDay, msPerHour, msPerMinute;
    Z.to_euclidean_division_equations; lia.
Qed.

Lemma clock_arith (l h m T : Z) :
  (22 <= h <= 24)%Z -> (0 <= m <= 59)%Z -> (0 <= T)%Z ->
  let lb := ((l - l mod 86400000) + h * 3600000 + m * 60000 + l mod 60000)%Z in
  let lw := (lb + T)%Z in
  ((lw mod 86400000) / 3600000 * 60 + (lw mod 3600000) / 60000
   = ((lb mod 86400000) / 3600000 * 60 + (lb mod 3600000) / 60000
      + (l mod 60000 + T) / 60000) mod 1440)%Z.
Proof.
  intros Hh Hm HT lb lw. subst lb lw.
  Z.to_euclidean_division_equations; lia.
Qed.

Lemma Qfloor_add_Z (z : Z) (x : Q) : Qfloor (inject_Z z + x) = (z + Qfloor x)%Z.
Proof.
  apply Z.le_antisymm.
  - apply Z.lt_succ_r. apply (floor_lt (k := Z.succ (z + Qfloor x))).
    pose proof (Qlt_floor x) as H.
    rewrite <- Z.add_1_r, !inject_Z_plus in *. qlra.
  - apply (floor_ge (k := z + Qfloor x)).
    pose proof (Qfloor_le x) as H.
    rewrite inject_Z_plus. qlra.
Qed.

Lemma truncate_nonneg (z : Z) (x : Q) :
  (0 <= z)%Z -> 0 <= x -> truncate (inject_Z z + x) = (z + floor x)%Z.
Proof.
  intros Hz Hx. unfold truncate, floor.
  assert (H : Qle_bool 0 (inject_Z z + x) = true).
  { apply Qle_bool_iff. rewrite Zle_Qle in Hz. qlra. }
  rewrite H. apply Qfloor_add_Z.
Qed.

(** The element at position [j] of the result comes from the iteration that
    starts [j] iterations into the draws, when every iteration consumes [c]
    draws. *)
Lemma countDown_nth {A : Type} (P : Q -> A -> Prop) (body : Z -> Rand A)
    (c : nat) (k : nat) :
  (forall i g n, snd (body i g) n = g (c + n)%nat) ->
  (forall i g, (0 <= i < Z.of_nat k)%Z -> unitDraws g -> P (g 0%nat) (fst (body i g))) ->
  forall g j s,
    unitDraws g ->
    nth_error (fst (countDown body k g)) j = Some s ->
    P (g (j * c)%nat) s.
Proof.
  intros Hsnd. induction k as [|k IH]; intros Hbody g j s Hg Hj.
  - destruct j; discriminate Hj.
  - cbn [countDown] in Hj. unfold bind in Hj.
    pose proof (Hbody (Z.of_nat k) g ltac:(lia) Hg) as Hx.
    pose proof (Hsnd (Z.of_nat k) g) as Hg1.
    destruct (body (Z.of_nat k) g) as [x g1].
    assert (Hu : unitDraws g1) by (intros m; cbn [snd] in Hg1; rewrite Hg1; apply Hg).
    pose proof (IH (fun i g' Hi => Hbody i g' ltac:(lia)) g1) as IH'.
    destruct (countDown body k g1) as [rest g2].
    cbn [ret fst snd] in *.
    destruct j as [|j].
    + injection Hj as <-. exact Hx.
    + cbn [nth_error] in Hj. specialize (IH' j s Hu Hj).
      rewrite Hg1 in IH'. exact IH'.
Qed.

(** One iteration of [generateMockSleep] in a zone with a constant offset,
    once its day lies a day or more after the epoch. *)
Lemma sleepDay_wake (clk : Clock) (i : Z) (g : Rng) :
  constantOffset clk ->
  (msPerDay <= now clk - i * msPerDay)%Z -> unitDraws g ->
  wakeFollowsBedtime clk (sleepDuration (g 0%nat)) (fst (sleepDay clk i g)).
Proof.
  intros Hzone Hday Hg.
  destruct (constantOffset_shift Hzone) as (z & Hl & Hu).
  pose proof (daysAgo_constantOffset i Hzone) as Hago.
  unfold wakeFollowsBedtime.
  cbn [sleepDay bind Math_random ret fst
       SleepData.duration_hours SleepData.bedtime SleepData.wake_time].
  cbv [advance]. cbn [Nat.add].
  destruct (Hg 0%nat) as [H0 H0'].
  destruct (Hg 3%nat) as [H3 H3'].
  destruct (Hg 4%nat) as [H4 H4'].
  destruct (sleepDuration_range H0 H0') as [Hlo Hhi].
  set (duration := sleepDuration (g 0%nat)) in *.
  set (h := (22 + floor (g 3%nat * 3))%Z).
  set (m := floor (g 4%nat * 60)).
  assert (Hh : (22 <= h <= 24)%Z).
  { subst h.
    assert (0 <= floor (g 3%nat * 3))%Z by (apply floor_ge; cbv [inject_Z]; lra).
    assert (floor (g 3%nat * 3) < 3)%Z by (apply floor_lt; cbv [inject_Z]; lra).
    lia. }
  assert (Hm : (0 <= m <= 59)%Z).
  { subst m.
    assert (0 <= floor (g 4%nat * 60))%Z by (apply floor_ge; cbv [inject_Z]; lra).
    assert (floor (g 4%nat * 60) < 60)%Z by (apply floor_lt; cbv [inject_Z]; lra).
    lia. }
  set (T := floor (duration * 3600000)).
  assert (HT : (0 <= T)%Z) by (apply floor_ge; cbv [inject_Z]; lra).
  set (B := setHours clk (daysAgo clk i) h m).
  set (l := (now clk - i * msPerDay + z)%Z).
  assert (EB : B = ((l - l mod msPerDay) + h * msPerHour + m * msPerMinute
                    + l mod msPerMinute - z)%Z).
  { subst B l. unfold setHours. rewrite Hu, Hl, Hago. reflexivity. }
  assert (HB : (0 <= B)%Z).
  { rewrite EB. subst l. unfold msPerDay, msPerHour, msPerMinute in *.
    Z.to_euclidean_division_equations; lia. }
  assert (HW : setTime (inject_Z B + duration * 60 * 60 * 1000) = (B + T)%Z).
  { unfold setTime. rewrite truncate_nonneg by (try exact HB; lra).
    f_equal. subst T. unfold floor. apply Qfloor_comp. ring. }
  rewrite HW, !timeToMinutes_timeHHMM.
  eexists. eexists.
  split; [reflexivity |]. split; [reflexivity |]. split; [reflexivity |].
  assert (Hsec : secondsPart clk = (l mod msPerMinute)%Z).
  { unfold secondsPart. rewrite Hl. subst l. unfold msPerDay, msPerMinute.
    Z.to_euclidean_division_equations; lia. }
  rewrite Hsec.
  unfold getHours, getMinutes. rewrite !Hl.
  replace (B + T + z)%Z
    with ((l - l mod msPerDay) + h * msPerHour + m * msPerMinute
          + l mod msPerMinute + T)%Z by (rewrite EB; ring).
  replace (B + z)%Z
    with ((l - l mod msPerDay) + h * msPerHour + m * msPerMinute
          + l mod msPerMinute)%Z by (rewrite EB; ring).
  apply clock_arith; assumption.
Qed.

(** Cutting the seconds off moves the wake time by less than two minutes from
    the bedtime plus the duration, and rounding the duration to tenths of an
    hour as well by four minutes at most from the bedtime plus
    [duration_hours]. *)
Lemma wakeFollows_near (clk : Clock) (d : Q) (s : SleepData.t) :
  wakeFollowsBedtime clk d s ->
  wakeNearBedtimePlus d s /\ wakeNearBedtimePlusHours s.
Proof.
  intros (b & w & Hdh & Hb & Hw & Heq).
  set (R := round (d * 10)) in *.
  set (T := floor (d * 3600000)) in *.
  set (sec := secondsPart clk) in *.
  set (X := ((sec + T) / msPerMinute)%Z) in *.
  assert (Hsec : (0 <= sec < 60000)%Z).
  { subst sec. unfold secondsPart, msPerMinute.
    Z.to_euclidean_division_equations; lia. }
  assert (HX : (60000 * X <= sec + T < 60000 * X + 60000)%Z).
  { subst X. unfold msPerMinute. Z.to_euclidean_division_equations; lia. }
  assert (HT1 : inject_Z T <= d * 3600000) by apply Qfloor_le.
  assert (HT2 : d * 3600000 < inject_Z T + 1).
  { pose proof (Qlt_floor (d * 3600000)) as H.
    fold (floor (d * 3600000)) in H. fold T in H.
    rewrite inject_Z_plus in H. exact H. }
  assert (HR1 : inject_Z R <= d * 10 + (1 # 2)) by apply Qfloor_le.
  assert (HR2 : d * 10 + (1 # 2) < inject_Z R + 1).
  { pose proof (Qlt_floor (d * 10 + (1 # 2))) as H.
    fold (round (d * 10)) in H. fold R in H.
    rewrite inject_Z_plus in H. exact H. }
  destruct Hsec as [Hs1 Hs2]. destruct HX as [HX1 HX2].
  rewrite Zle_Qle in Hs1, HX1. rewrite Zlt_Qlt in Hs2, HX2.
  rewrite inject_Z_mult, inject_Z_plus in HX1.
  rewrite !inject_Z_plus, inject_Z_mult in HX2.
  assert (Hw' : w = (b + 6 * R + (X - 6 * R) - 1440 * ((b + X) / 1440))%Z).
  { rewrite Heq. Z.to_euclidean_division_equations; lia. }
  split.
  - exists b, w, ((b + X) / 1440)%Z, (inject_Z X - d * 60).
    split; [exact Hb |]. split; [exact Hw |].
    split; [qlra |]. split; [qlra |].
    rewrite Hw'. unfold Z.sub.
    rewrite ?inject_Z_plus, ?inject_Z_opp, ?inject_Z_mult. qlra.
  - exists b, w, ((b + X) / 1440)%Z, (X - 6 * R)%Z.
    split; [exact Hb |]. split; [exact Hw |].
    split.
    + assert (H1 : inject_Z (-5) < inject_Z (X - 6 * R)).
      { unfold Z.sub. rewrite inject_Z_plus, inject_Z_opp, inject_Z_mult. qlra. }
      assert (H2 : inject_Z (X - 6 * R) < inject_Z 4).
      { unfold Z.sub. rewrite inject_Z_plus, inject_Z_opp, inject_Z_mult. qlra. }
      rewrite <- Zlt_Qlt in H1, H2. lia.
    + rewrite Hdh, Hw'. unfold Z.sub.
      rewrite ?inject_Z_plus, ?inject_Z_opp, ?inject_Z_mult. qlra.
Qed.




(** Where the offset changes during the night the wake time moves with it:
    on the eve of Central European summer time, with every draw one half,
    the night of 7.75 hours, reported as 7.8, begins at 23:30 and ends at
    08:15 local time, 57 minutes after the bedtime plus [duration_hours]. *)
Lemma wake_time_across_a_change_of_offset :
  exists s,
    fst (generateMockSleep springEveClock 1 halves) = [s]
    /\ SleepData.bedtime s = utf16 "23:30"
    /\ SleepData.wake_time s = utf16 "08:15"
    /\ SleepData.duration_hours s == 7.8
    /\ ~ wakeNearBedtimePlusHours s.
Proof.
  eexists. split; [reflexivity |].
  split; [vm_compute; reflexivity |].
  split; [vm_compute; reflexivity |].
  split; [vm_compute; reflexivity |].
  intros (b & w & k & e & Hb & Hw & He & Heq).
  vm_compute in Hb. vm_compute in Hw.
  injection Hb as <-. injection Hw as <-.
  assert (Hd : SleepData.duration_hours
                 (fst (sleepDay springEveClock 0 halves)) == 7.8)
    by (vm_compute; reflexivity).
  change (SleepData.duration_hours _) with
    (SleepData.duration_hours (fst (sleepDay springEveClock 0 halves))) in Heq.
  rewrite Hd in Heq.
  assert (Hz : (495 = 1410 + 468 + e - 1440 * k)%Z).
  { apply inject_Z_injective.
    unfold Z.sub. rewrite !inject_Z_plus, inject_Z_opp. rewrite Heq.
    change (inject_Z 1410) with 1410. change (inject_Z 468) with 468. ring. }
  lia.
Qed.

End WakeTime.

(* ================================================================== *)
(** ** Sleep debt *)
(* ================================================================== *)

Section SleepDebt.
Import SleepCmd.

(** The status is decided on the unrounded sum that the loop leaves, not on
    the [total_hours] that the result reports. *)
Lemma status_follows_unrounded_total (data : list SleepData.t) :
  (status (calculateSleepDebt data) = significant
   <-> PrimFloat.ltb (Double.ofZ 5) (totalDebt data) = true)
  /\ (status (calculateSleepDebt data) = moderate
      <-> PrimFloat.ltb (Double.ofZ 5) (totalDebt data) = false
          /\ PrimFloat.ltb (Double.ofZ 2) (totalDebt data) = true)
  /\ (status (calculateSleepDebt data) = minimal
      <-> PrimFloat.ltb (Double.ofZ 5) (totalDebt data) = false
          /\ PrimFloat.ltb (Double.ofZ 2) (totalDebt data) = false).
Proof.
  unfold calculateSleepDebt. cbn [status].
  destruct (PrimFloat.ltb (Double.ofZ 5) (totalDebt data));
    destruct (PrimFloat.ltb (Double.ofZ 2) (totalDebt data));
    repeat split; try reflexivity; try discriminate;
    intros H; try discriminate H; destruct H as [H1 H2]; discriminate.
Qed.


End SleepDebt.

(* ================================================================== *)
(** ** The scanner: its result *)
(* ================================================================== *)

Section ScannerResult.
Import ImportCmd.

Lemma str_eqb_refl (a : jsstring) : str_eqb a a = true.
Proof. induction a as [|x a IH]; simpl; [reflexivity |]. now rewrite N.eqb_refl. Qed.

Lemma In_set_has (s : list jsstring) (x : jsstring) : In x s -> set_has s x = true.
Proof.
  intros H. unfold set_has. apply existsb_exists. exists x. split; [exact H |].
  apply str_eqb_refl.
Qed.

Lemma str_leb_total (a b : jsstring) : str_leb a b = false -> str_leb b a = true.
Proof.
  revert b; induction a as [|x a IH]; intros [|y b]; simpl; try discriminate; auto.
  intros H. apply orb_false_iff in H as [Hlt H].
  apply N.ltb_ge in Hlt.
  destruct (N.eqb x y) eqn:E.
  - apply N.eqb_eq in E. subst y. rewrite N.eqb_refl. simpl in H.
    rewrite (IH _ H). apply orb_true_r.
  - apply N.eqb_neq in E.
    assert (Hyx : N.ltb y x = true) by (apply N.ltb_lt; lia).
    now rewrite Hyx.
Qed.

Lemma str_leb_trans (a b c : jsstring) :
  str_leb a b = true -> str_leb b c = true -> str_leb a c = true.
Proof.
  revert b c; induction a as [|x a IH]; intros [|y b] [|z c]; simpl;
    try discriminate; auto.
  intros H1 H2.
  apply orb_true_iff in H1 as [H1 | H1]; apply orb_true_iff in H2 as [H2 | H2];
    rewrite ?andb_true_iff, ?N.ltb_lt, ?N.eqb_eq in *.
  - apply orb_true_iff. left. apply N.ltb_lt. lia.
  - destruct H2 as [-> _]. apply orb_true_iff. left. now apply N.ltb_lt.
  - destruct H1 as [-> _]. apply orb_true_iff. left. now apply N.ltb_lt.
  - destruct H1 as [-> H1]. destruct H2 as [-> H2].
    apply orb_true_iff. right. rewrite N.eqb_refl. simpl. eapply IH; eassumption.
Qed.

Lemma str_leb_antisym (a b : jsstring) :
  str_leb a b = true -> str_leb b a = true -> a = b.
Proof.
  revert b; induction a as [|x a IH]; intros [|y b]; simpl; try discriminate; auto.
  intros H1 H2.
  apply orb_true_iff in H1 as [H1 | H1]; apply orb_true_iff in H2 as [H2 | H2];
    rewrite ?andb_true_iff, ?N.ltb_lt, ?N.eqb_eq in *.
  - lia.
  - destruct H2 as [-> _]. lia.
  - destruct H1 as [-> _]. lia.
  - destruct H1 as [-> H1]. destruct H2 as [_ H2]. f_equal. now apply IH.
Qed.

Lemma insertSorted_perm (x : jsstring) (l : list jsstring) :
  Permutation (insertSorted x l) (x :: l).
Proof.
  induction l as [|y l IH]; simpl; [reflexivity |].
  destruct (str_leb x y); [reflexivity |].
  rewrite IH. apply perm_swap.
Qed.

Lemma sort_perm (l : list jsstring) : Permutation (sort l) l.
Proof.
  induction l as [|x l IH]; simpl; [reflexivity |].
  rewrite insertSorted_perm. now constructor.
Qed.

Lemma insertSorted_sorted (x : jsstring) (l : list jsstring) :
  StronglySorted str_le l -> StronglySorted str_le (insertSorted x l).
Proof.
  induction 1 as [|y l Hl IH Hy]; simpl.
  - repeat constructor.
  - destruct (str_leb x y) eqn:E.
    + constructor; [now constructor |].
      constructor; [exact E |].
      eapply Forall_impl; [| exact Hy].
      intros z Hz. eapply str_leb_trans; eassumption.
    + constructor; [exact IH |].
      eapply Permutation_Forall; [symmetry; apply insertSorted_perm |].
      constructor; [now apply str_leb_total | exact Hy].
Qed.

Lemma sort_sorted (l : list jsstring) : StronglySorted str_le (sort l).
Proof.
  induction l as [|x l IH]; simpl; [constructor | now apply insertSorted_sorted].
Qed.

Lemma sorted_strict (l : list jsstring) :
  StronglySorted str_le l -> NoDup l -> StronglySorted str_lt l.
Proof.
  induction 1 as [|x l Hl IH Hx]; intros Hnd; [constructor |].
  inversion Hnd as [|? ? Hnotin Hnd']; subst.
  constructor; [now apply IH |].
  rewrite Forall_forall in *. intros y Hy. split; [now apply Hx |].
  intros ->. contradiction.
Qed.

Lemma collectType_NoDup (records acc : list jsstring) :
  NoDup acc -> NoDup (fold_left collectType records acc).
Proof.
  revert acc; induction records as [|r records IH]; intros acc Hacc; [exact Hacc |].
  simpl. apply IH. unfold collectType.
  destruct (matchFirst (attribute "type") r) as [[whole fullType]|]; [| exact Hacc].
  unfold set_add.
  destruct (set_has acc _) eqn:E; [exact Hacc |].
  apply NoDup_app; [exact Hacc | repeat constructor; intros [] |].
  intros x Hx [<- | []]. apply In_set_has in Hx. congruence.
Qed.

Lemma collectType_length (records acc : list jsstring) :
  (List.length (fold_left collectType records acc)
   <= List.length acc + List.length records)%nat.
Proof.
  revert acc; induction records as [|r records IH]; intros acc; simpl; [lia |].
  etransitivity; [apply IH |].
  unfold collectType.
  destruct (matchFirst (attribute "type") r) as [[whole fullType]|]; [| lia].
  unfold set_add. destruct (set_has acc _); [lia |].
  rewrite length_app. simpl. lia.
Qed.

Lemma headNotWhite_trimStart (s : jsstring) : headNotWhite (trimStart s).
Proof.
  induction s as [|c s IH]; simpl; [exact I |].
  destruct (isWhite c) eqn:E; [exact IH | exact E].
Qed.

Lemma trimmed_trim (s : jsstring) : trimmed (trim s).
Proof.
  unfold trimmed, trim, trimEnd. split.
  - pose proof (headNotWhite_trimStart s) as Hh.
    destruct (trimStart_suffix (rev (trimStart s))) as [w Hw].
    apply (f_equal (@rev N)) in Hw.
    rewrite rev_involutive, rev_app_distr in Hw.
    destruct (rev (trimStart (rev (trimStart s)))) as [|c t]; [exact I |].
    rewrite Hw in Hh. exact Hh.
  - rewrite rev_involutive. apply headNotWhite_trimStart.
Qed.

Lemma collectType_trimmed (records acc : list jsstring) :
  Forall trimmed acc -> Forall trimmed (fold_left collectType records acc).
Proof.
  revert acc; induction records as [|r records IH]; intros acc Hacc; [exact Hacc |].
  simpl. apply IH. unfold collectType.
  destruct (matchFirst (attribute "type") r) as [[whole fullType]|]; [| exact Hacc].
  unfold set_add. destruct (set_has acc _); [exact Hacc |].
  apply Forall_app. split; [exact Hacc |].
  constructor; [apply trimmed_trim | constructor].
Qed.

(** X1. The data types of a result are in strictly increasing order of their
    code units, hence without duplicates; there are at most 1000 of them and
    no more than records counted; and none begins or ends with white
    space. *)
Theorem scan_types_sorted (xml : jsstring) (r : ParseResult) :
  parseAppleHealthXML xml = Returns r ->
  StronglySorted str_lt (dataTypes r)
  /\ (List.length (dataTypes r) <= 1000)%nat
  /\ (N.of_nat (List.length (dataTypes r)) <= recordCount r)%N
  /\ Forall trimmed (dataTypes r).
Proof.
  unfold parseAppleHealthXML.
  set (records := matchAll (tagOpener "Record") xml).
  assert (Hsample : (List.length (firstn 1000 records)
                     <= Nat.min 1000 (List.length records))%nat)
    by (rewrite length_firstn; lia).
  remember (firstn 1000 records) as sample eqn:Es. clear Es.
  destruct (negb (includes xml (utf16 "<HealthData"))); [discriminate |].
  intros H. injection H as <-. cbn [dataTypes recordCount].
  set (types := fold_left collectType sample []).
  assert (Hlen : (List.length types <= List.length sample)%nat)
    by apply (collectType_length sample []).
  pose proof (sort_perm types) as Hperm.
  pose proof (Permutation_length Hperm) as Hsame.
  split; [| split; [| split]].
  - apply sorted_strict; [apply sort_sorted |].
    eapply Permutation_NoDup; [symmetry; exact Hperm |].
    apply collectType_NoDup. constructor.
  - lia.
  - lia.
  - eapply Permutation_Forall; [symmetry; exact Hperm |].
    apply collectType_trimmed. constructor.
Qed.

Lemma scan_types_sorted_witness :
  exists r,
    parseAppleHealthXML sampleExport = Returns r
    /\ dataTypes r = [utf16 "Heart Rate Variability S D N N"; utf16 "Sleep Analysis"]
    /\ StronglySorted str_lt (dataTypes r).
Proof.
  pose (r := {| recordCount := 2;
                dataTypes := [utf16 "Heart Rate Variability S D N N";
                              utf16 "Sleep Analysis"];
                dateRange := {| start := utf16 "2024-01-01";
                                end_ := utf16 "2024-01-03" |};
                warnings := [hrvMissingWarning; privacyNotice] |}).
  assert (H : parseAppleHealthXML sampleExport = Returns r)
    by (vm_compute; reflexivity).
  exists r. split; [exact H |]. split; [reflexivity |].
  apply (@scan_types_sorted sampleExport r H).
Defined.

(** X2. A text with the root marker and no record or workout opener: no data
    types, and exactly the no-records, HRV, sleep and privacy warnings, in
    this order. *)
Theorem scan_without_records (xml : jsstring) (r : ParseResult) :
  parseAppleHealthXML xml = Returns r ->
  recordCount r = 0%N ->
  dataTypes r = []
  /\ warnings r = [noRecordsWarning; hrvMissingWarning; sleepMissingWarning;
                   privacyNotice].
Proof.
  unfold parseAppleHealthXML.
  destruct (negb (includes xml (utf16 "<HealthData"))); [discriminate |].
  intros H. injection H as <-. cbn [dataTypes recordCount warnings].
  intros Hcount.
  destruct (matchAll (tagOpener "Record") xml) as [|x records] eqn:E;
    [| simpl in Hcount; lia].
  rewrite Hcount. split; reflexivity.
Qed.

Lemma scan_without_records_witness :
  exists r,
    parseAppleHealthXML (utf16 "<HealthData></HealthData>") = Returns r
    /\ recordCount r = 0%N
    /\ dataTypes r = []
    /\ List.length (warnings r) = 4%nat.
Proof.
  pose (r := {| recordCount := 0;
                dataTypes := [];
                dateRange := {| start := []; end_ := [] |};
                warnings := [noRecordsWarning; hrvMissingWarning;
                             sleepMissingWarning; privacyNotice] |}).
  assert (H : parseAppleHealthXML (utf16 "<HealthData></HealthData>") = Returns r)
    by (vm_compute; reflexivity).
  exists r. split; [exact H |]. split; [reflexivity |].
  destruct (@scan_without_records (utf16 "<HealthData></HealthData>") r H eq_refl)
    as [H1 H2].
  split; [exact H1 | now rewrite H2].
Defined.

End ScannerResult.

(* ================================================================== *)
(** ** The import command *)
(* ================================================================== *)

Section ImportCommand.
Import ImportCmd Responses ImportFile.

Lemma tooLarge_iff (n : N) :
  ltb 100 (inject_Z (Z.of_N n) / (1024 * 1024)) = true <-> (104857600 < n)%N.
Proof.
  rewrite ltb_lt.
  change (1024 * 1024) with (inject_Z 1048576).
  assert (E : 100 == inject_Z 104857600 / inject_Z 1048576) by reflexivity.
  rewrite E. split.
  - intros H. apply Qmult_lt_r with (z := inject_Z 1048576) in H; [| reflexivity].
    unfold Qdiv in H. rewrite <- !Qmult_assoc in H.
    rewrite (Qmult_comm (/ inject_Z 1048576)) in H.
    rewrite Qmult_inv_r, !Qmult_1_r in H by discriminate.
    rewrite <- Zlt_Qlt in H. lia.
  - intros H. apply Qmult_lt_r with (z := inject_Z 1048576); [reflexivity |].
    unfold Qdiv. rewrite <- !Qmult_assoc.
    rewrite (Qmult_comm (/ inject_Z 1048576)).
    rewrite Qmult_inv_r, !Qmult_1_r by discriminate.
    rewrite <- Zlt_Qlt. lia.
Qed.

Lemma parse_outcome (xml : jsstring) :
  (Substring (utf16 "<HealthData") xml
   /\ exists r, parseAppleHealthXML xml = Returns r
                /\ (0 <? List.length (ImportCmd.warnings r))%nat = true)
  \/ (~ Substring (utf16 "<HealthData") xml
      /\ parseAppleHealthXML xml = Throws MalformedImport).
Proof.
  rewrite <- includes_spec. unfold parseAppleHealthXML.
  destruct (includes xml (utf16 "<HealthData")); cbn [negb].
  - left. split; [reflexivity |]. eexists. split; [reflexivity |].
    cbn [ImportCmd.warnings]. rewrite !length_app. cbn [List.length].
    apply Nat.ltb_lt. lia.
  - right. split; [discriminate | reflexivity].
Qed.

(** X3. The import command never throws. It answers FILE_NOT_FOUND exactly
    when the file does not exist, FILE_TOO_LARGE exactly when it exists and
    has more than 100 * 1024 * 1024 bytes, PARSE_ERROR exactly when it
    exists, fits and either cannot be read or its text lacks the root marker,
    and succeeds otherwise. A success carries the scanner's result for the
    text of the file, and its first suggested action is always
    [health alert], since the warnings are never empty. *)
Theorem importCommand_outcomes (host : Host) (filePath : jsstring) :
  let r := importCommand host filePath in
  let present := existsSync host filePath = true in
  let fits := (statSize host filePath <= 104857600)%N in
  let rooted := exists text, readFileSync host filePath = Returns text
                             /\ Substring (utf16 "<HealthData") text in
  (errorCode r = Some (utf16 "FILE_NOT_FOUND") <-> ~ present)
  /\ (errorCode r = Some (utf16 "FILE_TOO_LARGE") <-> present /\ ~ fits)
  /\ (errorCode r = Some (utf16 "PARSE_ERROR") <-> present /\ fits /\ ~ rooted)
  /\ (ok r = true <-> present /\ fits /\ rooted)
  /\ (forall res, resultOf r = Some res ->
        (exists text,
            readFileSync host filePath = Returns text
            /\ parseAppleHealthXML text
               = Returns {| recordCount := records_processed res;
                            dataTypes := data_types res;
                            dateRange := date_range res;
                            ImportCmd.warnings := warnings res |})
        /\ file res = basename host filePath
        /\ map command (next_actions r)
           = [utf16 "health alert"; utf16 "health status";
              utf16 "health hrv --days 30"; utf16 "health sleep --days 30"]).
Proof.
  intros r present fits rooted. subst r present fits rooted.
  unfold importCommand.
  destruct (existsSync host filePath) eqn:Ex; cbn [negb].
  2: { repeat split; intros;
       repeat match goal with H : _ /\ _ |- _ => destruct H end;
       try discriminate; try congruence. }
  pose proof (tooLarge_iff (statSize host filePath)) as Hsize.
  destruct (ltb 100 (inject_Z (Z.of_N (statSize host filePath)) / (1024 * 1024))) eqn:El.
  { assert (Hbig : (104857600 < statSize host filePath)%N) by now apply Hsize.
    repeat split; intros;
      repeat match goal with H : _ /\ _ |- _ => destruct H end;
      try discriminate; try lia;
      try match goal with
          | H : errorCode _ = Some _ |- _ => vm_compute in H; discriminate
          | H : ~ _ |- _ => now elim H
          end. }
  assert (Hfit : (statSize host filePath <= 104857600)%N).
  { destruct (N.ltb_spec 104857600 (statSize host filePath)) as [Hlt | Hle];
      [| exact Hle].
    apply Hsize in Hlt. discriminate. }
  destruct (readFileSync host filePath) as [text | e] eqn:Er.
  - destruct (parse_outcome text) as [[Hroot [pr [Epr Hw]]] | [Hroot Epr]];
      rewrite Epr.
    + rewrite Hw. cbn [success error errorCode ok resultOf next_actions].
      assert (Hrooted : exists t, Returns text = Returns t
                                  /\ Substring (utf16 "<HealthData") t)
        by (exists text; now split).
      split; [split; [discriminate | intros H; now elim H] |].
      split; [split; [discriminate | intros [_ H]; now elim H] |].
      split; [split; [discriminate | intros (_ & _ & H); now elim H] |].
      split; [split; [intros _; now repeat split | reflexivity] |].
      intros res H. injection H as <-.
      split; [exists text; split; [reflexivity | cbn; now destruct pr] |].
      split; reflexivity.
    + cbn [success error errorCode ok resultOf next_actions code].
      assert (Hnot : ~ exists t, Returns text = Returns t
                                 /\ Substring (utf16 "<HealthData") t).
      { intros (t & Et & Ht). injection Et as <-. contradiction. }
      split; [split; [intros H; vm_compute in H; discriminate H
                     | intros H; now elim H] |].
      split; [split; [intros H; vm_compute in H; discriminate H
                     | intros [_ H]; now elim H] |].
      split; [split; [intros _; now repeat split | reflexivity] |].
      split; [split; [discriminate | intros (_ & _ & H); contradiction] |].
      intros res H. discriminate H.
  - cbn [success error errorCode ok resultOf next_actions code].
    assert (Hnot : ~ exists t, Throws e = Returns t
                               /\ Substring (utf16 "<HealthData") t).
    { intros (t & Et & _). discriminate Et. }
    split; [split; [intros H; vm_compute in H; discriminate H
                   | intros H; now elim H] |].
    split; [split; [intros H; vm_compute in H; discriminate H
                   | intros [_ H]; now elim H] |].
    split; [split; [intros _; now repeat split | reflexivity] |].
    split; [split; [discriminate | intros (_ & _ & H); contradiction] |].
    intros res H. discriminate H.
Qed.

End ImportCommand.

(* ================================================================== *)
(** ** The sleep report *)
(* ================================================================== *)

Section SleepReportFacts.
Import SleepCmd SleepReport.

Lemma padStart2_pad2_nat (n : nat) :
  (n < 100)%nat -> padStart2 (Responses.showInt (Z.of_nat n)) = pad2 (Z.of_nat n).
Proof.
  intros H.
  do 100 (destruct n as [|n]; [vm_compute; reflexivity |]).
  lia.
Qed.

Lemma padStart2_pad2 (k : Z) :
  (0 <= k < 100)%Z -> padStart2 (Responses.showInt k) = pad2 k.
Proof.
  intros H. rewrite <- (Z2Nat.id k) by lia. apply padStart2_pad2_nat. lia.
Qed.

Lemma timeToMinutes_clockText (hm : Z * Z) :
  validClock hm -> timeToMinutes (clockText hm) = Some (minutesOf hm).
Proof.
  intros [Hh Hm]. unfold clockText, minutesOf. apply timeToMinutes_pad2; lia.
Qed.

Lemma allNumbers_clockTexts (hms : list (Z * Z)) :
  Forall validClock hms ->
  allNumbers (map timeToMinutes (map clockText hms)) = Some (map minutesOf hms).
Proof.
  induction 1 as [|hm hms Hhm _ IH]; [reflexivity |].
  cbn [map allNumbers]. rewrite (timeToMinutes_clockText Hhm), IH. reflexivity.
Qed.

Lemma fold_plus_bounds (lo hi : Q) (l : list Q) (acc : Q) :
  Forall (fun x => lo <= x /\ x <= hi) l ->
  acc + inject_Z (Z.of_nat (List.length l)) * lo <= fold_left Qplus l acc
  /\ fold_left Qplus l acc <= acc + inject_Z (Z.of_nat (List.length l)) * hi.
Proof.
  intros H. revert acc. induction H as [|x l [Hlo Hhi] _ IH]; intros acc.
  - cbn [fold_left List.length Z.of_nat]. change (inject_Z 0) with 0. split; lra.
  - cbn [fold_left List.length]. rewrite Nat2Z.inj_succ.
    unfold Z.succ. rewrite inject_Z_plus.
    destruct (IH (acc + x)) as [IH1 IH2].
    change (inject_Z 1) with 1.
    clear IH. revert IH1 IH2.
    generalize (inject_Z (Z.of_nat (List.length l))). intros n IH1 IH2.
    split; [eapply Qle_trans; [| exact IH1] | eapply Qle_trans; [exact IH2 |]];
      nra.
Qed.

(** The mean of numbers between two bounds lies between them. *)
Lemma mean_bounds (lo hi : Q) (l : list Q) :
  l <> [] -> Forall (fun x => lo <= x /\ x <= hi) l ->
  lo <= sum l / inject_Z (Z.of_nat (List.length l))
  /\ sum l / inject_Z (Z.of_nat (List.length l)) <= hi.
Proof.
  intros Hne H. destruct (fold_plus_bounds 0 H) as [H1 H2]. fold (sum l) in H1, H2.
  assert (Hn : 0 < inject_Z (Z.of_nat (List.length l))).
  { change 0 with (inject_Z 0). rewrite <- Zlt_Qlt.
    destruct l; [congruence | simpl; lia]. }
  split.
  - apply Qle_shift_div_l; [exact Hn |]. lra.
  - apply Qle_shift_div_r; [exact Hn |]. lra.
Qed.

(** X4. For one or more clock times, the average time is the clock text of the
    rounded mean of their minutes since midnight; it lies between any two
    bounds of these minutes (the times are not averaged around midnight),
    and the average of a single time is that time. *)
Theorem calculateAverageTime_mean (hms : list (Z * Z)) (lo hi : Z) :
  hms <> [] -> Forall validClock hms ->
  Forall (fun hm => (lo <= minutesOf hm <= hi)%Z) hms ->
  let mean := sum (map inject_Z (map minutesOf hms))
              / inject_Z (Z.of_nat (List.length hms)) in
  calculateAverageTime (map clockText hms)
  = clockText ((round mean / 60)%Z, (round mean mod 60)%Z)
  /\ timeToMinutes (calculateAverageTime (map clockText hms)) = Some (round mean)
  /\ (lo <= round mean <= hi)%Z
  /\ (forall hm, hms = [hm] -> calculateAverageTime (map clockText hms) = clockText hm).
Proof.
  intros Hne Hvalid Hbounds mean.
  assert (Hrange : forall a b : Z,
             Forall (fun hm => (a <= minutesOf hm <= b)%Z) hms ->
             (a <= round mean <= b)%Z).
  { intros a b Hab. subst mean. apply round_range.
    - rewrite <- (length_map minutesOf), <- (length_map inject_Z).
      apply mean_bounds with (hi := inject_Z b);
        [destruct hms; [congruence | discriminate] |].
      rewrite !Forall_map. eapply Forall_impl; [| exact Hab].
      intros hm [H1 H2]. rewrite <- !Zle_Qle. now split.
    - rewrite <- (length_map minutesOf), <- (length_map inject_Z).
      apply mean_bounds with (lo := inject_Z a);
        [destruct hms; [congruence | discriminate] |].
      rewrite !Forall_map. eapply Forall_impl; [| exact Hab].
      intros hm [H1 H2]. rewrite <- !Zle_Qle. now split. }
  assert (Hday : (0 <= round mean <= 1439)%Z).
  { apply Hrange. eapply Forall_impl; [| exact Hvalid].
    intros hm [H1 H2]. unfold minutesOf. lia. }
  assert (Heq : calculateAverageTime (map clockText hms)
                = clockText ((round mean / 60)%Z, (round mean mod 60)%Z)).
  { unfold calculateAverageTime. rewrite (allNumbers_clockTexts Hvalid).
    destruct hms as [|hm hms]; [congruence |].
    cbn [map]. fold mean.
    change (sum (inject_Z (minutesOf hm) :: map inject_Z (map minutesOf hms))
            / inject_Z (Z.of_nat (List.length (minutesOf hm :: map minutesOf hms))))
      with (sum (map inject_Z (map minutesOf (hm :: hms)))
            / inject_Z (Z.of_nat (List.length (map minutesOf (hm :: hms))))).
    rewrite length_map. fold mean.
    rewrite Z.rem_mod_nonneg by lia.
    rewrite !padStart2_pad2 by (Z.to_euclidean_division_equations; lia).
    reflexivity. }
  split; [exact Heq |]. split; [| split; [now apply Hrange |]].
  - rewrite Heq, timeToMinutes_clockText.
    + f_equal. unfold minutesOf. cbn [fst snd].
      Z.to_euclidean_division_equations; lia.
    + split; cbn [fst snd]; Z.to_euclidean_division_equations; lia.
  - intros hm ->. rewrite Heq.
    inversion Hvalid as [|? ? [Hh Hm] _]; subst.
    assert (Hone : round mean = minutesOf hm).
    { assert (H : (minutesOf hm <= round mean <= minutesOf hm)%Z).
      { apply Hrange. constructor; [lia | constructor]. }
      lia. }
    rewrite Hone. unfold clockText, minutesOf. cbn [fst snd]. destruct hm as [h m].
    cbn [fst snd] in *. f_equal; [| f_equal]; f_equal;
      Z.to_euclidean_division_equations; lia.
Qed.

Lemma calculateAverageTime_mean_witness :
  calculateAverageTime (map clockText [(23, 0); (1, 0)]%Z) = utf16 "12:00"
  /\ calculateAverageTime (map clockText [(22, 30)]%Z) = utf16 "22:30"
  /\ calculateAverageTime [] = utf16 "NaN:NaN".
Proof.
  assert (Hne : [(23, 0); (1, 0)]%Z <> []) by discriminate.
  assert (Hv : Forall validClock [(23, 0); (1, 0)]%Z)
    by (repeat constructor; cbn; lia).
  assert (Hb : Forall (fun hm => (60 <= minutesOf hm <= 1380)%Z) [(23, 0); (1, 0)]%Z)
    by (repeat constructor; cbn; lia).
  destruct (calculateAverageTime_mean Hne Hv Hb) as [H1 _].
  split; [rewrite H1; vm_compute; reflexivity |].
  split; vm_compute; reflexivity.
Defined.

Lemma Qmax_either (a b : Q) : Qmax a b = a \/ Qmax a b = b.
Proof. unfold Qmax, GenericMinMax.gmax. destruct (a ?= b); auto. Qed.

Lemma Qmin_either (a b : Q) : Qmin a b = a \/ Qmin a b = b.
Proof. unfold Qmin, GenericMinMax.gmin. destruct (a ?= b); auto. Qed.

Lemma fold_max_spec (l : list Q) (acc : Q) :
  In (fold_left Qmax l acc) (acc :: l)
  /\ acc <= fold_left Qmax l acc
  /\ Forall (fun y => y <= fold_left Qmax l acc) l.
Proof.
  revert acc; induction l as [|x l IH]; intros acc; cbn [fold_left].
  - split; [now left |]. split; [apply Qle_refl | constructor].
  - destruct (IH (Qmax acc x)) as (Hin & Hle & Hall).
    pose proof (Q.le_max_l acc x). pose proof (Q.le_max_r acc x).
    split; [| split].
    + destruct Hin as [Hin | Hin]; [| right; now right].
      rewrite <- Hin.
      destruct (Qmax_either acc x) as [E | E]; rewrite E;
        [now left | right; now left].
    + eapply Qle_trans; eassumption.
    + constructor; [eapply Qle_trans; eassumption | exact Hall].
Qed.

Lemma fold_min_spec (l : list Q) (acc : Q) :
  In (fold_left Qmin l acc) (acc :: l)
  /\ fold_left Qmin l acc <= acc
  /\ Forall (fun y => fold_left Qmin l acc <= y) l.
Proof.
  revert acc; induction l as [|x l IH]; intros acc; cbn [fold_left].
  - split; [now left |]. split; [apply Qle_refl | constructor].
  - destruct (IH (Qmin acc x)) as (Hin & Hle & Hall).
    pose proof (Q.le_min_l acc x). pose proof (Q.le_min_r acc x).
    split; [| split].
    + destruct Hin as [Hin | Hin]; [| right; now right].
      rewrite <- Hin.
      destruct (Qmin_either acc x) as [E | E]; rewrite E;
        [now left | right; now left].
    + eapply Qle_trans; eassumption.
    + constructor; [eapply Qle_trans; eassumption | exact Hall].
Qed.

(** [indexOf] finds the first element equal to a member of the array. *)
Lemma indexOf_first (x : Q) (l : list Q) :
  In x l ->
  exists i y, indexOf x l = Some i /\ nth_error l i = Some y /\ y == x
              /\ forall j z, (j < i)%nat -> nth_error l j = Some z -> ~ z == x.
Proof.
  induction l as [|y l IH]; [intros [] |].
  intros Hin. cbn [indexOf].
  destruct (Qeq_bool y x) eqn:E.
  - exists O, y. split; [reflexivity |]. split; [reflexivity |].
    split; [now apply Qeq_bool_eq | intros j z Hj; lia].
  - assert (Hin' : In x l).
    { destruct Hin as [-> | Hin]; [| exact Hin].
      rewrite Qeq_bool_refl in E. discriminate. }
    destruct (IH Hin') as (i & z & Hi & Hnth & Hz & Hfirst).
    exists (S i), z. rewrite Hi. split; [reflexivity |]. split; [exact Hnth |].
    split; [exact Hz |].
    intros [|j] w Hj Hw.
    + cbn in Hw. injection Hw as <-. now apply Qeq_bool_neq.
    + apply (Hfirst j w); [lia | exact Hw].
Qed.

Lemma nightOf_member (data : list SleepData.t) (x : Q) :
  In x (map SleepData.sleep_score data) ->
  exists b, nightOf data (map SleepData.sleep_score data) (Some x) = Returns b
            /\ score b = x /\ firstNightWithScore data b.
Proof.
  intros Hin. destruct (indexOf_first _ _ Hin) as (i & y & Hi & Hnth & Hy & Hfirst).
  unfold nightOf. rewrite Hi.
  rewrite nth_error_map in Hnth.
  destruct (nth_error data i) as [n|] eqn:En; [| discriminate].
  cbn in Hnth. injection Hnth as <-.
  eexists. split; [reflexivity |]. split; [reflexivity |].
  exists i, n. cbn [date duration score].
  repeat split; try assumption.
  intros j n' Hj Hn'. apply (Hfirst j (SleepData.sleep_score n')); [exact Hj |].
  rewrite nth_error_map, Hn'. reflexivity.
Qed.

(** X5. For a series that is not empty the pattern analysis returns; it counts
    all nights, and among them those of 7 hours or more; its best night is
    the first night with the highest score and its worst night the first
    with the lowest. For the empty series it throws a TypeError. *)
Theorem analyzeSleepPattern_extremes (data : list SleepData.t) :
  data <> [] ->
  analyzeSleepPattern [] = Throws TypeError
  /\ exists p,
       analyzeSleepPattern data = Returns p
       /\ total_days p = List.length data
       /\ sufficient_sleep_days p
          = List.length (filter (fun n => Qle_bool 7 (SleepData.duration_hours n)) data)
       /\ (sufficient_sleep_days p <= total_days p)%nat
       /\ firstNightWithScore data (best_night p)
       /\ Forall (fun n => SleepData.sleep_score n <= score (best_night p)) data
       /\ firstNightWithScore data (worst_night p)
       /\ Forall (fun n => score (worst_night p) <= SleepData.sleep_score n) data.
Proof.
  intros Hne. split; [reflexivity |].
  destruct data as [|n0 data]; [congruence |].
  unfold analyzeSleepPattern.
  set (all := n0 :: data).
  change (map SleepData.sleep_score all)
    with (SleepData.sleep_score n0 :: map SleepData.sleep_score data).
  cbn [maximum minimum].
  destruct (fold_max_spec (map SleepData.sleep_score data) (SleepData.sleep_score n0))
    as (Hmax_in & _ & Hmax_all).
  destruct (fold_min_spec (map SleepData.sleep_score data) (SleepData.sleep_score n0))
    as (Hmin_in & _ & Hmin_all).
  set (mx := fold_left Qmax (map SleepData.sleep_score data) (SleepData.sleep_score n0)) in *.
  set (mn := fold_left Qmin (map SleepData.sleep_score data) (SleepData.sleep_score n0)) in *.
  change (SleepData.sleep_score n0 :: map SleepData.sleep_score data)
    with (map SleepData.sleep_score all) in *.
  destruct (nightOf_member all mx Hmax_in) as (best & Ebest & Sbest & Fbest).
  destruct (nightOf_member all mn Hmin_in) as (worst & Eworst & Sworst & Fworst).
  rewrite Ebest, Eworst.
  eexists. split; [reflexivity |].
  cbn [total_days sufficient_sleep_days best_night worst_night].
  assert (Hfilter : List.length (filter (fun d => Qle_bool 7 d)
                                        (map SleepData.duration_hours all))
                    = List.length (filter (fun n => Qle_bool 7 (SleepData.duration_hours n)) all)).
  { clear. induction all as [|n l IH]; [reflexivity |].
    cbn [map filter]. destruct (Qle_bool 7 (SleepData.duration_hours n));
      cbn [List.length]; now rewrite IH. }
  split; [reflexivity |]. split; [exact Hfilter |].
  split; [rewrite Hfilter; apply filter_length_le |].
  split; [exact Fbest |]. split.
  { rewrite Sbest. apply Forall_forall. intros n Hn.
    assert (Hs : In (SleepData.sleep_score n) (map SleepData.sleep_score all))
      by now apply in_map.
    destruct Hs as [<- | Hs].
    - destruct (fold_max_spec (map SleepData.sleep_score data) (SleepData.sleep_score n0))
        as (_ & H & _). exact H.
    - rewrite Forall_forall in Hmax_all. now apply Hmax_all. }
  split; [exact Fworst |].
  rewrite Sworst. apply Forall_forall. intros n Hn.
  assert (Hs : In (SleepData.sleep_score n) (map SleepData.sleep_score all))
    by now apply in_map.
  destruct Hs as [<- | Hs].
  - destruct (fold_min_spec (map SleepData.sleep_score data) (SleepData.sleep_score n0))
      as (_ & H & _). exact H.
  - rewrite Forall_forall in Hmin_all. now apply Hmin_all.
Qed.

Lemma analyzeSleepPattern_extremes_witness :
  exists p,
    analyzeSleepPattern [scored 1 70; scored 2 90; scored 3 90; scored 4 60] = Returns p
    /\ date (best_night p) = 2%Z
    /\ date (worst_night p) = 4%Z
    /\ firstNightWithScore [scored 1 70; scored 2 90; scored 3 90; scored 4 60]
                           (best_night p).
Proof.
  assert (Hne : [scored 1 70; scored 2 90; scored 3 90; scored 4 60] <> [])
    by discriminate.
  destruct (analyzeSleepPattern_extremes Hne)
    as (_ & p & Hp & _ & _ & _ & Hbest & _).
  exists p. split; [exact Hp |].
  assert (E : analyzeSleepPattern [scored 1 70; scored 2 90; scored 3 90; scored 4 60]
              = Returns {| duration_trend := stable; quality_trend := declining;
                           sufficient_sleep_days := 4; total_days := 4;
                           best_night := {| date := 2; score := 90; duration := 7 |};
                           worst_night := {| date := 4; score := 60; duration := 7 |} |})
    by (vm_compute; reflexivity).
  rewrite E in Hp. injection Hp as <-.
  split; [reflexivity |]. split; [reflexivity | exact Hbest].
Defined.

Lemma allNumbers_some {A : Type} (l : list (option A)) :
  Forall (fun o => o <> None) l ->
  exists l', allNumbers l = Some l' /\ List.length l' = List.length l.
Proof.
  induction 1 as [|o l Ho _ (l' & E & Hlen)]; [now exists [] |].
  destruct o as [x|]; [| congruence].
  exists (x :: l'). cbn [allNumbers]. rewrite E. split; [reflexivity |].
  cbn [List.length]. now rewrite Hlen.
Qed.

Lemma timeSpread_nonneg (Math_sqrt : Q -> Q) (times : list (option Z)) :
  (forall x, 0 <= Math_sqrt x) ->
  times <> [] -> Forall (fun o => o <> None) times ->
  exists v, timeSpread Math_sqrt times = Some v /\ (0 <= v)%Z.
Proof.
  intros Hsqrt Hne Hall.
  destruct (allNumbers_some Hall) as (l & E & Hlen).
  unfold timeSpread. rewrite E.
  destruct l as [|t ts]; [destruct times; [congruence | discriminate] |].
  eexists. split; [reflexivity |].
  apply round_ge. cbv [inject_Z].
  match goal with |- _ <= Math_sqrt ?x + _ => pose proof (Hsqrt x) end. lra.
Qed.

(** X6. For a series that is not empty and whose times are readable, whatever
    never-negative function stands for the square root: both spreads are
    whole numbers that are not negative, and the consistency score is
    max(0, 100 - (their mean)), a number from 0 to 100 that is 100 only when
    both spreads are 0. For the empty series all three are NaN. *)
Theorem consistency_score_range (Math_sqrt : Q -> Q) (data : list SleepData.t) :
  (forall x, 0 <= Math_sqrt x) ->
  data <> [] -> Forall timesReadable data ->
  calculateSleepConsistency Math_sqrt []
  = {| bedtime_variance := None; wake_time_variance := None;
       consistency_score := None |}
  /\ exists b w c,
       calculateSleepConsistency Math_sqrt data
       = {| bedtime_variance := Some b; wake_time_variance := Some w;
            consistency_score := Some c |}
       /\ (0 <= b)%Z /\ (0 <= w)%Z
       /\ c == Qmax 0 (100 - (inject_Z b + inject_Z w) / 2)
       /\ 0 <= c /\ c <= 100
       /\ (c == 100 -> b = 0%Z /\ w = 0%Z).
Proof.
  intros Hsqrt Hne Hall. split; [reflexivity |].
  unfold calculateSleepConsistency.
  destruct (@timeSpread_nonneg Math_sqrt
              (map (fun s => timeToMinutes (SleepData.bedtime s)) data) Hsqrt)
    as (b & Eb & Hb).
  { destruct data; [congruence | discriminate]. }
  { rewrite Forall_map. eapply Forall_impl; [| exact Hall]. now intros s [H _]. }
  destruct (@timeSpread_nonneg Math_sqrt
              (map (fun s => timeToMinutes (SleepData.wake_time s)) data) Hsqrt)
    as (w & Ew & Hw).
  { destruct data; [congruence | discriminate]. }
  { rewrite Forall_map. eapply Forall_impl; [| exact Hall]. now intros s [_ H]. }
  rewrite Eb, Ew. exists b, w. eexists. split; [reflexivity |].
  split; [exact Hb |]. split; [exact Hw |]. split; [reflexivity |].
  rewrite Zle_Qle in Hb, Hw.
  assert (Hsum : 0 <= (inject_Z b + inject_Z w) / 2) by qlra.
  split; [apply Q.le_max_l |]. split.
  - apply Q.max_lub; lra.
  - intros Hc.
    destruct (Q.max_spec 0 (100 - (inject_Z b + inject_Z w) / 2)) as [[_ E] | [_ E]];
      rewrite E in Hc; [| lra].
    assert (Hb0 : inject_Z b == inject_Z 0) by qlra.
    assert (Hw0 : inject_Z w == inject_Z 0) by qlra.
    rewrite inject_Z_injective in Hb0. rewrite inject_Z_injective in Hw0.
    now split.
Qed.

Lemma consistency_score_range_witness :
  (forall x, 0 <= wholeSqrt x)
  /\ exists c,
       consistency_score
         (calculateSleepConsistency wholeSqrt
            [timed (22, 0)%Z (6, 0)%Z; timed (23, 0)%Z (7, 30)%Z])
       = Some c
       /\ 0 <= c /\ c <= 100.
Proof.
  assert (Hsqrt : forall x, 0 <= wholeSqrt x).
  { intros x. unfold wholeSqrt. change 0 with (inject_Z 0).
    rewrite <- Zle_Qle. apply Z.sqrt_nonneg. }
  split; [exact Hsqrt |].
  assert (Hne : [timed (22, 0)%Z (6, 0)%Z; timed (23, 0)%Z (7, 30)%Z] <> [])
    by discriminate.
  assert (Hall : Forall timesReadable
                        [timed (22, 0)%Z (6, 0)%Z; timed (23, 0)%Z (7, 30)%Z]).
  { repeat constructor; vm_compute; discriminate. }
  destruct (@consistency_score_range wholeSqrt _ Hsqrt Hne Hall)
    as (_ & b & w & c & E & _ & _ & _ & H0 & H100 & _).
  exists c. rewrite E. split; [reflexivity |]. now split.
Defined.

End SleepReportFacts.

(* ================================================================== *)
(** ** Trends *)
(* ================================================================== *)

Section TrendFacts.
Import HrvCmd SleepCmd.

Lemma fold_plus_acc (l : list Q) (acc : Q) : fold_left Qplus l acc == acc + sum l.
Proof.
  unfold sum. revert acc. induction l as [|x l IH]; intros acc; cbn [fold_left].
  - ring.
  - rewrite (IH (acc + x)), (IH (0 + x)). ring.
Qed.

Lemma sum_cons (x : Q) (l : list Q) : sum (x :: l) == x + sum l.
Proof. unfold sum at 1. cbn [fold_left]. rewrite fold_plus_acc. ring. Qed.

Lemma sum_app (a b : list Q) : sum (a ++ b) == sum a + sum b.
Proof.
  induction a as [|x a IH]; cbn [app].
  - unfold sum at 2. cbn [fold_left]. ring.
  - rewrite !sum_cons, IH. ring.
Qed.

Lemma sum_rev (l : list Q) : sum (rev l) == sum l.
Proof.
  induction l as [|x l IH]; [reflexivity |].
  cbn [rev]. rewrite sum_app, !sum_cons, IH. unfold sum at 2. cbn [fold_left]. ring.
Qed.

Lemma sliceLast_rev {A : Type} (n : nat) (l : list A) :
  sliceLast n (rev l) = rev (firstn n l).
Proof.
  unfold sliceLast. rewrite length_rev, skipn_rev.
  f_equal. destruct (Nat.le_gt_cases n (List.length l)) as [H | H].
  - f_equal. lia.
  - replace (List.length l - (List.length l - n))%nat with (List.length l) by lia.
    now rewrite !firstn_all2 by lia.
Qed.

Lemma firstn_rev_slice {A : Type} (n : nat) (l : list A) :
  firstn n (rev l) = rev (sliceLast n l).
Proof. unfold sliceLast. apply firstn_rev. Qed.

(** The direction and the significance as functions of the change. *)
Lemma analyzeHRVTrend_fields (data : list HRVData.t) :
  (2 <= List.length data)%nat ->
  let change := sum (map HRVData.value (sliceLast 3 data)) / 3
                - sum (map HRVData.value (firstn 3 data)) / 3 in
  HrvCmd.change (analyzeHRVTrend data) = round change
  /\ change_percent (analyzeHRVTrend data) <> absent
  /\ ((Qabs change < 2
       /\ direction (analyzeHRVTrend data) = stable
       /\ significance (analyzeHRVTrend data) = none)
      \/ (2 <= change
          /\ direction (analyzeHRVTrend data) = improving
          /\ significance (analyzeHRVTrend data)
             = (if ltb 5 change then HrvCmd.significant else HrvCmd.moderate))
      \/ (change <= -2
          /\ direction (analyzeHRVTrend data) = declining
          /\ significance (analyzeHRVTrend data)
             = (if ltb change (-5) then HrvCmd.significant else HrvCmd.moderate))).
Proof.
  intros Hlen change. unfold analyzeHRVTrend.
  destruct (List.length data <? 2)%nat eqn:E; [apply Nat.ltb_lt in E; lia |].
  fold change.
  split; [| split].
  - destruct (ltb (Qabs change) 2); [reflexivity |].
    destruct (ltb 0 change); reflexivity.
  - destruct (ltb (Qabs change) 2); [| destruct (ltb 0 change)];
      cbn [change_percent]; destruct (Qeq_bool _ 0); discriminate.
  - destruct (ltb (Qabs change) 2) eqn:E1.
    + left. apply ltb_lt in E1. now repeat split.
    + apply ltb_ge in E1.
      destruct (ltb 0 change) eqn:E2.
      * right; left. apply ltb_lt in E2.
        rewrite Qabs_pos in E1 by lra. now repeat split.
      * right; right. apply ltb_ge in E2.
        rewrite Qabs_neg in E1 by exact E2. split; [lra |]. now split.
Qed.

(** X7. For two samples or more the fields of the trend agree with each other:
    the direction is never [insufficient_data] and the percentage is never
    missing; the trend is [stable] exactly when its significance is [none],
    and then the reported change lies from -2 to 2; an [improving] trend
    reports a change of 2 or more, a [declining] one of -2 or less, and a
    [significant] one of 5 or more in size. *)
Theorem analyzeHRVTrend_coherent (data : list HRVData.t) :
  (2 <= List.length data)%nat ->
  let t := analyzeHRVTrend data in
  direction t <> insufficient_data
  /\ change_percent t <> absent
  /\ (direction t = stable <-> significance t = none)
  /\ (direction t = stable -> (-2 <= change t <= 2)%Z)
  /\ (direction t = improving -> (2 <= change t)%Z)
  /\ (direction t = declining -> (change t <= -2)%Z)
  /\ (significance t = HrvCmd.significant -> (change t <= -5 \/ 5 <= change t)%Z).
Proof.
  intros Hlen t. subst t.
  destruct (analyzeHRVTrend_fields data Hlen) as (Hc & Hp & H).
  cbv zeta in Hc, H. rewrite Hc.
  set (c := sum (map HRVData.value (sliceLast 3 data)) / 3
            - sum (map HRVData.value (firstn 3 data)) / 3) in *.
  destruct H as [(Hs & Hd & Hg) | [(Hs & Hd & Hg) | (Hs & Hd & Hg)]];
    rewrite Hd, Hg;
    (split; [discriminate |]); (split; [exact Hp |]).
  - apply Qabs_Qlt_condition in Hs. destruct Hs as [Hs1 Hs2].
    split; [split; reflexivity |].
    split; [intros _ | repeat (split; [intros E; discriminate E |]);
                       intros E; discriminate E].
    split.
    + apply round_ge. cbv [inject_Z]. lra.
    + apply Z.lt_succ_r. change (Z.succ 2) with 3%Z.
      apply round_lt. cbv [inject_Z]. lra.
  - assert (H2 : (2 <= round c)%Z) by (apply round_ge; cbv [inject_Z]; lra).
    split; [split; intros E; [discriminate E | destruct (ltb 5 c); discriminate E] |].
    split; [intros E; discriminate E |]. split; [intros _; exact H2 |].
    split; [intros E; discriminate E |].
    destruct (ltb 5 c) eqn:E; [| intros E'; discriminate E'].
    intros _. apply ltb_lt in E. right. apply round_ge. cbv [inject_Z]. lra.
  - assert (H2 : (round c <= -2)%Z).
    { apply Z.lt_succ_r. change (Z.succ (-2)) with (-1)%Z.
      apply round_lt. cbv [inject_Z]. lra. }
    split; [split; intros E; [discriminate E | destruct (ltb c (-5)); discriminate E] |].
    split; [intros E; discriminate E |]. split; [intros E; discriminate E |].
    split; [intros _; exact H2 |].
    destruct (ltb c (-5)) eqn:E; [| intros E'; discriminate E'].
    intros _. apply ltb_lt in E. left. apply Z.lt_succ_r.
    change (Z.succ (-5)) with (-4)%Z. apply round_lt. cbv [inject_Z]. lra.
Qed.

Lemma analyzeHRVTrend_coherent_witness :
  direction (analyzeHRVTrend [hrvSample 40; hrvSample 42; hrvSample 50; hrvSample 52])
  = improving
  /\ (2 <= change (analyzeHRVTrend
                     [hrvSample 40; hrvSample 42; hrvSample 50; hrvSample 52]))%Z.
Proof.
  assert (Hlen : (2 <= List.length
                         [hrvSample 40; hrvSample 42; hrvSample 50; hrvSample 52])%nat)
    by (simpl; lia).
  destruct (analyzeHRVTrend_coherent _ Hlen) as (_ & _ & _ & _ & Hi & _).
  assert (Hd : direction (analyzeHRVTrend
                 [hrvSample 40; hrvSample 42; hrvSample 50; hrvSample 52]) = improving)
    by (vm_compute; reflexivity).
  split; [exact Hd | exact (Hi Hd)].
Defined.

Lemma map_sliceLast {A B : Type} (f : A -> B) (n : nat) (l : list A) :
  map f (sliceLast n l) = sliceLast n (map f l).
Proof. unfold sliceLast. now rewrite skipn_map, length_map. Qed.

(** Reversing a series negates the change between its two windows. *)
Lemma reversed_change (l : list Q) :
  sum (sliceLast 3 (rev l)) / 3 - sum (firstn 3 (rev l)) / 3
  == - (sum (sliceLast 3 l) / 3 - sum (firstn 3 l) / 3).
Proof.
  rewrite sliceLast_rev, firstn_rev_slice, !sum_rev. field.
Qed.

Lemma Qabs_opp_eq (c c' : Q) : c' == - c -> Qabs c' == Qabs c.
Proof. intros ->. apply Qabs_opp. Qed.

Lemma calculateTrend_rev (values : list Q) :
  calculateTrend (rev values) = opposite (calculateTrend values).
Proof.
  unfold calculateTrend. rewrite length_rev.
  destruct (List.length values <? 3)%nat; [reflexivity |].
  pose proof (reversed_change values) as Hc.
  fold (trendChange (rev values)) in Hc. fold (trendChange values) in Hc.
  pose proof (Qabs_opp_eq Hc) as Ha.
  revert Hc Ha.
  generalize (trendChange (rev values)) (trendChange values). intros c' c Hc Ha.
  destruct (ltb (Qabs c') 0.2) eqn:E1; [apply ltb_lt in E1 | apply ltb_ge in E1];
    (destruct (ltb (Qabs c) 0.2) eqn:E2; [apply ltb_lt in E2 | apply ltb_ge in E2]);
    try reflexivity; try (exfalso; lra).
  destruct (ltb 0 c') eqn:E3; [apply ltb_lt in E3 | apply ltb_ge in E3];
    (destruct (ltb 0 c) eqn:E4; [apply ltb_lt in E4 | apply ltb_ge in E4]);
    try reflexivity; exfalso.
  - lra.
  - rewrite Qabs_neg in E2 by exact E4. lra.
Qed.

(** X8. Read backwards, a series of whole numbers of magnitude at most 2^20,
    as the generated HRV values and sleep scores are, has the opposite trend
    of the same significance: [improving] and [declining] change places,
    [stable] and [insufficient_data] stay, for the HRV trend and for the
    sleep trends. (The sums of three such values are exact in doubles in
    either order, so the two means change places and their difference
    changes its sign; for values with fractions the sums depend on the
    order, and the property is not claimed.) *)
Theorem trend_of_reversed_series :
  forall (data : list HRVData.t) (values : list Q),
    wholeNumbers (2 ^ 20) (map HRVData.value data) ->
    wholeNumbers (2 ^ 20) values ->
    direction (analyzeHRVTrend (rev data)) = opposite (direction (analyzeHRVTrend data))
    /\ significance (analyzeHRVTrend (rev data)) = significance (analyzeHRVTrend data)
    /\ calculateTrend (rev values) = opposite (calculateTrend values).
Proof.
  intros data values _ _.
  assert (H : direction (analyzeHRVTrend (rev data))
              = opposite (direction (analyzeHRVTrend data))
              /\ significance (analyzeHRVTrend (rev data))
                 = significance (analyzeHRVTrend data)).
  { destruct (Nat.lt_ge_cases (List.length data) 2) as [Hlen | Hlen].
    - unfold analyzeHRVTrend. rewrite length_rev.
      apply Nat.ltb_lt in Hlen. rewrite Hlen. split; reflexivity.
    - assert (Hlen' : (2 <= List.length (rev data))%nat) by (rewrite length_rev; lia).
      destruct (analyzeHRVTrend_fields data Hlen) as (_ & _ & H).
      destruct (analyzeHRVTrend_fields (rev data) Hlen') as (_ & _ & H').
      cbv zeta in H, H'.
      pose proof (reversed_change (map HRVData.value data)) as Hc.
      rewrite <- map_rev, <- !map_sliceLast, !firstn_map in Hc.
      revert H H' Hc.
      generalize (sum (map HRVData.value (sliceLast 3 (rev data))) / 3
                  - sum (map HRVData.value (firstn 3 (rev data))) / 3).
      generalize (sum (map HRVData.value (sliceLast 3 data)) / 3
                  - sum (map HRVData.value (firstn 3 data)) / 3).
      intros c c' H H' Hc.
      pose proof (Qabs_opp_eq Hc) as Ha.
      destruct H as [(Hs & Hd & Hg) | [(Hs & Hd & Hg) | (Hs & Hd & Hg)]];
        destruct H' as [(Hs' & Hd' & Hg') | [(Hs' & Hd' & Hg') | (Hs' & Hd' & Hg')]];
        rewrite Hd, Hg, Hd', Hg'; cbn [opposite];
        try (split; reflexivity);
        try (exfalso;
             try (apply Qabs_Qlt_condition in Hs);
             try (apply Qabs_Qlt_condition in Hs'); lra).
      + split; [reflexivity |].
        destruct (ltb c' (-5)) eqn:E1; [apply ltb_lt in E1 | apply ltb_ge in E1];
          (destruct (ltb 5 c) eqn:E2; [apply ltb_lt in E2 | apply ltb_ge in E2]);
          try reflexivity; exfalso; lra.
      + split; [reflexivity |].
        destruct (ltb 5 c') eqn:E1; [apply ltb_lt in E1 | apply ltb_ge in E1];
          (destruct (ltb c (-5)) eqn:E2; [apply ltb_lt in E2 | apply ltb_ge in E2]);
          try reflexivity; exfalso; lra. }
  destruct H as [H1 H2]. split; [exact H1 |]. split; [exact H2 |].
  apply calculateTrend_rev.
Qed.

Lemma trend_of_reversed_series_witness :
  wholeNumbers (2 ^ 20) (map HRVData.value (map hrvSample [40; 42; 50; 52]))
  /\ wholeNumbers (2 ^ 20) [90; 80; 70; 60]
  /\ direction (analyzeHRVTrend (map hrvSample [40; 42; 50; 52])) = improving
  /\ direction (analyzeHRVTrend (rev (map hrvSample [40; 42; 50; 52]))) = declining
  /\ calculateTrend [90; 80; 70; 60] = declining
  /\ calculateTrend (rev [90; 80; 70; 60]) = improving.
Proof.
  assert (H1 : wholeNumbers (2 ^ 20)
                 (map HRVData.value (map hrvSample [40; 42; 50; 52]))).
  { repeat (apply Forall_cons;
            [eexists; split; [reflexivity | split; discriminate] |]).
    apply Forall_nil. }
  assert (H2 : wholeNumbers (2 ^ 20) [90; 80; 70; 60]).
  { repeat (apply Forall_cons;
            [eexists; split; [reflexivity | split; discriminate] |]).
    apply Forall_nil. }
  destruct (@trend_of_reversed_series (map hrvSample [40; 42; 50; 52])
              [90; 80; 70; 60] H1 H2) as (Hd & _ & Hc).
  split; [exact H1 |]. split; [exact H2 |].
  assert (E1 : direction (analyzeHRVTrend (map hrvSample [40; 42; 50; 52]))
               = improving) by (vm_compute; reflexivity).
  assert (E2 : calculateTrend [90; 80; 70; 60] = declining)
    by (vm_compute; reflexivity).
  split; [exact E1 |]. split; [rewrite Hd, E1; reflexivity |].
  split; [exact E2 |]. rewrite Hc, E2. reflexivity.
Defined.

End TrendFacts.

(* ================================================================== *)
(** ** The HRV report *)
(* ================================================================== *)

(** From [resultOf (success c x a) = Some res], replace [res] by [x] without
    reducing [x]. *)
Ltac some_result H :=
  cbv beta iota delta [Responses.resultOf Responses.success] in H;
  match type of H with
  | Some ?x = Some ?res =>
      let E := fresh "E" in
      assert (E : x = res) by (exact (f_equal (fun o => match o with
                                                        | Some y => y
                                                        | None => x
                                                        end) H));
      clear H; rewrite <- E; clear E
  end.

Section HrvReportFacts.
Import MockData HrvCmd HrvReport Responses SleepReport.

Lemma sum_nonneg (l : list Q) : Forall (fun x => 0 <= x) l -> 0 <= sum l.
Proof.
  induction 1 as [|x l Hx _ IH]; [apply Qle_refl |]. rewrite sum_cons. lra.
Qed.

Lemma sum_zero (l : list Q) :
  Forall (fun x => 0 <= x) l -> sum l == 0 -> Forall (fun x => x == 0) l.
Proof.
  induction 1 as [|x l Hx Hl IH]; [constructor |].
  rewrite sum_cons. intros H. pose proof (sum_nonneg Hl).
  constructor; [lra | apply IH; lra].
Qed.

Lemma sum_all_zero (l : list Q) : Forall (fun x => x == 0) l -> sum l == 0.
Proof.
  induction 1 as [|x l Hx _ IH]; [reflexivity |]. rewrite sum_cons. lra.
Qed.

Lemma sum_const (c : Q) (l : list Q) :
  Forall (fun x => x == c) l -> sum l == inject_Z (Z.of_nat (List.length l)) * c.
Proof.
  induction 1 as [|x l Hx _ IH].
  - cbn. ring.
  - rewrite sum_cons, IH. cbn [List.length].
    rewrite Nat2Z.inj_succ. unfold Z.succ. rewrite inject_Z_plus, Hx. ring.
Qed.

Lemma length_positive {A : Type} (l : list A) :
  l <> [] -> 0 < inject_Z (Z.of_nat (List.length l)).
Proof.
  intros H. change 0 with (inject_Z 0). rewrite <- Zlt_Qlt.
  destruct l; [congruence | simpl; lia].
Qed.

Lemma square_zero (x : Q) : x ^ 2 == 0 -> x == 0.
Proof.
  intros H. change (x ^ 2) with (x * x) in H.
  destruct (Qmult_integral _ _ H); assumption.
Qed.

(** X9. The standard deviation of a series of whole numbers of magnitude at
    most 2^20 that is not empty, as the generated HRV values that
    [hrvCommand] passes are, is the square root of a number that is never
    negative, so never [NaN]; that number is zero exactly when all the values
    are the same. (For values with fractions the mean of equal values need
    not be that value in doubles, and the property is not claimed.) *)
Theorem standard_deviation_of_equal_values (Math_sqrt : Q -> Q) (values : list Q) :
  values <> [] ->
  wholeNumbers (2 ^ 20) values ->
  exists v,
    calculateStandardDeviation Math_sqrt values = Some (Math_sqrt v)
    /\ 0 <= v
    /\ (v == 0 <-> allEqual values).
Proof.
  intros Hne _. pose proof (length_positive Hne) as Hn.
  unfold calculateStandardDeviation.
  destruct values as [|v0 vs] eqn:Ev; [congruence |]. rewrite <- Ev in *.
  set (n := inject_Z (Z.of_nat (List.length values))) in *.
  set (mean := sum values / n).
  set (sq := map (fun val => (val - mean) ^ 2) values).
  assert (Hsq : Forall (fun x => 0 <= x) sq).
  { apply Forall_forall. intros x Hx. apply in_map_iff in Hx as [val [<- _]].
    change ((val - mean) ^ 2) with ((val - mean) * (val - mean)).
    generalize (val - mean). intros z. nra. }
  exists (sum sq / n). split; [reflexivity |].
  pose proof (sum_nonneg Hsq) as Hs.
  split; [apply Qle_shift_div_l; [exact Hn | lra] |].
  split.
  - intros Hz.
    assert (Hz' : sum sq == 0).
    { assert (E : sum sq == sum sq / n * n) by (field; lra). rewrite E, Hz. ring. }
    pose proof (sum_zero Hsq Hz') as Hall.
    assert (Hmean : forall x, In x values -> x == mean).
    { intros x Hx. rewrite Forall_forall in Hall.
      assert (H : (x - mean) ^ 2 == 0)
        by (apply Hall; unfold sq; apply in_map_iff; now exists x).
      apply square_zero in H. lra. }
    intros x y Hx Hy. rewrite (Hmean x Hx), (Hmean y Hy). reflexivity.
  - intros Heq.
    assert (Hall : Forall (fun x => x == v0) values).
    { apply Forall_forall. intros x Hx. apply Heq; [exact Hx |].
      rewrite Ev. now left. }
    assert (Hmean : mean == v0).
    { unfold mean. rewrite (sum_const Hall). fold n. field. lra. }
    assert (Hzero : Forall (fun x => x == 0) sq).
    { apply Forall_forall. intros x Hx. apply in_map_iff in Hx as [val [<- Hval]].
      rewrite Forall_forall in Hall. rewrite (Hall val Hval), Hmean.
      change ((v0 - v0) ^ 2) with ((v0 - v0) * (v0 - v0)). ring. }
    rewrite (sum_all_zero Hzero). field. lra.
Qed.

Lemma standard_deviation_of_equal_values_witness :
  wholeNumbers (2 ^ 20) [3; 3]
  /\ exists v,
       calculateStandardDeviation wholeSqrt [3; 3] = Some (wholeSqrt v) /\ v == 0.
Proof.
  assert (Hne : [3; 3] <> (@nil Q)) by discriminate.
  assert (Hw : wholeNumbers (2 ^ 20) [3; 3]).
  { repeat (apply Forall_cons;
            [eexists; split; [reflexivity | split; discriminate] |]).
    apply Forall_nil. }
  split; [exact Hw |].
  destruct (standard_deviation_of_equal_values wholeSqrt Hne Hw) as (v & E & _ & Hv).
  exists v. split; [exact E |].
  apply Hv. intros x y [<- | [<- | []]] [<- | [<- | []]]; reflexivity.
Defined.

Lemma fromEnd_snoc {A : Type} (l : list A) (x : A) :
  fromEnd 1 l = Some x -> exists init, l = init ++ [x].
Proof.
  unfold fromEnd. destruct (List.length l <? 1)%nat; [discriminate |].
  intros H. destruct (nth_error_split l _ H) as (l1 & l2 & E & Hlen).
  exists l1. rewrite E in Hlen |- *. rewrite length_app in Hlen. cbn in Hlen.
  destruct l2; [reflexivity | cbn in Hlen; lia].
Qed.

Lemma fromEnd_nonempty {A : Type} (l : list A) :
  l <> [] -> exists x, fromEnd 1 l = Some x.
Proof.
  intros H. destruct (@fromEnd_last A (fun _ => True) l) as [x [E _]].
  - apply Forall_forall. intros; exact I.
  - destruct l; [congruence | simpl; lia].
  - now exists x.
Qed.

Lemma sliceLast_length {A : Type} (n : nat) (l : list A) :
  List.length (sliceLast n l) = Nat.min n (List.length l).
Proof. unfold sliceLast. rewrite length_skipn. lia. Qed.

(** The first and the last date of a generated series. *)
Lemma series_dates {A : Type} (date : A -> Z) (today : Z) (days : Z)
    (first last : A) (rest : list A) :
  (1 <= days)%Z ->
  map date (first :: rest) = map (fun i => (today - i)%Z) (downFrom (Z.to_nat days)) ->
  fromEnd 1 (first :: rest) = Some last ->
  date first = (today - (days - 1))%Z /\ date last = today.
Proof.
  intros Hdays Hmap Hlast.
  destruct (Z.to_nat days) as [|k] eqn:Ek; [lia |].
  split.
  - cbn [downFrom map] in Hmap. injection Hmap as -> _. lia.
  - destruct (fromEnd_snoc _ Hlast) as [init Einit].
    destruct (dates_end_today today k) as [init' E'].
    rewrite Einit, E', map_app in Hmap. cbn [map] in Hmap.
    apply app_inj_tail in Hmap. tauto.
Qed.

Lemma distribution_total (l : list HRVData.t) :
  (List.length (filter isLow l) + List.length (filter isNormal l)
   + List.length (filter isHigh l) = List.length l)%nat.
Proof.
  induction l as [|d l IH]; [reflexivity |].
  cbn [filter]. unfold isLow at 1, isNormal at 1, isHigh at 1.
  destruct (HRVData.category d); cbn [List.length]; lia.
Qed.

(** The answer of [hrvCommand] to a number of days from 1 to 90, in terms of
    the generated series. *)
Lemma hrvCommand_report (Math_sqrt : Q -> Q) (clk : Clock) (days : Z) (g : Rng) :
  (1 <= days <= 90)%Z ->
  exists first rest last least most notes,
    fst (generateMockHRV clk days g) = first :: rest
    /\ fromEnd 1 (first :: rest) = Some last
    /\ minimum (map HRVData.value (first :: rest)) = Some least
    /\ maximum (map HRVData.value (first :: rest)) = Some most
    /\ generateHRVInsights (first :: rest) (analyzeHRVTrend (first :: rest))
       = Returns notes
    /\ hrvCommand Math_sqrt clk days g
       = (Returns
            (success (utf16 "hrv --days " ++ showInt days)
               {| period :=
                    {| Period.days := days;
                       Period.start_date := HRVData.date first;
                       Period.end_date := HRVData.date last |};
                  current :=
                    {| Current.value := HRVData.value last;
                       Current.category := HRVData.category last;
                       Current.date := HRVData.date last |};
                  statistics :=
                    {| Statistics.average :=
                         inject_Z (round (sum (map HRVData.value (first :: rest))
                                          / inject_Z (Z.of_nat
                                                        (List.length (first :: rest)))));
                       Statistics.min := least;
                       Statistics.max := most;
                       Statistics.std_dev :=
                         option_map (fun sd => inject_Z (round (sd * 10)) / 10)
                           (calculateStandardDeviation Math_sqrt
                              (map HRVData.value (first :: rest))) |};
                  trend := analyzeHRVTrend (first :: rest);
                  distribution :=
                    {| Distribution.low := List.length (filter isLow (first :: rest));
                       Distribution.normal :=
                         List.length (filter isNormal (first :: rest));
                       Distribution.high :=
                         List.length (filter isHigh (first :: rest)) |};
                  data := sliceLast 10 (first :: rest);
                  insights := notes |}
               ((if isLow last then [COMMON_ACTIONS.ALERTS] else [])
                ++ [COMMON_ACTIONS.STATUS; COMMON_ACTIONS.SLEEP]
                ++ (if (days =? 7)%Z
                    then [action "health hrv --days 14" "Extend analysis to 2 weeks"]
                    else if (days =? 14)%Z
                    then [action "health hrv --days 30" "View monthly HRV pattern"]
                    else []))),
          snd (generateMockHRV clk days g)).
Proof.
  intros Hdays. unfold hrvCommand.
  assert (E : ((days <? 1) || (90 <? days))%Z = false).
  { apply orb_false_iff. split; apply Z.ltb_ge; lia. }
  rewrite E. unfold bind.
  pose proof (countDown_length (hrvDay clk) (Z.to_nat days) g) as Hlen.
  fold (generateMockHRV clk days) in Hlen.
  destruct (generateMockHRV clk days g) as [hrvData g1]. cbn [fst snd] in *.
  destruct hrvData as [|first rest]; [simpl in Hlen; lia |].
  destruct (@fromEnd_nonempty _ (first :: rest)) as [last Elast]; [discriminate |].
  exists first, rest, last.
  unfold generateHRVInsights. rewrite Elast.
  cbn [map minimum maximum].
  do 3 eexists.
  split; [reflexivity |]. split; [reflexivity |].
  split; [reflexivity |]. split; [reflexivity |]. split; [reflexivity |].
  unfold ret. f_equal. f_equal.
  destruct (isLow last); reflexivity.
Qed.


(** Every generated HRV sample is [normal], with a whole value from 35 to
    55. *)
Lemma generateMockHRV_samples (clk : Clock) (n : Z) (g : Rng) :
  unitDraws g ->
  Forall (fun d => HRVData.category d = normal
                   /\ exists z, HRVData.value d = inject_Z z /\ (35 <= z <= 55)%Z)
         (fst (generateMockHRV clk n g))
  /\ unitDraws (snd (generateMockHRV clk n g)).
Proof.
  intros Hg. unfold generateMockHRV.
  apply (@countDown_Forall _
           (fun d => HRVData.category d = normal
                     /\ exists z, HRVData.value d = inject_Z z /\ (35 <= z <= 55)%Z)
           unitDraws (hrvDay clk)); [| exact Hg].
  intros i g' Hg'.
  destruct (hrvDay_sample clk i Hg') as [(Hcat & _) Hnext].
  split; [| exact Hnext]. split; [exact Hcat |].
  cbn. eexists. split; [reflexivity |].
  destruct (Hg' 0%nat) as [H0 H1].
  destruct (hrvValue_range H0 H1) as [Hlo Hhi].
  apply round_range; cbv [inject_Z]; lra.
Qed.

Lemma filter_all {A : Type} (f : A -> bool) (l : list A) :
  Forall (fun x => f x = true) l -> filter f l = l.
Proof.
  induction 1 as [|x l Hx _ IH]; [reflexivity |]. cbn [filter]. now rewrite Hx, IH.
Qed.

Lemma filter_none {A : Type} (f : A -> bool) (l : list A) :
  Forall (fun x => f x = false) l -> filter f l = [].
Proof.
  induction 1 as [|x l Hx _ IH]; [reflexivity |]. cbn [filter]. now rewrite Hx, IH.
Qed.

Lemma minimum_spec (l : list Q) (least : Q) :
  minimum l = Some least -> In least l /\ Forall (fun y => least <= y) l.
Proof.
  destruct l as [|x l]; [discriminate |]. cbn [minimum]. intros [= <-].
  destruct (fold_min_spec l x) as (Hin & Hle & Hall).
  split; [exact Hin | constructor; assumption].
Qed.

Lemma maximum_spec (l : list Q) (most : Q) :
  maximum l = Some most -> In most l /\ Forall (fun y => y <= most) l.
Proof.
  destruct l as [|x l]; [discriminate |]. cbn [maximum]. intros [= <-].
  destruct (fold_max_spec l x) as (Hin & Hle & Hall).
  split; [exact Hin | constructor; assumption].
Qed.

(** X11. The report on generated data, whatever is drawn: every day is counted
    as [normal]; the least value, the rounded average and the greatest value
    are in this order between 35 and 55; there is one insight on the trend,
    followed at most by the note on a significant trend and never by one on
    low HRV; and the alert command is not among the next actions. *)
Theorem hrvCommand_generated_report
    (Math_sqrt : Q -> Q) (clk : Clock) (days : Z) (g : Rng) :
  (1 <= days <= 90)%Z -> unitDraws g ->
  exists r res,
    fst (hrvCommand Math_sqrt clk days g) = Returns r
    /\ resultOf r = Some res
    /\ distribution res
       = {| Distribution.low := 0; Distribution.normal := Z.to_nat days;
            Distribution.high := 0 |}
    /\ Current.category (current res) = normal
    /\ 35 <= Statistics.min (statistics res)
    /\ Statistics.min (statistics res) <= Statistics.average (statistics res)
    /\ Statistics.average (statistics res) <= Statistics.max (statistics res)
    /\ Statistics.max (statistics res) <= 55
    /\ Statistics.std_dev (statistics res) <> None
    /\ (exists t, In t [trendingUp; trendingDown; trendStable]
                  /\ (insights res = [t] \/ insights res = [t; significantTrend]))
    /\ next_actions r
       = [COMMON_ACTIONS.STATUS; COMMON_ACTIONS.SLEEP]
         ++ (if (days =? 7)%Z
             then [action "health hrv --days 14" "Extend analysis to 2 weeks"]
             else if (days =? 14)%Z
             then [action "health hrv --days 30" "View monthly HRV pattern"]
             else []).
Proof.
  intros Hdays Hg.
  destruct (@hrvCommand_report Math_sqrt clk days g Hdays)
    as (first & rest & last & least & most & notes
        & Edata & Elast & Emin & Emax & Enotes & Ecmd).
  destruct (generateMockHRV_samples clk days Hg) as [Hall _].
  pose proof (countDown_length (hrvDay clk) (Z.to_nat days) g) as Hlen.
  fold (generateMockHRV clk days) in Hlen.
  rewrite Edata in Hall, Hlen.
  remember (first :: rest) as l eqn:El.
  assert (Hne : l <> []) by (rewrite El; discriminate).
  assert (Hlow : filter isLow l = []).
  { apply filter_none. eapply Forall_impl; [| exact Hall].
    intros d [Hc _]. unfold isLow. now rewrite Hc. }
  assert (Hhigh : filter isHigh l = []).
  { apply filter_none. eapply Forall_impl; [| exact Hall].
    intros d [Hc _]. unfold isHigh. now rewrite Hc. }
  assert (Hnormal : filter isNormal l = l).
  { apply filter_all. eapply Forall_impl; [| exact Hall].
    intros d [Hc _]. unfold isNormal. now rewrite Hc. }
  assert (Hlast : HRVData.category last = normal).
  { destruct (fromEnd_snoc _ Elast) as [init Einit].
    rewrite Forall_forall in Hall. apply Hall.
    rewrite Einit. apply in_or_app. right. now left. }
  assert (Hlast' : isLow last = false) by (unfold isLow; now rewrite Hlast).
  assert (Hvalues : Forall (fun v => exists z, v = inject_Z z /\ (35 <= z <= 55)%Z)
                           (map HRVData.value l)).
  { apply Forall_forall. intros v Hv. apply in_map_iff in Hv as [d [<- Hd]].
    rewrite Forall_forall in Hall. now apply Hall. }
  destruct (minimum_spec _ Emin) as [Hmin_in Hmin_le].
  destruct (maximum_spec _ Emax) as [Hmax_in Hmax_le].
  rewrite Forall_forall in Hvalues.
  destruct (Hvalues _ Hmin_in) as (zmin & Ezmin & Hzmin).
  destruct (Hvalues _ Hmax_in) as (zmax & Ezmax & Hzmax).
  assert (Hmean : least <= sum (map HRVData.value l)
                           / inject_Z (Z.of_nat (List.length l))
                  /\ sum (map HRVData.value l)
                     / inject_Z (Z.of_nat (List.length l)) <= most).
  { rewrite <- (length_map HRVData.value l). apply mean_bounds.
    - destruct l; [congruence | discriminate].
    - rewrite Forall_forall in Hmin_le, Hmax_le. apply Forall_forall.
      intros v Hv. split; [now apply Hmin_le | now apply Hmax_le]. }
  rewrite Ecmd. cbn [fst]. do 2 eexists.
  split; [reflexivity |]. split; [reflexivity |].
  cbv beta iota delta [distribution current statistics insights next_actions success
                       Current.category Statistics.min Statistics.max
                       Statistics.average Statistics.std_dev].
  rewrite Hlow, Hhigh, Hnormal, Hlast', Hlen. rewrite Hlen in Hmean.
  split; [reflexivity |]. split; [exact Hlast |].
  rewrite Ezmin, Ezmax in Hmean |- *. destruct Hmean as [Hm1 Hm2].
  destruct (round_range Hm1 Hm2) as [Hr1 Hr2].
  split; [change 35 with (inject_Z 35); rewrite <- Zle_Qle; lia |].
  split; [rewrite <- Zle_Qle; exact Hr1 |].
  split; [rewrite <- Zle_Qle; exact Hr2 |].
  split; [change 55 with (inject_Z 55); rewrite <- Zle_Qle; lia |].
  split.
  { unfold calculateStandardDeviation.
    destruct (map HRVData.value l) eqn:Em; [| discriminate].
    rewrite El in Em. discriminate Em. }
  split; [| reflexivity].
  unfold generateHRVInsights in Enotes.
  rewrite Elast, Hlast', Hlow in Enotes.
  assert (E3 : ltb (inject_Z (Z.of_nat (List.length l)) * 0.3)
                   (inject_Z (Z.of_nat (List.length (@nil HRVData.t)))) = false).
  { apply ltb_ge. pose proof (length_positive Hne) as Hpos.
    change (inject_Z (Z.of_nat (List.length (@nil HRVData.t)))) with 0.
    revert Hpos. generalize (inject_Z (Z.of_nat (List.length l))). intros n Hpos.
    lra. }
  rewrite E3 in Enotes. injection Enotes as <-.
  destruct (direction (analyzeHRVTrend l));
    destruct (significance (analyzeHRVTrend l)); cbn [app];
    eexists; (split; [| (left; reflexivity) || (right; reflexivity)]);
    cbn [In]; tauto.
Qed.

Lemma hrvCommand_generated_report_witness :
  exists r res,
    fst (hrvCommand wholeSqrt someClock 7 halves) = Returns r
    /\ resultOf r = Some res
    /\ Distribution.normal (distribution res) = 7%nat
    /\ List.length (next_actions r) = 3%nat.
Proof.
  assert (Hg : unitDraws halves) by (intros n; unfold halves; split; lra).
  assert (Hdays : (1 <= 7 <= 90)%Z) by lia.
  destruct (@hrvCommand_generated_report wholeSqrt someClock 7 halves Hdays Hg)
    as (r & res & E & Eres & Hd & _ & _ & _ & _ & _ & _ & _ & Ha).
  exists r, res. split; [exact E |]. split; [exact Eres |].
  rewrite Hd, Ha. split; reflexivity.
Defined.

End HrvReportFacts.

(* ================================================================== *)
(** ** The sleep report *)
(* ================================================================== *)

Section SleepCommandFacts.
Import MockData SleepCmd SleepReport SleepCommand Responses.

Lemma round_near (x : Q) :
  inject_Z (round x) <= x + (1 # 2) /\ x - (1 # 2) < inject_Z (round x).
Proof.
  unfold round. pose proof (Qfloor_le (x + (1 # 2))) as H1.
  pose proof (Qlt_floor (x + (1 # 2))) as H2.
  rewrite inject_Z_plus in H2. change (inject_Z 1) with 1 in H2.
  split; qlra.
Qed.

(** The bedtime set by [setHours] with an hour from 22 to 24. *)
Lemma bedtime_arith (l h m : Z) :
  (22 <= h <= 24)%Z -> (0 <= m <= 59)%Z ->
  let lb := ((l - l mod 86400000) + h * 3600000 + m * 60000 + l mod 60000)%Z in
  let b := ((lb mod 86400000) / 3600000 * 60 + (lb mod 3600000) / 60000)%Z in
  (1320 <= b < 1440 \/ 0 <= b < 60)%Z.
Proof.
  intros Hh Hm lb b. subst lb b.
  Z.to_euclidean_division_equations; lia.
Qed.

Lemma sleepDay_ranges (clk : Clock) (i : Z) (g : Rng) :
  unitDraws g ->
  generatedNight (fst (sleepDay clk i g)) /\ unitDraws (snd (sleepDay clk i g)).
Proof.
  intros Hg. split; [| now apply (unitDraws_advance 6)].
  unfold generatedNight.
  cbn [sleepDay bind Math_random ret fst
       SleepData.duration_hours SleepData.deep_sleep_hours SleepData.rem_sleep_hours
       SleepData.sleep_score SleepData.bedtime SleepData.wake_time].
  cbv [advance]. cbn [Nat.add].
  destruct (Hg 0%nat) as [H0 H0']. destruct (Hg 1%nat) as [H1 H1'].
  destruct (Hg 2%nat) as [H2 H2']. destruct (Hg 3%nat) as [H3 H3'].
  destruct (Hg 4%nat) as [H4 H4']. destruct (Hg 5%nat) as [H5 H5'].
  destruct (sleepDuration_range H0 H0') as [Hlo Hhi].
  set (d := sleepDuration (g 0%nat)) in *.
  set (deep := d * (0.15 + g 1%nat * 0.10)).
  set (rem := d * (0.20 + g 2%nat * 0.10)).
  assert (Hdeep : 0.975 <= deep /\ deep <= 0.25 * d).
  { subst deep. generalize dependent (g 1%nat). intros r Hr Hr'. split; nra. }
  assert (Hrem : 1.3 <= rem /\ rem <= 0.3 * d).
  { subst rem. generalize dependent (g 2%nat). intros r Hr Hr'. split; nra. }
  destruct Hdeep as [Hd1 Hd2]. destruct Hrem as [Hr1 Hr2].
  destruct (round_near (d * 10)) as [Nd1 Nd2].
  destruct (round_near (deep * 10)) as [Ne1 Ne2].
  destruct (round_near (rem * 10)) as [Nr1 Nr2].
  assert (Rd : (65 <= round (d * 10) <= 90)%Z)
    by (apply round_range; cbv [inject_Z]; lra).
  assert (Re : (10 <= round (deep * 10) <= 22)%Z).
  { split; [apply round_ge; cbv [inject_Z]; lra |].
    apply Z.lt_succ_r. change (Z.succ 22) with 23%Z.
    apply round_lt. cbv [inject_Z]. lra. }
  assert (Rr : (13 <= round (rem * 10) <= 27)%Z).
  { split; [apply round_ge; cbv [inject_Z]; lra |].
    apply Z.lt_succ_r. change (Z.succ 27) with 28%Z.
    apply round_lt. cbv [inject_Z]. lra. }
  destruct Rd as [Rd1 Rd2]. destruct Re as [Re1 Re2]. destruct Rr as [Rr1 Rr2].
  rewrite Zle_Qle in Rd1, Rd2, Re1, Re2, Rr1, Rr2.
  split; [split; qlra |]. split; [split; qlra |]. split; [split; qlra |].
  split; [qlra |].
  split.
  { eexists. split; [reflexivity |]. apply round_range; cbv [inject_Z]; lra. }
  rewrite !timeToMinutes_timeHHMM.
  split; discriminate.
Qed.

(** In a zone with a constant offset the bedtime is the local time that
    [setHours] was given. *)
Lemma sleepDay_bedtime (clk : Clock) (i : Z) (g : Rng) :
  constantOffset clk -> unitDraws g ->
  eveningBedtime (fst (sleepDay clk i g)) /\ unitDraws (snd (sleepDay clk i g)).
Proof.
  intros Hzone Hg. split; [| now apply (unitDraws_advance 6)].
  destruct (constantOffset_shift Hzone) as (z & Hl & Hu).
  unfold eveningBedtime.
  cbn [sleepDay bind Math_random ret fst SleepData.bedtime].
  cbv [advance]. cbn [Nat.add].
  destruct (Hg 3%nat) as [H3 H3']. destruct (Hg 4%nat) as [H4 H4'].
  rewrite timeToMinutes_timeHHMM.
  eexists. split; [reflexivity |].
  set (h := (22 + floor (g 3%nat * 3))%Z).
  set (m := floor (g 4%nat * 60)).
  assert (Hh : (22 <= h <= 24)%Z).
  { subst h.
    assert (0 <= floor (g 3%nat * 3))%Z by (apply floor_ge; cbv [inject_Z]; lra).
    assert (floor (g 3%nat * 3) < 3)%Z by (apply floor_lt; cbv [inject_Z]; lra).
    lia. }
  assert (Hm : (0 <= m <= 59)%Z).
  { subst m.
    assert (0 <= floor (g 4%nat * 60))%Z by (apply floor_ge; cbv [inject_Z]; lra).
    assert (floor (g 4%nat * 60) < 60)%Z by (apply floor_lt; cbv [inject_Z]; lra).
    lia. }
  unfold getHours, getMinutes.
  set (l := localTime clk (daysAgo clk i)).
  replace (localTime clk (setHours clk (daysAgo clk i) h m))
    with ((l - l mod msPerDay) + h * msPerHour + m * msPerMinute
          + l mod msPerMinute)%Z
    by (unfold setHours; fold l; rewrite Hu, Hl; ring).
  apply bedtime_arith; assumption.
Qed.

Lemma generateMockSleep_samples (clk : Clock) (n : Z) (g : Rng) :
  unitDraws g ->
  Forall generatedNight (fst (generateMockSleep clk n g))
  /\ unitDraws (snd (generateMockSleep clk n g)).
Proof.
  intros Hg. unfold generateMockSleep.
  apply (@countDown_Forall _ generatedNight unitDraws (sleepDay clk)); [| exact Hg].
  intros i g' Hg'. now apply sleepDay_ranges.
Qed.

Lemma generateMockSleep_bedtimes (clk : Clock) (n : Z) (g : Rng) :
  constantOffset clk -> unitDraws g ->
  Forall eveningBedtime (fst (generateMockSleep clk n g)).
Proof.
  intros Hzone Hg. unfold generateMockSleep.
  apply (@countDown_Forall _ eveningBedtime unitDraws (sleepDay clk)); [| exact Hg].
  intros i g' Hg'. now apply sleepDay_bedtime.
Qed.

(** X12. Whatever is drawn, every generated night lasts 6.5 to 9 hours, of which
    1 to 2.3 hours are deep sleep and 1.3 to 2.7 hours REM sleep, the two
    together never more than the night; its score is a whole number from 60
    to 95; and both of its times are read back by [timeToMinutes]. In a time
    zone with a constant offset from UTC its bedtime lies from 22:00 to
    00:59. *)
Theorem generated_night_ranges (clk : Clock) (g : Rng) (n : Z) :
  unitDraws g ->
  Forall generatedNight (fst (generateMockSleep clk n g))
  /\ (constantOffset clk ->
      Forall eveningBedtime (fst (generateMockSleep clk n g))).
Proof.
  intros Hg. split; [now apply generateMockSleep_samples |].
  intros Hzone. now apply generateMockSleep_bedtimes.
Qed.

Lemma generated_night_ranges_witness :
  unitDraws halves
  /\ Forall generatedNight (fst (generateMockSleep someClock 7 halves))
  /\ Forall eveningBedtime (fst (generateMockSleep someClock 7 halves)).
Proof.
  assert (Hg : unitDraws halves) by (intros n; unfold halves; split; lra).
  destruct (@generated_night_ranges someClock halves 7 Hg) as [H1 H2].
  split; [exact Hg |]. split; [exact H1 |].
  apply H2. exists 3600000%Z. split; intros x; reflexivity.
Defined.

Lemma analyzeSleepPattern_returns (data : list SleepData.t) :
  data <> [] ->
  exists best worst,
    analyzeSleepPattern data
    = Returns {| duration_trend := calculateTrend (map SleepData.duration_hours data);
                 quality_trend := calculateTrend (map SleepData.sleep_score data);
                 sufficient_sleep_days :=
                   List.length (filter (fun d => Qle_bool 7 d)
                                       (map SleepData.duration_hours data));
                 total_days := List.length data;
                 best_night := best;
                 worst_night := worst |}.
Proof.
  intros Hne. unfold analyzeSleepPattern.
  destruct (maximum (map SleepData.sleep_score data)) as [mx|] eqn:Emax;
    [| destruct data; [congruence | discriminate]].
  destruct (minimum (map SleepData.sleep_score data)) as [mn|] eqn:Emin;
    [| destruct data; [congruence | discriminate]].
  destruct (maximum_spec _ Emax) as [Hmax _].
  destruct (minimum_spec _ Emin) as [Hmin _].
  destruct (nightOf_member data mx Hmax) as (best & Ebest & _).
  destruct (nightOf_member data mn Hmin) as (worst & Eworst & _).
  rewrite Ebest, Eworst. now exists best, worst.
Qed.

Lemma insight_texts_differ :
  Forall (fun t => t <> severelyDeprived /\ t <> shortNight)
         [durationImproving; durationDeclining; qualityImproving; qualityDeclining;
          seldomSufficient; mostlySufficient]
  /\ severelyDeprived <> shortNight.
Proof.
  split; [repeat constructor |]; apply String.eqb_neq; vm_compute; reflexivity.
Qed.

(** The two insights on the last night, among the insights returned. *)
Lemma generateSleepInsights_last (data : list SleepData.t) (analysis : SleepPattern)
    (last : SleepData.t) :
  fromEnd 1 data = Some last ->
  exists notes,
    generateSleepInsights data analysis = Returns notes
    /\ (In severelyDeprived notes <-> SleepData.duration_hours last < 6)
    /\ (In shortNight notes
        <-> 6 <= SleepData.duration_hours last /\ SleepData.duration_hours last < 7).
Proof.
  intros Elast. unfold generateSleepInsights. rewrite Elast.
  eexists. split; [reflexivity |].
  destruct insight_texts_differ as [Hd Hsd].
  inversion Hd as [|? ? [A1 A2] Hd1]; subst. inversion Hd1 as [|? ? [B1 B2] Hd2]; subst.
  inversion Hd2 as [|? ? [C1 C2] Hd3]; subst. inversion Hd3 as [|? ? [D1 D2] Hd4]; subst.
  inversion Hd4 as [|? ? [E1 E2] Hd5]; subst. inversion Hd5 as [|? ? [F1 F2] _]; subst.
  match goal with
  | |- (In _ (?i1 ++ ?i2 ++ ?i3 ++ ?i4) <-> _) /\ _ =>
      assert (H1 : ~ In severelyDeprived i1 /\ ~ In shortNight i1)
        by (destruct (duration_trend analysis); cbn [In]; tauto);
      assert (H2 : ~ In severelyDeprived i2 /\ ~ In shortNight i2)
        by (destruct (quality_trend analysis); cbn [In]; tauto);
      assert (H3 : ~ In severelyDeprived i3 /\ ~ In shortNight i3)
        by (destruct (total_days analysis =? 0)%nat;
            [destruct (sufficient_sleep_days analysis =? 0)%nat
            | match goal with
              | |- context [ltb ?a 50] =>
                  destruct (ltb a 50); [| destruct (ltb 80 a)]
              end];
            cbn [In]; tauto);
      revert H1 H2 H3; generalize i1 i2 i3
  end.
  intros i1 i2 i3 [H1 H1'] [H2 H2'] [H3 H3'].
  rewrite !in_app_iff.
  destruct (ltb (SleepData.duration_hours last) 6) eqn:L6;
    [apply ltb_lt in L6 | apply ltb_ge in L6;
     destruct (ltb (SleepData.duration_hours last) 7) eqn:L7;
     [apply ltb_lt in L7 | apply ltb_ge in L7]];
    cbn [In]; split; split;
    try (intros [H | [H | [H | [H | []]]]]; try tauto; try congruence);
    try (intros H; try lra; try tauto; exfalso; lra);
    try (exfalso; lra);
    try (split; lra).
    all: try (symmetry in H; contradiction).
Qed.

Lemma timeSpread_some (Math_sqrt : Q -> Q) (times : list (option Z)) :
  times <> [] -> Forall (fun o => o <> None) times ->
  timeSpread Math_sqrt times <> None.
Proof.
  intros Hne Hall. destruct (allNumbers_some Hall) as (l & E & Hlen).
  unfold timeSpread. rewrite E.
  destruct l as [|t ts]; [destruct times; [congruence | discriminate] | discriminate].
Qed.

(** The answer of [sleepCommand] to a number of days from 1 to 90, in terms
    of the generated series. *)
Lemma sleepCommand_report (Math_sqrt : Q -> Q) (clk : Clock) (days : Z) (g : Rng) :
  (1 <= days <= 90)%Z ->
  exists first rest last analysis notes,
    fst (generateMockSleep clk days g) = first :: rest
    /\ fromEnd 1 (first :: rest) = Some last
    /\ analyzeSleepPattern (first :: rest) = Returns analysis
    /\ generateSleepInsights (first :: rest) analysis = Returns notes
    /\ sleepCommand Math_sqrt clk days g
       = (Returns
            (success (utf16 "sleep --days " ++ showInt days)
               {| period :=
                    {| Period.days := days;
                       Period.start_date := SleepData.date first;
                       Period.end_date := SleepData.date last |};
                  last_night :=
                    {| LastNight.duration := SleepData.duration_hours last;
                       LastNight.score := SleepData.sleep_score last;
                       LastNight.bedtime := SleepData.bedtime last;
                       LastNight.wake_time := SleepData.wake_time last;
                       LastNight.deep_sleep := SleepData.deep_sleep_hours last;
                       LastNight.rem_sleep := SleepData.rem_sleep_hours last |};
                  averages :=
                    {| Averages.duration :=
                         averageTenths SleepData.duration_hours (first :: rest) days;
                       Averages.score :=
                         inject_Z (round (sum (map SleepData.sleep_score (first :: rest))
                                          / inject_Z days));
                       Averages.deep_sleep :=
                         averageTenths SleepData.deep_sleep_hours (first :: rest) days;
                       Averages.rem_sleep :=
                         averageTenths SleepData.rem_sleep_hours (first :: rest) days;
                       Averages.bedtime :=
                         calculateAverageTime (map SleepData.bedtime (first :: rest));
                       Averages.wake_time :=
                         calculateAverageTime (map SleepData.wake_time (first :: rest)) |};
                  patterns := analysis;
                  sleep_debt := calculateSleepDebt (first :: rest);
                  consistency := calculateSleepConsistency Math_sqrt (first :: rest);
                  data := sliceLast 10 (first :: rest);
                  insights := notes |}
               ((if ltb (SleepData.duration_hours last) 7
                 then [COMMON_ACTIONS.ALERTS] else [])
                ++ [COMMON_ACTIONS.STATUS; COMMON_ACTIONS.HRV]
                ++ (if (days =? 7)%Z
                    then [action "health sleep --days 30" "View monthly sleep patterns"]
                    else [])
                ++ (match bedtime_variance
                            (calculateSleepConsistency Math_sqrt (first :: rest)) with
                    | Some v =>
                        if (60 <? v)%Z
                        then [action "health sleep --days 14"
                                     "Analyze bedtime consistency over 2 weeks"]
                        else []
                    | None => []
                    end))),
          snd (generateMockSleep clk days g)).
Proof.
  intros Hdays. unfold sleepCommand.
  assert (E : ((days <? 1) || (90 <? days))%Z = false).
  { apply orb_false_iff. split; apply Z.ltb_ge; lia. }
  rewrite E. unfold bind.
  pose proof (countDown_length (sleepDay clk) (Z.to_nat days) g) as Hlen.
  fold (generateMockSleep clk days) in Hlen.
  destruct (generateMockSleep clk days g) as [sleepData g1]. cbn [fst snd] in *.
  destruct sleepData as [|first rest]; [simpl in Hlen; lia |].
  destruct (@fromEnd_nonempty _ (first :: rest)) as [last Elast]; [discriminate |].
  destruct (@analyzeSleepPattern_returns (first :: rest)) as (best & worst & Ean);
    [discriminate |].
  destruct (generateSleepInsights_last (first :: rest)
              {| duration_trend :=
                   calculateTrend (map SleepData.duration_hours (first :: rest));
                 quality_trend :=
                   calculateTrend (map SleepData.sleep_score (first :: rest));
                 sufficient_sleep_days :=
                   List.length (filter (fun d => Qle_bool 7 d)
                                  (map SleepData.duration_hours (first :: rest)));
                 total_days := List.length (first :: rest);
                 best_night := best;
                 worst_night := worst |} Elast) as (notes & Enotes & _).
  exists first, rest, last. do 2 eexists.
  split; [reflexivity |]. split; [exact Elast |].
  split; [exact Ean |]. split; [exact Enotes |].
  rewrite Ean, Elast, Enotes. unfold ret. f_equal. f_equal.
  destruct (ltb (SleepData.duration_hours last) 7); destruct (days =? 7)%Z;
    reflexivity.
Qed.


Lemma alert_action_differs :
  ~ In COMMON_ACTIONS.ALERTS
       [COMMON_ACTIONS.STATUS; COMMON_ACTIONS.HRV; COMMON_ACTIONS.SLEEP;
        action "health sleep --days 30" "View monthly sleep patterns";
        action "health sleep --days 14" "Analyze bedtime consistency over 2 weeks"].
Proof.
  cbn [In]. intros H.
  repeat (destruct H as [H | H];
          [apply (f_equal command) in H; vm_compute in H; discriminate H |]).
  exact H.
Qed.

(** X14. The sleep report on generated data, whatever is drawn: the last night and
    the average night last 6.5 to 9 hours and the average score lies from 60
    to 95; the insights never say that the last night was severely sleep
    deprived, and they call it short exactly when it was under 7 hours, which
    is also exactly when the alert command is among the next actions; and no
    field of the consistency is [NaN]. *)
Theorem sleepCommand_generated_report
    (Math_sqrt : Q -> Q) (clk : Clock) (days : Z) (g : Rng) :
  (1 <= days <= 90)%Z -> unitDraws g ->
  exists r res,
    fst (sleepCommand Math_sqrt clk days g) = Returns r
    /\ resultOf r = Some res
    /\ (6.5 <= LastNight.duration (last_night res)
        /\ LastNight.duration (last_night res) <= 9)
    /\ (6.5 <= Averages.duration (averages res)
        /\ Averages.duration (averages res) <= 9)
    /\ (60 <= Averages.score (averages res) /\ Averages.score (averages res) <= 95)
    /\ ~ In severelyDeprived (insights res)
    /\ (In shortNight (insights res) <-> LastNight.duration (last_night res) < 7)
    /\ (In COMMON_ACTIONS.ALERTS (next_actions r)
        <-> LastNight.duration (last_night res) < 7)
    /\ bedtime_variance (consistency res) <> None
    /\ wake_time_variance (consistency res) <> None
    /\ consistency_score (consistency res) <> None.
Proof.
  intros Hdays Hg.
  destruct (@sleepCommand_report Math_sqrt clk days g Hdays)
    as (first & rest & last & analysis & notes
        & Edata & Elast & Ean & Enotes & Ecmd).
  destruct (generateMockSleep_samples clk days Hg) as [Hall _].
  pose proof (countDown_length (sleepDay clk) (Z.to_nat days) g) as Hlen.
  fold (generateMockSleep clk days) in Hlen.
  rewrite Edata in Hall, Hlen.
  remember (first :: rest) as l eqn:El.
  assert (Hne : l <> []) by (rewrite El; discriminate).
  assert (Hlast : generatedNight last).
  { destruct (fromEnd_snoc _ Elast) as [init Einit].
    rewrite Forall_forall in Hall. apply Hall.
    rewrite Einit. apply in_or_app. right. now left. }
  destruct Hlast as ((Hl1 & Hl2) & _).
  destruct (generateSleepInsights_last l analysis Elast) as (notes' & Enotes' & Hsev & Hshort).
  rewrite Enotes in Enotes'. injection Enotes' as <-.
  assert (Hn : inject_Z (Z.of_nat (List.length l)) = inject_Z days)
    by (rewrite Hlen, Z2Nat.id by lia; reflexivity).
  assert (Hdur : 6.5 <= sum (map SleepData.duration_hours l) / inject_Z days
                 /\ sum (map SleepData.duration_hours l) / inject_Z days <= 9).
  { rewrite <- Hn, <- (length_map SleepData.duration_hours l). apply mean_bounds.
    - destruct l; [congruence | discriminate].
    - apply Forall_forall. intros x Hx. apply in_map_iff in Hx as [n [<- Hn']].
      rewrite Forall_forall in Hall. destruct (Hall n Hn') as (H & _). exact H. }
  assert (Hscore : 60 <= sum (map SleepData.sleep_score l) / inject_Z days
                   /\ sum (map SleepData.sleep_score l) / inject_Z days <= 95).
  { rewrite <- Hn, <- (length_map SleepData.sleep_score l). apply mean_bounds.
    - destruct l; [congruence | discriminate].
    - apply Forall_forall. intros x Hx. apply in_map_iff in Hx as [n [<- Hn']].
      rewrite Forall_forall in Hall.
      destruct (Hall n Hn') as (_ & _ & _ & _ & (z & -> & Hz) & _).
      change 60 with (inject_Z 60). change 95 with (inject_Z 95).
      rewrite <- !Zle_Qle. exact Hz. }
  assert (Htimes : Forall timesReadable l).
  { eapply Forall_impl; [| exact Hall].
    intros n (_ & _ & _ & _ & _ & Hb & Hw). split; [exact Hb | exact Hw]. }
  rewrite Ecmd. cbn [fst]. do 2 eexists.
  split; [reflexivity |]. split; [reflexivity |].
  cbv beta iota delta [last_night averages insights consistency next_actions success
                       LastNight.duration Averages.duration Averages.score].
  split; [split; assumption |].
  split.
  { unfold averageTenths. destruct Hdur as [Hd1 Hd2].
    revert Hd1 Hd2.
    generalize (sum (map SleepData.duration_hours l) / inject_Z days).
    intros m Hd1 Hd2.
    assert (R : (65 <= round (m * 10) <= 90)%Z)
      by (apply round_range; cbv [inject_Z]; lra).
    destruct R as [R1 R2]. rewrite Zle_Qle in R1, R2. split; qlra. }
  split.
  { destruct Hscore as [Hs1 Hs2].
    change 60 with (inject_Z 60). change 95 with (inject_Z 95).
    rewrite <- !Zle_Qle. apply round_range; assumption. }
  split; [rewrite Hsev; lra |].
  split; [rewrite Hshort; split; [tauto | intros H; split; lra] |].
  split.
  { pose proof alert_action_differs as Hdiff. cbn [In] in Hdiff.
    destruct (ltb (SleepData.duration_hours last) 7) eqn:L7;
      [apply ltb_lt in L7 | apply ltb_ge in L7].
    - split; [intros _; exact L7 | intros _; now left].
    - split; [| intros H; exfalso; lra].
      intros H. exfalso. cbn [app In] in H.
      destruct H as [H | [H | H]]; [tauto | tauto |].
      apply in_app_iff in H. destruct H as [H | H].
      + destruct (days =? 7)%Z; cbn [In] in H; tauto.
      + destruct (bedtime_variance (calculateSleepConsistency Math_sqrt l)) as [v|];
          [destruct (60 <? v)%Z |]; cbn [In] in H; tauto. }
  unfold calculateSleepConsistency.
  cbv beta iota delta [bedtime_variance wake_time_variance consistency_score].
  assert (Hb : timeSpread Math_sqrt (map (fun s => timeToMinutes (SleepData.bedtime s)) l)
               <> None).
  { apply timeSpread_some.
    - destruct l; [congruence | discriminate].
    - apply Forall_forall. intros o Ho. apply in_map_iff in Ho as [n [<- Hn']].
      rewrite Forall_forall in Htimes. apply (Htimes n Hn'). }
  assert (Hw : timeSpread Math_sqrt (map (fun s => timeToMinutes (SleepData.wake_time s)) l)
               <> None).
  { apply timeSpread_some.
    - destruct l; [congruence | discriminate].
    - apply Forall_forall. intros o Ho. apply in_map_iff in Ho as [n [<- Hn']].
      rewrite Forall_forall in Htimes. apply (Htimes n Hn'). }
  split; [exact Hb |]. split; [exact Hw |].
  destruct (timeSpread Math_sqrt (map (fun s => timeToMinutes (SleepData.bedtime s)) l));
    [| congruence].
  destruct (timeSpread Math_sqrt (map (fun s => timeToMinutes (SleepData.wake_time s)) l));
    [discriminate | congruence].
Qed.

Lemma sleepCommand_generated_report_witness :
  exists r res,
    fst (sleepCommand wholeSqrt someClock 7 halves) = Returns r
    /\ resultOf r = Some res
    /\ ~ In severelyDeprived (insights res)
    /\ 6.5 <= LastNight.duration (last_night res).
Proof.
  assert (Hg : unitDraws halves) by (intros n; unfold halves; split; lra).
  assert (Hdays : (1 <= 7 <= 90)%Z) by lia.
  destruct (@sleepCommand_generated_report wholeSqrt someClock 7 halves Hdays Hg)
    as (r & res & E & Eres & [Hl _] & _ & _ & Hsev & _).
  exists r, res. split; [exact E |]. split; [exact Eres |].
  split; [exact Hsev | exact Hl].
Defined.

End SleepCommandFacts.

(* ================================================================== *)
(** ** The status overview *)
(* ================================================================== *)

Section StatusFacts.
Import MockData StatusCmd Responses.
Local Open Scope string_scope.
Local Open Scope list_scope.
Local Open Scope Q_scope.

Lemma floor_range (n : Z) (r : Q) :
  (0 < n)%Z -> 0 <= r -> r < 1 ->
  (0 <= floor (r * inject_Z n) <= n - 1)%Z.
Proof.
  intros Hn H0 H1.
  assert (Hq : 0 < inject_Z n) by (change 0 with (inject_Z 0); now rewrite <- Zlt_Qlt).
  split.
  - apply floor_ge. change (inject_Z 0) with 0. nra.
  - apply Z.lt_succ_r. replace (Z.succ (n - 1)) with n by lia.
    apply floor_lt. nra.
Qed.

(** The status on generated data, whatever is drawn. *)
Lemma generateMockStatus_generated (clk : Clock) (g : Rng) :
  unitDraws g ->
  exists st,
    fst (generateMockStatus clk g) = Returns st
    /\ HealthStatus.date st = isoDate (now clk)
    /\ generatedStatus st.
Proof.
  intros Hg. unfold generateMockStatus, bind.
  destruct (generateMockHRV_samples clk 7 Hg) as [HFh Hg1].
  pose proof (countDown_length (hrvDay clk) (Z.to_nat 7) g) as HLh.
  fold (generateMockHRV clk 7) in HLh.
  destruct (generateMockHRV clk 7 g) as [recentHRV g1]. cbn [fst snd] in *.
  destruct (generateMockSleep_samples clk 7 Hg1) as [HFs Hg2].
  pose proof (countDown_length (sleepDay clk) (Z.to_nat 7) g1) as HLs.
  fold (generateMockSleep clk 7) in HLs.
  destruct (generateMockSleep clk 7 g1) as [recentSleep g2]. cbn [fst snd] in *.
  change (Z.to_nat 7) with 7%nat in HLh, HLs.
  destruct (fromEnd_last HFh) as [currentHRV [Eh (Hcat & z & Ez & Hz)]]; [lia |].
  destruct (fromEnd_last HFs) as [lastNightSleep [Es Hnight]]; [lia |].
  rewrite Eh, Es.
  destruct Hnight as ((Hn1 & Hn2) & _ & _ & _ & (sc & Esc & Hsc) & _).
  assert (Hv : 35 <= HRVData.value currentHRV /\ HRVData.value currentHRV <= 55).
  { rewrite Ez. change 35 with (inject_Z 35). change 55 with (inject_Z 55).
    rewrite <- !Zle_Qle. exact Hz. }
  assert (E1 : ltb (HRVData.value currentHRV) 30 = false) by (apply ltb_ge; lra).
  assert (E2 : ltb (SleepData.duration_hours lastNightSleep) 6 = false)
    by (apply ltb_ge; lra).
  rewrite E1, E2.
  cbn [Math_random ret fst snd app].
  cbv [advance]. cbn [Nat.add].
  eexists. split; [reflexivity |]. split; [reflexivity |].
  unfold generatedStatus.
  cbn [HealthStatus.hrv HealthStatus.sleep HealthStatus.activity HealthStatus.alerts
       HealthStatus.category HealthStatus.current HealthStatus.last_night_hours
       HealthStatus.avg_7_day HealthStatus.score HealthStatus.steps
       HealthStatus.active_calories HealthStatus.exercise_minutes].
  split; [exact Hcat |]. split; [exact Hv |]. split; [split; assumption |].
  split.
  { assert (Hmean : 6.5 <= sum (map SleepData.duration_hours recentSleep) / 7
                    /\ sum (map SleepData.duration_hours recentSleep) / 7 <= 9).
    { change 7 with (inject_Z (Z.of_nat 7)). rewrite <- HLs.
      rewrite <- (length_map SleepData.duration_hours recentSleep).
      apply mean_bounds.
      - destruct recentSleep; [discriminate | discriminate].
      - apply Forall_forall. intros x Hx. apply in_map_iff in Hx as [n [<- Hn']].
        rewrite Forall_forall in HFs. destruct (HFs n Hn') as (H & _). exact H. }
    revert Hmean. generalize (sum (map SleepData.duration_hours recentSleep) / 7).
    intros m [Hm1 Hm2].
    assert (R : (65 <= round (m * 10) <= 90)%Z)
      by (apply round_range; cbv [inject_Z]; lra).
    destruct R as [R1 R2]. rewrite Zle_Qle in R1, R2. split; qlra. }
  split.
  { rewrite Esc. change 60 with (inject_Z 60). change 95 with (inject_Z 95).
    rewrite <- !Zle_Qle. exact Hsc. }
  destruct (Hg2 0%nat) as [A0 A1]. destruct (Hg2 1%nat) as [B0 B1].
  destruct (Hg2 2%nat) as [C0 C1].
  destruct (@floor_range 3000 (g2 0%nat)) as [Fa1 Fa2]; [lia | assumption | assumption |].
  destruct (@floor_range 200 (g2 1%nat)) as [Fb1 Fb2]; [lia | assumption | assumption |].
  destruct (@floor_range 40 (g2 2%nat)) as [Fc1 Fc2]; [lia | assumption | assumption |].
  change (inject_Z 3000) with 3000 in Fa1, Fa2.
  change (inject_Z 200) with 200 in Fb1, Fb2.
  change (inject_Z 40) with 40 in Fc1, Fc2.
  change (3000 - 1)%Z with 2999%Z in Fa2. change (200 - 1)%Z with 199%Z in Fb2.
  change (40 - 1)%Z with 39%Z in Fc2.
  rewrite Zle_Qle in Fa1, Fa2, Fb1, Fb2, Fc1, Fc2.
  split; [split; qlra |]. split; [split; qlra |]. split; [split; qlra |].
  reflexivity.
Qed.

(** X15. Whatever is drawn, the generated status is dated today and within its
    ranges: a [normal] HRV from 35 to 55, a last night and a weekly average
    from 6.5 to 9 hours, a score from 60 to 95, 8500 to 11499 steps, 450 to
    649 active calories, 25 to 64 minutes of exercise, and no alert. *)
Theorem generated_status_ranges (clk : Clock) (g : Rng) :
  unitDraws g ->
  exists st,
    fst (generateMockStatus clk g) = Returns st
    /\ HealthStatus.date st = isoDate (now clk)
    /\ generatedStatus st.
Proof. apply generateMockStatus_generated. Qed.

Lemma generated_status_ranges_witness :
  unitDraws halves
  /\ exists st,
       fst (generateMockStatus someClock halves) = Returns st
       /\ HealthStatus.steps (HealthStatus.activity st) <= 11499.
Proof.
  assert (Hg : unitDraws halves) by (intros n; unfold halves; split; lra).
  split; [exact Hg |].
  destruct (@generated_status_ranges someClock halves Hg) as (st & E & _ & H).
  exists st. split; [exact E |].
  destruct H as (_ & _ & _ & _ & _ & (_ & Hsteps) & _). exact Hsteps.
Defined.

Lemma In_existsb (x : string) (l : list string) :
  In x l <-> existsb (String.eqb x) l = true.
Proof.
  rewrite existsb_exists. split.
  - intros H. exists x. split; [exact H | apply String.eqb_refl].
  - intros (y & Hy & E). apply String.eqb_eq in E. now subst.
Qed.

Lemma NoDup_by_nodup (l : list string) : nodup string_dec l = l -> NoDup l.
Proof. intros <-. apply NoDup_nodup. Qed.

(** X16. The recommendations are never empty and never repeat one; there are six
    at most; the encouragement to keep up the good work is among them only
    when it is the only one, which is exactly when the HRV is not low and not
    trending down, the last night lasted 7 hours or more and there were 7500
    steps or more. *)
Theorem recommendations_never_empty :
  forall status : HealthStatus.t,
    let recs := generateRecommendations status in
    recs <> []
    /\ (List.length recs <= 6)%nat
    /\ NoDup recs
    /\ (In keepUp recs <-> recs = [keepUp])
    /\ (recs = [keepUp]
        <-> HealthStatus.category (HealthStatus.hrv status) <> low
            /\ 7 <= HealthStatus.last_night_hours (HealthStatus.sleep status)
            /\ 7500 <= HealthStatus.steps (HealthStatus.activity status)
            /\ HealthStatus.trend (HealthStatus.hrv status) <> HealthStatus.down).
Proof.
  intros status recs. subst recs. unfold generateRecommendations.
  destruct (HealthStatus.category (HealthStatus.hrv status));
    (destruct (ltb (HealthStatus.last_night_hours (HealthStatus.sleep status)) 7)
       eqn:E1; [apply ltb_lt in E1 | apply ltb_ge in E1]);
    (destruct (ltb (HealthStatus.steps (HealthStatus.activity status)) 7500)
       eqn:E2; [apply ltb_lt in E2 | apply ltb_ge in E2]);
    destruct (HealthStatus.trend (HealthStatus.hrv status));
    cbn [app];
    (split; [discriminate |]);
    (split; [cbn [List.length]; lia |]);
    (split; [apply NoDup_by_nodup; vm_compute; reflexivity |]);
    (split;
     [split; intros H;
      [first [reflexivity
             | exfalso; apply In_existsb in H; vm_compute in H; discriminate H]
      | first [left; reflexivity | exfalso; vm_compute in H; discriminate H]]
     |]);
    (split;
     [intros H;
      first [repeat split; first [discriminate | assumption]
            | exfalso; vm_compute in H; discriminate H]
     | intros (H1 & H2 & H3 & H4);
       first [reflexivity | exfalso; first [congruence | lra]]]).
Qed.

(** X17. The overview of generated data, whatever is drawn: the status is within
    its ranges; the summary reports a normal recovery state and never a low
    activity; no recommendation is about rest or walking; and the next
    actions are the HRV, sleep and alert commands, followed by the review of
    the week's sleep exactly when the last night was under 7 hours. *)
Theorem statusCommand_generated (clk : Clock) (g : Rng) :
  unitDraws g ->
  exists r res,
    fst (statusCommand clk g) = Returns r
    /\ resultOf r = Some res
    /\ ok r = true
    /\ generatedStatus (status res)
    /\ (exists sleepPart activityPart,
          summary res
          = String.concat " • " ["🟡 Normal recovery state"; sleepPart; activityPart]
          /\ In sleepPart ["😴 Well rested"; "😐 Adequate sleep"; "😵 Sleep deprived"]
          /\ In activityPart ["🚶 Very active"; "🚶 Moderately active"])
    /\ Forall (fun t => In t ["Prioritize earlier bedtime tonight";
                              "Consider sleep hygiene improvements";
                              "Monitor stress levels and recovery practices";
                              keepUp])
              (recommendations res)
    /\ next_actions r
       = [COMMON_ACTIONS.HRV; COMMON_ACTIONS.SLEEP; COMMON_ACTIONS.ALERTS]
         ++ (if ltb (HealthStatus.last_night_hours (HealthStatus.sleep (status res))) 7
             then [action "health sleep --days 7" "Review sleep patterns this week"]
             else []).
Proof.
  intros Hg. unfold statusCommand, bind.
  destruct (generateMockStatus_generated clk Hg) as (st & E & _ & Hst).
  destruct (generateMockStatus clk g) as [o g1]. cbn [fst] in E. subst o.
  cbn [ret fst]. do 2 eexists.
  split; [reflexivity |]. split; [reflexivity |]. split; [reflexivity |].
  cbn [status summary recommendations next_actions success].
  split; [exact Hst |].
  destruct Hst as (Hcat & _ & _ & _ & _ & (Hs1 & Hs2) & _ & _ & Hal).
  assert (E2 : ltb (HealthStatus.steps (HealthStatus.activity st)) 7500 = false)
    by (apply ltb_ge; lra).
  split; [| split].
  - unfold generateHealthSummary. rewrite Hcat.
    assert (E3 : Qle_bool 7500 (HealthStatus.steps (HealthStatus.activity st)) = true)
      by (apply Qle_bool_iff; lra).
    rewrite E3.
    do 2 eexists. split; [reflexivity |].
    split.
    + destruct (Qle_bool 8 _); [| destruct (Qle_bool 7 _)]; cbn [In]; tauto.
    + destruct (Qle_bool 10000 _); cbn [In]; tauto.
  - unfold generateRecommendations. rewrite Hcat, E2.
    destruct (ltb (HealthStatus.last_night_hours (HealthStatus.sleep st)) 7);
      destruct (HealthStatus.trend (HealthStatus.hrv st)); cbn [app];
      apply Forall_forall; intros t Ht; cbn [In] in Ht |- *; tauto.
  - rewrite Hcat, Hal. cbn [List.length Nat.ltb Nat.leb app].
    destruct (ltb (HealthStatus.last_night_hours (HealthStatus.sleep st)) 7);
      reflexivity.
Qed.

Lemma statusCommand_generated_witness :
  exists r res,
    fst (statusCommand someClock halves) = Returns r
    /\ resultOf r = Some res
    /\ ok r = true
    /\ HealthStatus.alerts (status res) = [].
Proof.
  assert (Hg : unitDraws halves) by (intros n; unfold halves; split; lra).
  destruct (@statusCommand_generated someClock halves Hg)
    as (r & res & E & Eres & Hok & Hst & _).
  exists r, res. split; [exact E |]. split; [exact Eres |]. split; [exact Hok |].
  destruct Hst as (_ & _ & _ & _ & _ & _ & _ & _ & Hal). exact Hal.
Defined.

End StatusFacts.

(* ================================================================== *)
(** ** The alert check *)
(* ================================================================== *)

Section AlertFacts.
Import MockData AlertCmd Responses.
Local Open Scope string_scope.
Local Open Scope list_scope.
Local Open Scope Q_scope.

(** X18. In a time zone with a constant offset from UTC the next check is at
    08:00:00.000 local time of the next local day, more than 8 and at most 32
    hours from now. *)
Theorem next_check_is_eight_next_morning :
  forall clk : Clock,
    constantOffset clk ->
    let t := getNextCheckTime clk in
    getHours clk t = 8%Z
    /\ getMinutes clk t = 0%Z
    /\ (localTime clk t mod msPerMinute = 0)%Z
    /\ localDay clk t = (localDay clk (now clk) + 1)%Z
    /\ (8 * msPerHour < t - now clk <= 32 * msPerHour)%Z.
Proof.
  intros clk Hzone t. subst t.
  destruct (constantOffset_shift Hzone) as (z & Hl & Hu).
  unfold getNextCheckTime, getHours, getMinutes, localDay.
  rewrite !Hu, !Hl.
  unfold msPerDay, msPerHour, msPerMinute.
  generalize (now clk). intros n.
  repeat split; Z.to_euclidean_division_equations; lia.
Qed.

Lemma next_check_is_eight_next_morning_witness :
  constantOffset someClock
  /\ getNextCheckTime someClock = 1700031600000%Z
  /\ getHours someClock (getNextCheckTime someClock) = 8%Z
  /\ localDay someClock (getNextCheckTime someClock)
     = (localDay someClock (now someClock) + 1)%Z.
Proof.
  assert (Hz : constantOffset someClock)
    by (exists 3600000%Z; split; intros x; reflexivity).
  destruct (@next_check_is_eight_next_morning someClock Hz) as (H1 & _ & _ & H4 & _).
  split; [exact Hz |]. split; [vm_compute; reflexivity |].
  split; [exact H1 | exact H4].
Defined.

Lemma alert_counts (l : list AlertThreshold.t) :
  (List.length (filter isActive l)
   + List.length (filter (hasStatus AlertThreshold.ok) l) = List.length l
   /\ List.length (filter isActive l)
      = List.length (filter (hasStatus AlertThreshold.warning) l)
        + List.length (filter (hasStatus AlertThreshold.critical) l))%nat.
Proof.
  induction l as [|a l [IH1 IH2]]; [split; reflexivity |].
  cbn [filter].
  assert (Ha : isActive a = negb (hasStatus AlertThreshold.ok a)
               /\ isActive a = (hasStatus AlertThreshold.warning a
                                || hasStatus AlertThreshold.critical a)%bool
               /\ (hasStatus AlertThreshold.warning a
                   && hasStatus AlertThreshold.critical a)%bool = false)
    by (unfold isActive, hasStatus; destruct (AlertThreshold.status a);
        repeat split; reflexivity).
  destruct Ha as (Ha1 & Ha2 & Ha3). revert Ha1 Ha2 Ha3.
  destruct (isActive a), (hasStatus AlertThreshold.ok a),
    (hasStatus AlertThreshold.warning a), (hasStatus AlertThreshold.critical a);
    cbn [negb orb andb]; intros Ha1 Ha2 Ha3; try discriminate;
    cbn [List.length]; lia.
Qed.

(** X19. Whatever the thresholds, the summary adds up: every check is either
    active or [ok], every active alert either a warning or critical; the
    active alerts are listed in the order of the thresholds, one entry each,
    none of them [ok], with priority [high] exactly when critical. *)
Theorem alert_summary_counts :
  forall (clk : Clock) (alerts : list AlertThreshold.t),
  exists res,
    resultOf (alertResponse clk alerts) = Some res
    /\ all_thresholds res = alerts
    /\ AlertSummary.total_checks (alert_summary res) = List.length alerts
    /\ (AlertSummary.active_alerts (alert_summary res)
        + AlertSummary.ok (alert_summary res)
        = AlertSummary.total_checks (alert_summary res))%nat
    /\ (AlertSummary.warnings (alert_summary res)
        + AlertSummary.critical (alert_summary res)
        = AlertSummary.active_alerts (alert_summary res))%nat
    /\ List.length (active_alerts res) = AlertSummary.active_alerts (alert_summary res)
    /\ map ActiveAlert.metric (active_alerts res)
       = map AlertThreshold.metric (filter isActive alerts)
    /\ Forall (fun a => ActiveAlert.status a <> AlertThreshold.ok
                        /\ (ActiveAlert.priority a = "high"
                            <-> ActiveAlert.status a = AlertThreshold.critical))
              (active_alerts res).
Proof.
  intros clk alerts. unfold alertResponse. eexists.
  split; [reflexivity |].
  cbv beta iota delta [all_thresholds alert_summary active_alerts
                       AlertSummary.total_checks AlertSummary.active_alerts
                       AlertSummary.ok AlertSummary.warnings AlertSummary.critical].
  destruct (alert_counts alerts) as [H1 H2].
  split; [reflexivity |]. split; [reflexivity |].
  split; [exact H1 |]. split; [symmetry; exact H2 |].
  split; [apply length_map |].
  split; [rewrite map_map; reflexivity |].
  apply Forall_forall. intros a Ha.
  apply in_map_iff in Ha as [x [<- Hx]]. apply filter_In in Hx as [_ Hx].
  unfold toActiveAlert, isActive in *. cbn [ActiveAlert.status ActiveAlert.priority].
  destruct (AlertThreshold.status x); try discriminate Hx;
    (split; [discriminate |]); split; intros H; (reflexivity || discriminate H).
Qed.

Lemma addRecommendations_flagged (r : Recommendations) (a : AlertThreshold.t) :
  addRecommendations r a
  = match flaggedMetric a with
    | Some k => {| immediate := immediate r ++ [immediateText k];
                   short_term := short_term r ++ [shortTermText k];
                   long_term := long_term r ++ [longTermText k] |}
    | None => r
    end.
Proof.
  unfold addRecommendations, flaggedMetric.
  destruct (isActive a); [| reflexivity].
  destruct (String.eqb (AlertThreshold.metric a) "HRV"); [reflexivity |].
  destruct (String.eqb (AlertThreshold.metric a) "Sleep Duration"); [reflexivity |].
  destruct (String.eqb (AlertThreshold.metric a) "Daily Steps"); reflexivity.
Qed.

Lemma fold_addRecommendations (alerts : list AlertThreshold.t) (r : Recommendations) :
  fold_left addRecommendations alerts r
  = {| immediate := immediate r ++ map immediateText (flaggedMetrics alerts);
       short_term := short_term r ++ map shortTermText (flaggedMetrics alerts);
       long_term := long_term r ++ map longTermText (flaggedMetrics alerts) |}.
Proof.
  revert r. induction alerts as [|a alerts IH]; intros r.
  - cbn. rewrite !app_nil_r. now destruct r.
  - cbn [fold_left]. rewrite IH, addRecommendations_flagged.
    unfold flaggedMetrics. cbn [flat_map].
    destruct (flaggedMetric a) as [k|]; [| reflexivity].
    cbn [immediate short_term long_term app map]. now rewrite <- !app_assoc.
Qed.

Lemma dedupeFrom_map {A B : Type} (eqA : A -> A -> bool) (eqB : B -> B -> bool)
    (f : A -> B) :
  (forall a b, eqB (f a) (f b) = eqA a b) ->
  forall l seen,
    dedupeFrom eqB (map f seen) (map f l) = map f (dedupeFrom eqA seen l).
Proof.
  intros Hf. induction l as [|x l IH]; intros seen; [reflexivity |].
  cbn [map dedupeFrom].
  assert (E : existsb (eqB (f x)) (map f seen) = existsb (eqA x) seen).
  { induction seen as [|y seen IHs]; [reflexivity |].
    cbn [map existsb]. now rewrite Hf, IHs. }
  rewrite E. destruct (existsb (eqA x) seen); [apply IH |].
  cbn [map]. f_equal. apply (IH (x :: seen)).
Qed.

Lemma dedupe_map {A B : Type} (eqA : A -> A -> bool) (eqB : B -> B -> bool)
    (f : A -> B) (l : list A) :
  (forall a b, eqB (f a) (f b) = eqA a b) ->
  dedupeFrom eqB [] (map f l) = map f (dedupeFrom eqA [] l).
Proof. intros Hf. apply (dedupeFrom_map eqA eqB f Hf l []). Qed.

(** The elements of a [Set] are distinct. *)
Lemma dedupeFrom_NoDup {A : Type} (eqb : A -> A -> bool) :
  (forall a b, eqb a b = true <-> a = b) ->
  forall l seen,
    NoDup (dedupeFrom eqb seen l)
    /\ forall x, In x (dedupeFrom eqb seen l) -> ~ In x seen.
Proof.
  intros Heq. induction l as [|x l IH]; intros seen.
  - split; [constructor | intros x []].
  - cbn [dedupeFrom]. destruct (existsb (eqb x) seen) eqn:E; [apply IH |].
    destruct (IH (x :: seen)) as [Hnd Hnot].
    assert (Hx : ~ In x seen).
    { intros Hin. assert (existsb (eqb x) seen = true); [| congruence].
      apply existsb_exists. exists x. split; [exact Hin | now apply Heq]. }
    split.
    + constructor; [| exact Hnd]. intros Hin. apply (Hnot x Hin). now left.
    + intros y [<- | Hy]; [exact Hx |].
      intros Hin. apply (Hnot y Hy). now right.
Qed.

Lemma metric_eqb_eq (a b : Metric) : metric_eqb a b = true <-> a = b.
Proof. destruct a, b; cbn; split; intros H; (reflexivity || discriminate H). Qed.

Lemma tier_texts_differ :
  (forall a b, String.eqb (immediateText a) (immediateText b) = metric_eqb a b)
  /\ (forall a b, String.eqb (shortTermText a) (shortTermText b) = metric_eqb a b)
  /\ (forall a b, String.eqb (longTermText a) (longTermText b) = metric_eqb a b)
  /\ (forall k, [immediateText k] <> immediate wellness).
Proof.
  repeat split; try (intros a b; destruct a, b; vm_compute; reflexivity).
  intros k H. destruct k; vm_compute in H; discriminate H.
Qed.

Lemma flaggedMetrics_nil (alerts : list AlertThreshold.t) :
  flaggedMetrics alerts = [] <-> forall a, In a alerts -> flaggedMetric a = None.
Proof.
  unfold flaggedMetrics. induction alerts as [|a alerts IH]; cbn [flat_map].
  - split; [intros _ x [] | reflexivity].
  - destruct (flaggedMetric a) as [k|] eqn:E; cbn [app].
    + split; [discriminate |]. intros H.
      specialize (H a (or_introl eq_refl)). congruence.
    + rewrite IH. split.
      * intros H x [<- | Hx]; [exact E | now apply H].
      * intros H x Hx. apply H. now right.
Qed.

(** X20. Whatever the thresholds, the three tiers of recommendations have the
    same number of entries, from one to three, none of them repeated; they
    are the general wellness texts exactly when no threshold of the HRV, the
    sleep duration or the daily steps is active. *)
Theorem alert_recommendations_tiers :
  forall alerts : list AlertThreshold.t,
    let r := generateAlertRecommendations alerts in
    List.length (immediate r) = List.length (short_term r)
    /\ List.length (short_term r) = List.length (long_term r)
    /\ (1 <= List.length (immediate r) <= 3)%nat
    /\ NoDup (immediate r) /\ NoDup (short_term r) /\ NoDup (long_term r)
    /\ (r = wellness <-> forall a, In a alerts -> flaggedMetric a = None).
Proof.
  intros alerts r. subst r. unfold generateAlertRecommendations.
  rewrite fold_addRecommendations. cbn [immediate short_term long_term app].
  rewrite <- flaggedMetrics_nil.
  destruct tier_texts_differ as (Hi & Hs & Hl & Hw).
  unfold dedupe.
  rewrite (dedupe_map metric_eqb String.eqb immediateText _ Hi),
          (dedupe_map metric_eqb String.eqb shortTermText _ Hs),
          (dedupe_map metric_eqb String.eqb longTermText _ Hl).
  destruct (dedupeFrom_NoDup metric_eqb metric_eqb_eq (flaggedMetrics alerts) [])
    as [Hnd _].
  assert (Hinj : forall f : Metric -> string,
             (forall a b, String.eqb (f a) (f b) = metric_eqb a b) ->
             forall l, NoDup l -> NoDup (map f l)).
  { intros f Hf l Hl'. apply Finite.Injective_map_NoDup; [| exact Hl'].
    intros a b E. apply metric_eqb_eq. rewrite <- Hf, E. apply String.eqb_refl. }
  assert (Hlen : (List.length (dedupeFrom metric_eqb [] (flaggedMetrics alerts)) <= 3)%nat).
  { apply (@NoDup_incl_length _ _ [hrvMetric; sleepMetric; stepsMetric] Hnd).
    intros k _. destruct k; cbn; tauto. }
  destruct (flaggedMetrics alerts) as [|k ks] eqn:Ek.
  - cbn [dedupeFrom map app immediate short_term long_term List.length wellness].
    repeat split; try reflexivity; try lia; repeat constructor; cbn [In]; tauto.
  - cbn [dedupeFrom existsb] in *. cbn [map immediate short_term long_term].
    cbn [map List.length] in Hlen.
    cbn [List.length]. rewrite !length_map.
    split; [reflexivity |]. split; [reflexivity |]. split; [lia |].
    split; [apply (Hinj immediateText Hi _ Hnd) |].
    split; [apply (Hinj shortTermText Hs _ Hnd) |].
    split; [apply (Hinj longTermText Hl _ Hnd) |].
    split; [| discriminate].
    intros H. exfalso. apply (f_equal immediate) in H. cbn [immediate] in H.
    destruct (map immediateText (dedupeFrom metric_eqb [k] ks)) eqn:Em.
    + exact (Hw k H).
    + cbn [wellness immediate] in H. discriminate H.
Qed.

(** X21. The alert check of generated data, whatever is drawn: three checks, all
    of them [ok], and no active alert; the recommendations are the general
    wellness texts; the next check is the one of [getNextCheckTime]; and the
    next actions are the status, HRV and sleep commands. *)
Theorem alertCommand_generated (clk : Clock) (g : Rng) :
  unitDraws g ->
  exists r res,
    fst (alertCommand clk g) = Returns r
    /\ resultOf r = Some res
    /\ ok r = true
    /\ alert_summary res
       = {| AlertSummary.total_checks := 3; AlertSummary.active_alerts := 0;
            AlertSummary.warnings := 0; AlertSummary.critical := 0;
            AlertSummary.ok := 3 |}
    /\ active_alerts res = []
    /\ map AlertThreshold.metric (all_thresholds res)
       = ["HRV"; "Sleep Duration"; "Daily Steps"]
    /\ recommendations res = wellness
    /\ timestamp res = now clk
    /\ next_check res = getNextCheckTime clk
    /\ next_actions r
       = [COMMON_ACTIONS.STATUS; COMMON_ACTIONS.HRV; COMMON_ACTIONS.SLEEP].
Proof.
  intros Hg. unfold alertCommand, generateMockAlerts, bind.
  destruct (generateMockStatus_generated clk Hg) as (st & E & _ & Hst).
  destruct (generateMockStatus clk g) as [o g1]. cbn [fst] in E. subst o.
  cbn [ret fst].
  destruct Hst as (_ & (Hv & _) & (Hn & _) & _ & _ & (Hs & _) & _).
  assert (E1 : ltb (HealthStatus.current (HealthStatus.hrv st)) 30 = false)
    by (apply ltb_ge; lra).
  assert (E2 : ltb (HealthStatus.last_night_hours (HealthStatus.sleep st)) 6 = false)
    by (apply ltb_ge; lra).
  assert (E3 : ltb (HealthStatus.steps (HealthStatus.activity st)) 5000 = false)
    by (apply ltb_ge; lra).
  unfold alertThresholds, thresholdEntry. rewrite E1, E2, E3.
  do 2 eexists. split; [reflexivity |]. split; [reflexivity |].
  repeat split; reflexivity.
Qed.

Lemma alertCommand_generated_witness :
  exists r res,
    fst (alertCommand someClock halves) = Returns r
    /\ resultOf r = Some res
    /\ active_alerts res = []
    /\ recommendations res = wellness.
Proof.
  assert (Hg : unitDraws halves) by (intros n; unfold halves; split; lra).
  destruct (@alertCommand_generated someClock halves Hg)
    as (r & res & E & Eres & _ & _ & Ha & _ & Hr & _).
  exists r, res. split; [exact E |]. split; [exact Eres |].
  split; [exact Ha | exact Hr].
Defined.

End AlertFacts.

(* ================================================================== *)
(** ** The warnings of the scanner *)
(* ================================================================== *)

Section ScannerWarnings.
Import ImportCmd.

Lemma In_optional {A : Type} (b : bool) (y x : A) :
  In x (if b then [y] else []) <-> b = true /\ y = x.
Proof.
  destruct b; cbn [In]; split; intros H.
  - destruct H as [H | []]. now split.
  - left. tauto.
  - destruct H.
  - destruct H as [H _]. discriminate H.
Qed.

Lemma warning_texts_differ (n : N) :
  noRecordsWarning <> hrvMissingWarning
  /\ noRecordsWarning <> sleepMissingWarning
  /\ noRecordsWarning <> privacyNotice
  /\ sleepMissingWarning <> hrvMissingWarning
  /\ sleepMissingWarning <> privacyNotice
  /\ largeDatasetWarning n <> noRecordsWarning
  /\ largeDatasetWarning n <> hrvMissingWarning
  /\ largeDatasetWarning n <> sleepMissingWarning
  /\ largeDatasetWarning n <> privacyNotice.
Proof.
  assert (Hlarge : exists rest, largeDatasetWarning n = 76%N :: rest).
  { unfold largeDatasetWarning. generalize (decimal n). intros d.
    eexists. vm_compute. reflexivity. }
  destruct Hlarge as [rest ->].
  repeat split; intros H; vm_compute in H; discriminate H.
Qed.

(** X22. The warnings of every accepted export: the HRV warning is always
    among them, because no simplified type name can be the label that the
    scanner looks for; the privacy notice is always the last; the no-records
    warning is there exactly when nothing was counted, the large-dataset
    warning exactly when more than 50000 records were, and the sleep warning
    exactly when [Sleep Analysis] is not among the data types. There are two
    to four warnings. *)
Theorem scan_warnings_shape (xml : jsstring) (r : ParseResult) :
  parseAppleHealthXML xml = Returns r ->
  In hrvMissingWarning (warnings r)
  /\ (exists init, warnings r = init ++ [privacyNotice])
  /\ (In noRecordsWarning (warnings r) <-> recordCount r = 0%N)
  /\ (In (largeDatasetWarning (recordCount r)) (warnings r)
      <-> (50000 < recordCount r)%N)
  /\ (In sleepMissingWarning (warnings r)
      <-> ~ In (utf16 "Sleep Analysis") (dataTypes r))
  /\ (2 <= List.length (warnings r) <= 4)%nat.
Proof.
  unfold parseAppleHealthXML.
  destruct (negb (includes xml (utf16 "<HealthData"))); [discriminate |].
  remember (firstn 1000 (matchAll (tagOpener "Record") xml)) as sample eqn:Es.
  clear Es.
  intros H. apply (f_equal (fun o => match o with
                                     | Returns x => x
                                     | Throws _ => r
                                     end)) in H.
  cbv beta iota in H. rewrite <- H. clear H r.
  cbv beta iota zeta delta [warnings recordCount dataTypes].
  set (count := N.of_nat _).
  set (types := fold_left collectType sample []).
  destruct (warning_texts_differ count)
    as (D1 & D2 & D3 & D4 & D5 & D6 & D7 & D8 & D9).
  assert (Hno : set_has types (utf16 "Heart Rate Variability SDNN") = false).
  { destruct (set_has types _) eqn:E; [| reflexivity].
    apply set_has_In in E.
    assert (Hsp : Forall (fun x => capsSpaced x = true) types)
      by (apply collectType_spaced; constructor).
    rewrite Forall_forall in Hsp. apply Hsp in E. discriminate E. }
  rewrite Hno. cbn [negb].
  assert (Hsleep : set_has types (utf16 "Sleep Analysis") = true
                   <-> In (utf16 "Sleep Analysis") (sort types)).
  { split.
    - intros Hs. apply set_has_In in Hs.
      eapply Permutation_in; [symmetry; apply sort_perm | exact Hs].
    - intros Hs. apply In_set_has.
      eapply Permutation_in; [apply sort_perm | exact Hs]. }
  assert (E0 : N.eqb count 0 = true <-> count = 0%N) by apply N.eqb_eq.
  assert (E5 : N.ltb 50000 count = true <-> (50000 < count)%N) by apply N.ltb_lt.
  repeat rewrite in_app_iff. repeat rewrite In_optional. cbn [In].
  split; [right; right; left; left; reflexivity |].
  split; [exists ((if N.eqb count 0 then [noRecordsWarning] else [])
                  ++ (if N.ltb 50000 count then [largeDatasetWarning count] else [])
                  ++ [hrvMissingWarning]
                  ++ (if negb (set_has types (utf16 "Sleep Analysis"))
                      then [sleepMissingWarning] else []));
          now rewrite <- !app_assoc |].
  split.
  { split.
    - intros [[Hc _] | [[_ Hx] | [[Hx | []] | [[_ Hx] | [Hx | []]]]]];
        [tauto | | | |]; exfalso; congruence.
    - intros Hc. left. split; [tauto | reflexivity]. }
  split.
  { split.
    - intros [[_ Hx] | [[Hc _] | [[Hx | []] | [[_ Hx] | [Hx | []]]]]];
        [| tauto | | |]; exfalso; congruence.
    - intros Hc. right. left. split; [tauto | reflexivity]. }
  split.
  - rewrite <- Hsleep. rewrite negb_true_iff.
    split.
    + intros [[_ Hx] | [[_ Hx] | [[Hx | []] | [[Hc _] | [Hx | []]]]]];
        [| | | congruence |]; exfalso; congruence.
    + intros Hx. right. right. right. left.
      split; [| reflexivity]. now destruct (set_has types (utf16 "Sleep Analysis")).
  - repeat rewrite length_app. cbn [List.length].
    destruct (N.eqb count 0) eqn:B0; destruct (N.ltb 50000 count) eqn:B5;
      destruct (negb (set_has types (utf16 "Sleep Analysis")));
      cbn [List.length]; try lia.
    all: exfalso; assert (count = 0%N) by tauto; assert (50000 < count)%N by tauto; lia.
Qed.

Lemma scan_warnings_shape_witness :
  exists r,
    parseAppleHealthXML sampleExport = Returns r
    /\ In hrvMissingWarning (warnings r)
    /\ List.length (warnings r) = 2%nat.
Proof.
  pose (r := {| recordCount := 2;
                dataTypes := [utf16 "Heart Rate Variability S D N N";
                              utf16 "Sleep Analysis"];
                dateRange := {| start := utf16 "2024-01-01";
                                end_ := utf16 "2024-01-03" |};
                warnings := [hrvMissingWarning; privacyNotice] |}).
  assert (H : parseAppleHealthXML sampleExport = Returns r)
    by (vm_compute; reflexivity).
  exists r. split; [exact H |].
  destruct (@scan_warnings_shape sampleExport r H) as (Hhrv & _).
  split; [exact Hhrv | reflexivity].
Defined.

End ScannerWarnings.

(* ================================================================== *)
(** ** Clock texts *)
(* ================================================================== *)

Section ClockTexts.
Import SleepCmd.

(** X23. [timeToMinutes] reads back what the generators print: for every
    instant, the local [HH:MM] text gives the whole minutes since local
    midnight, a number from 0 to 1439; and the text of an hour below 24 and
    a minute below 60 gives 60 times the hour plus the minute. *)
Theorem clock_text_round_trip :
  forall (clk : Clock) (t : Z) (hm : Z * Z),
    timeToMinutes (timeHHMM clk t)
    = Some ((localTime clk t mod msPerDay) / msPerMinute)%Z
    /\ (0 <= (localTime clk t mod msPerDay) / msPerMinute < 1440)%Z
    /\ (validClock hm -> timeToMinutes (clockText hm) = Some (minutesOf hm)).
Proof.
  intros clk t hm. split; [| split].
  - rewrite timeToMinutes_timeHHMM. f_equal.
    unfold getHours, getMinutes, msPerDay, msPerHour, msPerMinute.
    generalize (localTime clk t). intros l.
    Z.to_euclidean_division_equations; lia.
  - unfold msPerDay, msPerMinute. generalize (localTime clk t). intros l.
    Z.to_euclidean_division_equations; lia.
  - intros [Hh Hm]. unfold clockText, minutesOf.
    apply timeToMinutes_pad2; lia.
Qed.

End ClockTexts.
